(** * FSD_Turf: slot arithmetic, cancellation window, booking lifecycle and
    admin aggregation

    A shallow embedding of the decision logic of the turf-booking front end:

    - [MyBookings]     src/pages/MyBookings.tsx    (canCancelBooking,
                       handleCancelRequest, handleCancelConfirm)
    - [TurfDetail]     the turf detail page        (timeSlots, handleBooking)
    - [AdminDashboard] the admin dashboard page    (fetchStats aggregates)

    Conventions of the embedding.

    - JavaScript strings are [string]; a character stands for the code unit
      of the same number, so the strings covered are those over code units
      below 256.
    - Prices and the revenue are Numbers of JavaScript, IEEE 754 doubles,
      with their rounding, infinities, NaN and signed zero ([Number]).
    - JavaScript numbers that the code obtains from [parseInt] on a run of
      decimal digits, from [Date] time values and from counts are integers
      and are modelled in [Z]; NaN is [None].  Doubles compute on integers
      exactly as long as every value stays below 2^53 in magnitude: the time
      values of dates do ([TimeClip]), and so do the products of [MakeTime]
      for any hour and minute of fewer than ten digits.  The only division of
      the code, the one by the number of milliseconds in an hour, is carried out
      in [Q]: the quotient of two such integers rounds to a double that is at
      least 7 exactly when the exact quotient is.
    - The host environment (what [new Date(string)] makes of a string and the
      local time zone) is the class [Host]; the Date algorithms themselves
      follow ECMA-262.
    - The backend client is external: its replies are inputs of the handlers,
      and the table it keeps is an explicit list of rows. *)

From Stdlib Require Import ZArith QArith List String Ascii Bool Lia.
From Stdlib Require Import Numbers.DecimalString.
Import ListNotations.

Open Scope string_scope.
Open Scope Z_scope.

(* ================================================================== *)
(** * The JavaScript runtime primitives the pages rely on *)
(* ================================================================== *)

Module JS.

(** ** Characters and strings *)

(** [\d] of a regular expression without the [u] flag: the ten ASCII digits. *)
Definition is_digit (c : ascii) : bool :=
  match c with
  | "0" | "1" | "2" | "3" | "4" | "5" | "6" | "7" | "8" | "9" => true
  | _ => false
  end%char.

Definition digit_value (c : ascii) : Z := Z.of_N (N_of_ascii c) - 48.

(** [\s]: TAB, LF, VT, FF, CR, SPACE and NO-BREAK SPACE are the white space
    and line terminator code units below 256. *)
Definition is_space (c : ascii) : bool :=
  let n := N_of_ascii c in
  (((9 <=? n) && (n <=? 13)) || (n =? 32) || (n =? 160))%N.

(** The longest run of digits at the head of a string, and what follows. *)
Fixpoint span_digits (s : string) : string * string :=
  match s with
  | String c r =>
      if is_digit c
      then let (d, t) := span_digits r in (String c d, t)
      else ("", s)
  | "" => ("", "")
  end.

(** Greedy [\s*]: drop the white space at the head of a string. *)
Fixpoint skip_spaces (s : string) : string :=
  match s with
  | String c r => if is_space c then skip_spaces r else s
  | "" => ""
  end.

Definition is_empty (s : string) : bool :=
  match s with "" => true | _ => false end.

Fixpoint all_digits (s : string) : bool :=
  match s with
  | String c r => is_digit c && all_digits r
  | "" => true
  end.

(** [String.prototype.toUpperCase] on the letters a-z; the pages call it on
    the text matched by [[AP]M] only. *)
Definition upper_char (c : ascii) : ascii :=
  let n := N_of_ascii c in
  if ((97 <=? n) && (n <=? 122))%N then ascii_of_N (n - 32) else c.

Fixpoint toUpperCase (s : string) : string :=
  match s with
  | String c r => String (upper_char c) (toUpperCase r)
  | "" => ""
  end.

(** [parseInt] in base ten on a string that starts with its digits (every
    call of the pages passes a [\d+] capture): the value of the leading run of
    digits, and NaN ([None]) when there is none. *)
Fixpoint digits_value (acc : Z) (s : string) : Z :=
  match s with
  | String c r => if is_digit c then digits_value (10 * acc + digit_value c) r else acc
  | "" => acc
  end.

Definition parseInt (s : string) : option Z :=
  match s with
  | String c _ => if is_digit c then Some (digits_value 0 s) else None
  | "" => None
  end.

(** [Number.prototype.toString] of an integer. *)
Definition Number_toString (n : Z) : string :=
  NilZero.string_of_int (Z.to_int n).

Fixpoint repeat_char (c : ascii) (n : nat) : string :=
  match n with
  | O => ""
  | S k => String c (repeat_char c k)
  end.

(** [s.padStart(n, c)] with a one-character filler. *)
Definition padStart (s : string) (n : nat) (c : ascii) : string :=
  repeat_char c (n - String.length s) ++ s.

(** [s.split(sep)[0]] with a one-character separator: the text before the
    first separator. *)
Fixpoint split_head (sep : ascii) (s : string) : string :=
  match s with
  | String c r => if Ascii.eqb c sep then "" else String c (split_head sep r)
  | "" => ""
  end.

(** ** Dates (ECMA-262, Date objects) *)

Definition msPerSecond : Z := 1000.
Definition msPerMinute : Z := 60000.
Definition msPerHour : Z := 3600000.
Definition msPerDay : Z := 86400000.

Definition Day (t : Z) : Z := t / msPerDay.
Definition TimeWithinDay (t : Z) : Z := t mod msPerDay.

Definition MakeTime (hour min sec ms : Z) : Z :=
  hour * msPerHour + min * msPerMinute + sec * msPerSecond + ms.

Definition MakeDate (day time : Z) : Z := day * msPerDay + time.

(** A time value further than 8.64e15 ms from the epoch is no date. *)
Definition TimeClip (t : Z) : option Z :=
  if Z.abs t <=? 8640000000000000 then Some t else None.

(** What the pages take from their environment: the time value that
    [new Date(s)] gets from a string ([None] for an Invalid Date) and the
    offset of local time, [LocalTZA(t, isUTC)] of ECMA-262. *)
Class Host := {
  Date_parse : string -> option Z;
  LocalTZA : Z -> bool -> Z
}.

Section HostDates.
Context `{Host}.

Definition LocalTime (t : Z) : Z := t + LocalTZA t true.
Definition UTC (t : Z) : Z := t - LocalTZA t false.

(** [d.setHours(hour, min, sec, ms)]: the new time value of [d]; an Invalid
    Date stays invalid. *)
Definition setHours (d : option Z) (hour min sec ms : Z) : option Z :=
  match d with
  | None => None
  | Some tv =>
      let t := LocalTime tv in
      let date := MakeDate (Day t) (MakeTime hour min sec ms) in
      TimeClip (UTC date)
  end.
End HostDates.

(** ** The date-only form of the ECMA-262 date-time string format *)

(** Days from 1970-01-01 to the civil date [y]-[m]-[d] (proleptic Gregorian
    calendar). *)
Definition days_from_civil (y m d : Z) : Z :=
  let y' := if m <=? 2 then y - 1 else y in
  let era := y' / 400 in
  let yoe := y' - era * 400 in
  let mp := (m + 9) mod 12 in
  let doy := (153 * mp + 2) / 5 + d - 1 in
  let doe := yoe * 365 + yoe / 4 - yoe / 100 + doy in
  era * 146097 + doe - 719468.

Definition is_leap (y : Z) : bool :=
  ((y mod 4 =? 0) && negb (y mod 100 =? 0)) || (y mod 400 =? 0).

Definition days_in_month (y m : Z) : Z :=
  if m =? 2 then (if is_leap y then 29 else 28)
  else if (m =? 4) || (m =? 6) || (m =? 9) || (m =? 11) then 30
  else 31.

(** [YYYY-MM-DD] names midnight UTC of a day of the calendar; nothing else is
    a date-only string. *)
Definition parse_date_only (s : string) : option Z :=
  match s with
  | String y1 (String y2 (String y3 (String y4 (String "-"
      (String m1 (String m2 (String "-" (String d1 (String d2 ""))))))))) =>
      if all_digits (String y1 (String y2 (String y3 (String y4
           (String m1 (String m2 (String d1 (String d2 ""))))))))
      then
        let y := digits_value 0 (String y1 (String y2 (String y3 (String y4 "")))) in
        let m := digits_value 0 (String m1 (String m2 "")) in
        let d := digits_value 0 (String d1 (String d2 "")) in
        if (1 <=? m) && (m <=? 12) && (1 <=? d) && (d <=? days_in_month y m)
        then Some (days_from_civil y m d * msPerDay)
        else None
      else None
  | _ => None
  end.

(** The calendar date of a day number, the inverse of [days_from_civil]. *)
Definition civil_from_days (z0 : Z) : Z * Z * Z :=
  let z := z0 + 719468 in
  let era := z / 146097 in
  let doe := z - era * 146097 in
  let yoe := (doe - doe / 1460 + doe / 36524 - doe / 146096) / 365 in
  let doy := doe - (365 * yoe + yoe / 4 - yoe / 100) in
  let mp := (5 * doy + 2) / 153 in
  let d := doy - (153 * mp + 2) / 5 + 1 in
  let m := if mp <? 10 then mp + 3 else mp - 9 in
  let y := yoe + era * 400 in
  (if m <=? 2 then y + 1 else y, m, d).

Definition pad (w : nat) (n : Z) : string := padStart (Number_toString n) w "0".

(** [Date.prototype.toISOString] of a valid time value:
    [YYYY-MM-DDTHH:mm:ss.sssZ] in UTC, the year on six signed digits outside
    0..9999. *)
Definition Date_toISOString (tv : Z) : string :=
  let '(y, m, d) := civil_from_days (Day tv) in
  let t := TimeWithinDay tv in
  let year :=
    if (0 <=? y) && (y <=? 9999) then pad 4 y
    else (if y <? 0 then "-" else "+") ++ pad 6 (Z.abs y) in
  year ++ "-" ++ pad 2 m ++ "-" ++ pad 2 d ++ "T"
    ++ pad 2 (t / msPerHour) ++ ":" ++ pad 2 ((t / msPerMinute) mod 60) ++ ":"
    ++ pad 2 ((t / msPerSecond) mod 60) ++ "." ++ pad 3 (t mod msPerSecond) ++ "Z".

End JS.

(* ================================================================== *)
(** * The Number type *)
(* ================================================================== *)

(** A Number of JavaScript is an IEEE 754 binary64 value.  Every finite one
    is a whole multiple of the least positive one, [2^-1074]: the Numbers
    below [2^-1021] in magnitude are any such multiple of fewer than 54 bits,
    and each binade above doubles the spacing.  A finite Number is kept as
    that multiple, so that the sum of two of them is an integer before it is
    rounded. *)
Module Number.

Inductive t : Type :=
| NaN
| Infinity (negative : bool)
| NegZero
| Finite (k : Z).

Definition unit_exponent : Z := 1074.

(** [2^1024], the least magnitude that rounds to an infinity, in units. *)
Definition overflow_units : Z := 2 ^ 2098.

Definition zero : t := Finite 0.

(** The Number value for the ratio [n / d] of units ([0 <= n], [0 < d]) with
    the given sign (ECMA-262 6.1.6.1): the nearest multiple of the spacing
    [2^s] at that magnitude, a tie going to the even multiple, and an
    infinity from [2^1024] on. *)
Definition nearest (negative : bool) (n d : Z) : t :=
  let s := Z.max 0 (Z.log2 (n / d) - 52) in
  let D := d * 2 ^ s in
  let q := n / D in
  let r := n mod D in
  let m := if (D <? 2 * r) || ((2 * r =? D) && Z.odd q) then q + 1 else q in
  let v := m * 2 ^ s in
  if overflow_units <=? v then Infinity negative
  else if negative then (if v =? 0 then NegZero else Finite (- v))
  else Finite v.

(** The Number that a decimal numeral, in the source or in JSON, denotes. *)
Definition of_Q (q : Q) : t :=
  nearest (Qnum q <? 0) (Z.abs (Qnum q) * 2 ^ unit_exponent) (Zpos (Qden q)).

Definition of_Z (n : Z) : t :=
  nearest (n <? 0) (Z.abs n * 2 ^ unit_exponent) 1.

(** [x + y] (Number::add, ECMA-262 6.1.6.1.7). *)
Definition add (x y : t) : t :=
  match x, y with
  | NaN, _ | _, NaN => NaN
  | Infinity a, Infinity b => if Bool.eqb a b then x else NaN
  | Infinity _, _ => x
  | _, Infinity _ => y
  | NegZero, _ => y
  | _, NegZero => x
  | Finite a, Finite b =>
      if a + b =? 0 then zero else nearest (a + b <? 0) (Z.abs (a + b)) 1
  end.

(** ToBoolean of a Number: NaN and the two zeros are falsy. *)
Definition to_boolean (x : t) : bool :=
  match x with
  | NaN | NegZero => false
  | Infinity _ => true
  | Finite k => negb (k =? 0)
  end.

(** [x || 0]. *)
Definition or0 (x : t) : t := if to_boolean x then x else zero.

(** The real number that a finite Number is. *)
Definition value (x : t) : option Q :=
  match x with
  | Finite k => Some (Qmake k (2 ^ 1074))
  | NegZero => Some 0%Q
  | NaN | Infinity _ => None
  end.

End Number.

(* ================================================================== *)
(** * What the pages show and log *)
(* ================================================================== *)

Module UI.

Inductive Variant := Plain | Destructive.

Record Toast := {
  title : string;
  description : string;
  variant : Variant
}.

(** The observable effects of a handler, oldest first. *)
Inductive Event :=
| Toasted (t : Toast)
| ConsoleError (label : string)
| ConsoleLog (label : string)
| Navigated (path : string)
| Invoked (function_name : string) (recipient : string).

End UI.

(* ================================================================== *)
(** * The backend collaborator *)
(* ================================================================== *)

Module Backend.

(** A row of the [bookings] resource. *)
Record BookingRow := {
  id : string;
  turf_id : string;
  user_id : string;
  booking_date : string;
  start_time : string;
  end_time : string;
  total_price : Number.t;
  status : string;
  created_at : string
}.

Definition set_status (st : string) (r : BookingRow) : BookingRow :=
  {| id := id r; turf_id := turf_id r; user_id := user_id r;
     booking_date := booking_date r; start_time := start_time r;
     end_time := end_time r; total_price := total_price r;
     status := st; created_at := created_at r |}.

Definition Table := list BookingRow.

(** [.eq('id', x)] *)
Definition eq_id (x : string) (t : Table) : Table :=
  filter (fun r => String.eqb (id r) x) t.

(** [.update({ status }).eq('id', x)] *)
Definition update_status (x st : string) (t : Table) : Table :=
  map (fun r => if String.eqb (id r) x then set_status st r else r) t.

(** An error object; the pages read its [message]. *)
Record Error := { message : string }.

(** How a call of [supabase.functions.invoke] ends: a reply without error, a
    reply that carries an error, or a rejected promise.  The functions client
    answers a request that failed with [{ data: null, error }], the second
    case; the third is what the [try] around the call in [handleBooking]
    is there for. *)
Inductive InvokeReply :=
| InvokeOk
| InvokeFailed (e : Error)
| InvokeThrew (e : Error).

Record User := {
  uid : string;
  email : option string
}.

End Backend.

(* ================================================================== *)
(** * handlers as state transformers that may throw *)
(* ================================================================== *)

Module Eff.

Inductive Res (A : Type) :=
| Returned (a : A)
| Threw (e : Backend.Error).
Arguments Returned {A} a.
Arguments Threw {A} e.

Definition M (S A : Type) : Type := S -> Res A * S.

Definition ret {S A} (a : A) : M S A := fun s => (Returned a, s).

Definition bind {S A B} (m : M S A) (k : A -> M S B) : M S B :=
  fun s =>
    match m s with
    | (Returned a, s') => k a s'
    | (Threw e, s') => (Threw e, s')
    end.

Definition throw {S A} (e : Backend.Error) : M S A := fun s => (Threw e, s).

Definition modify {S} (f : S -> S) : M S unit := fun s => (Returned tt, f s).

(** [try { body } catch (e) { handler e }] *)
Definition try_catch {S A} (body : M S A) (handler : Backend.Error -> M S A) : M S A :=
  fun s =>
    match body s with
    | (Returned a, s') => (Returned a, s')
    | (Threw e, s') => handler e s'
    end.

(** [try { body } finally { cleanup }] *)
Definition try_finally {S A} (body : M S A) (cleanup : M S unit) : M S A :=
  fun s =>
    match body s with
    | (r, s') =>
        match cleanup s' with
        | (Returned _, s'') => (r, s'')
        | (Threw e, s'') => (Threw e, s'')
        end
    end.

Definition when {S} (b : bool) (m : M S unit) : M S unit :=
  if b then m else ret tt.

Definition exec {S A} (m : M S A) (s : S) : S := snd (m s).

Declare Scope eff_scope.
Delimit Scope eff_scope with eff.
Notation "x <- m ;; k" := (bind m (fun x => k))
  (at level 100, m at next level, right associativity) : eff_scope.
Notation "m ;; k" := (bind m (fun _ => k))
  (at level 100, right associativity) : eff_scope.

End Eff.

(* ================================================================== *)
(** * Slot arithmetic shared by the two pages *)
(* ================================================================== *)

Module Slot.

(** The two adjustments of the hour, in the order in which both pages write
    them:
      if (period === "PM" && hour !== 12) hour += 12;
      if (period === "AM" && hour === 12) hour = 0;  *)
Definition hour24 (period : string) (hour : Z) : Z :=
  let hour := if String.eqb period "PM" && negb (hour =? 12) then hour + 12 else hour in
  let hour := if String.eqb period "AM" && (hour =? 12) then 0 else hour in
  hour.

End Slot.

(* ================================================================== *)
(** * src/pages/MyBookings.tsx *)
(* ================================================================== *)

Module MyBookings.
Import JS UI.

Record TurfSummary := {
  name : string;
  location : string;
  image : string
}.

Record Booking := {
  id : string;
  booking_date : string;
  start_time : string;
  end_time : string;
  total_price : Number.t;
  status : string;
  created_at : string;
  turf_id : string;
  turf : option TurfSummary
}.

(** ** The pattern [/(\d+):(\d+)(?::(\d+))?\s*([AP]M)?/i] *)

(** The capture groups of a match; an optional group that took no part in the
    match is [None] (undefined). *)
Record TimeMatch := {
  hourStr : string;
  minuteStr : string;
  secondStr : option string;
  periodStr : option string
}.

(** [[AP]M] under the [i] flag. *)
Definition is_AP (c : ascii) : bool :=
  match c with "A" | "a" | "P" | "p" => true | _ => false end%char.

Definition is_M (c : ascii) : bool :=
  match c with "M" | "m" => true | _ => false end%char.

(** The match that starts at the head of [s].  Every quantifier is greedy and
    none has to give anything back: a shorter run of digits would be followed
    by a digit where the pattern wants a colon, and what follows the minutes
    may match the empty string. *)
Definition timeRegex_at (s : string) : option TimeMatch :=
  let (h, r1) := span_digits s in
  if is_empty h then None
  else
    match r1 with
    | String ":" r2 =>
        let (m, r3) := span_digits r2 in
        if is_empty m then None
        else
          let (sec, r4) :=
            match r3 with
            | String ":" r3' =>
                let (sd, r) := span_digits r3' in
                if is_empty sd then (None, r3) else (Some sd, r)
            | _ => (None, r3)
            end in
          let per :=
            match skip_spaces r4 with
            | String a (String b _) =>
                if is_AP a && is_M b then Some (String a (String b "")) else None
            | _ => None
            end in
          Some {| hourStr := h; minuteStr := m; secondStr := sec; periodStr := per |}
    | _ => None
    end.

(** [s.match(timeRegex)]: the leftmost match, [None] for null. *)
Fixpoint timeRegex (s : string) : option TimeMatch :=
  match timeRegex_at s with
  | Some m => Some m
  | None =>
      match s with
      | String _ r => timeRegex r
      | "" => None
      end
  end.

(** Lines 82-94: the match, the two numbers and the adjusted hour; the pair
    is what [setHours] receives.  [None] when the start time does not match
    (the source returns false there); the captures are runs of digits, so
    neither [parseInt] is NaN. *)
Definition startClock (start_time : string) : option (Z * Z) :=
  match timeRegex start_time with
  | None => None
  | Some m =>
      match parseInt (hourStr m), parseInt (minuteStr m) with
      | Some hour, Some minute =>
          let period :=
            match periodStr m with
            | Some p => toUpperCase p
            | None => ""
            end in
          Some (Slot.hour24 period hour, minute)
      | _, _ => None
      end
  end.

Section WithHost.
Context `{Host}.

(** [canCancelBooking(booking)], with the reading of the clock [now] made an
    argument.  The body of the [try] throws nothing on a booking whose
    fields are strings, so the [catch] branch (log, return false) is not
    reached; a comparison with NaN is false. *)
Definition canCancelBooking (now : Z) (booking : Booking) : bool :=
  let bookingDate := Date_parse (booking_date booking) in
  match startClock (start_time booking) with
  | None => false
  | Some (hour, minute) =>
      let bookingDate := setHours bookingDate hour minute 0 0 in
      match bookingDate with
      | Some t =>
          let timeDiff := (inject_Z (t - now) / inject_Z (1000 * 60 * 60))%Q in
          Qle_bool (inject_Z 7) timeDiff
      | None => false
      end
  end.

(** The guard under which the list shows the Cancel Booking button
    (lines 316 and 326). *)
Definition showsCancelButton (now : Z) (booking : Booking) : bool :=
  negb (String.eqb (status booking) "cancelled")
  && (negb (String.eqb (status booking) "cancelled") && canCancelBooking now booking).

End WithHost.

(** ** The page: its state, the table behind it, what it showed *)

Record State := {
  bookings : list Booking;
  confirmCancelId : option string;
  isCancelling : bool;
  table : Backend.Table;
  events : list Event
}.

Definition setBookings (l : list Booking) (s : State) : State :=
  {| bookings := l; confirmCancelId := confirmCancelId s;
     isCancelling := isCancelling s; table := table s; events := events s |}.

Definition setConfirmCancelId (c : option string) (s : State) : State :=
  {| bookings := bookings s; confirmCancelId := c;
     isCancelling := isCancelling s; table := table s; events := events s |}.

Definition setIsCancelling (b : bool) (s : State) : State :=
  {| bookings := bookings s; confirmCancelId := confirmCancelId s;
     isCancelling := b; table := table s; events := events s |}.

Definition setTable (t : Backend.Table) (s : State) : State :=
  {| bookings := bookings s; confirmCancelId := confirmCancelId s;
     isCancelling := isCancelling s; table := t; events := events s |}.

Definition emit (e : Event) (s : State) : State :=
  {| bookings := bookings s; confirmCancelId := confirmCancelId s;
     isCancelling := isCancelling s; table := table s;
     events := (events s ++ [e])%list |}.

Definition cancelled (booking : Booking) : Booking :=
  {| id := id booking; booking_date := booking_date booking;
     start_time := start_time booking; end_time := end_time booking;
     total_price := total_price booking; status := "cancelled";
     created_at := created_at booking; turf_id := turf_id booking;
     turf := turf booking |}.

Definition cannotCancelToast : Toast :=
  {| title := "Cannot cancel booking";
     description := "Bookings can only be cancelled at least 7 hours before the start time.";
     variant := Destructive |}.

Definition bookingCancelledToast : Toast :=
  {| title := "Booking cancelled";
     description := "Your booking has been successfully cancelled.";
     variant := Plain |}.

Definition cancelFailedToast : Toast :=
  {| title := "Error";
     description := "Failed to cancel booking. Please try again.";
     variant := Destructive |}.

(** What the backend and the notification function answer during one run of
    [handleCancelConfirm]: a fault of the read, a fault of the update, and
    the end of the notification call. *)
Record Replies := {
  fetchFault : option Backend.Error;
  updateFault : option Backend.Error;
  notification : Backend.InvokeReply
}.

Definition singleRowError : Backend.Error :=
  {| Backend.message := "JSON object requested, multiple (or no) rows returned" |}.

Section Handlers.
Context `{Host}.
Import Eff.
Local Open Scope eff_scope.

(** [handleCancelRequest(bookingId)] *)
Definition handleCancelRequest (now : Z) (bookingId : string) (s : State) : State :=
  let booking := find (fun b => String.eqb (id b) bookingId) (bookings s) in
  if match booking with
     | Some b => negb (canCancelBooking now b)
     | None => false
     end
  then emit (Toasted cannotCancelToast) s
  else setConfirmCancelId (Some bookingId) s.

(** [.select(...).eq('id', x).single()]: data and error of the reply. *)
Definition selectSingle (fault : option Backend.Error) (x : string)
  : M State (option Backend.BookingRow * option Backend.Error) :=
  fun s =>
    (Returned
       match fault with
       | Some e => (None, Some e)
       | None =>
           match Backend.eq_id x (table s) with
           | [r] => (Some r, None)
           | _ => (None, Some singleRowError)
           end
       end, s).

(** [.update({ status: 'cancelled' }).eq('id', x)]: the error of the
    reply; the table changes when there is none. *)
Definition updateCancelled (fault : option Backend.Error) (x : string)
  : M State (option Backend.Error) :=
  fun s =>
    match fault with
    | Some e => (Returned (Some e), s)
    | None => (Returned None, setTable (Backend.update_status x "cancelled" (table s)) s)
    end.

(** [supabase.functions.invoke(name, ...)]: the error of the reply, or the
    rejection of the promise. *)
Definition invoke (name recipient : string) (reply : Backend.InvokeReply)
  : M State (option Backend.Error) :=
  fun s =>
    let s' := emit (Invoked name recipient) s in
    match reply with
    | Backend.InvokeOk => (Returned None, s')
    | Backend.InvokeFailed e => (Returned (Some e), s')
    | Backend.InvokeThrew e => (Threw e, s')
    end.

Definition throwIf (error : option Backend.Error) : M State unit :=
  match error with
  | Some e => throw e
  | None => ret tt
  end.

(** [handleCancelConfirm()]; [bookings], [confirmCancelId] and [user] are
    the values the handler closed over. *)
Definition handleCancelConfirm (user : option Backend.User) (r : Replies)
  : M State unit :=
  fun s0 =>
    match confirmCancelId s0 with
    | None | Some "" => ret tt s0
    | Some cid =>
        (modify (setIsCancelling true) ;;
         try_finally
           (try_catch
              (reply <- selectSingle (fetchFault r) cid ;;
               let (bookingData, fetchError) := reply in
               throwIf fetchError ;;
               updateError <- updateCancelled (updateFault r) cid ;;
               throwIf updateError ;;
               match user, bookingData with
               | Some {| Backend.email := Some (String c e) |}, Some _ =>
                   _ <- invoke "booking-notification" (String c e) (notification r) ;;
                   ret tt
               | _, _ => ret tt
               end ;;
               modify (setBookings
                         (map (fun booking =>
                                 if String.eqb (id booking) cid
                                 then cancelled booking else booking)
                              (bookings s0))) ;;
               modify (emit (Toasted bookingCancelledToast)))
              (fun error =>
                 modify (emit (ConsoleError "Error cancelling booking:")) ;;
                 modify (emit (Toasted cancelFailedToast))))
           (modify (setIsCancelling false) ;;
            modify (setConfirmCancelId None))) s0
    end.
End Handlers.

End MyBookings.

(* ================================================================== *)
(** * The turf detail page *)
(* ================================================================== *)

Module TurfDetail.
Import JS UI.

Record Turf := {
  id : string;
  name : string;
  description : string;
  location : string;
  price : Number.t;
  image : string;
  capacity : Z;
  rating : Z;
  reviews : Z;
  features : list string;
  owner_id : string
}.

Definition timeSlots : list string :=
  [ "09:00 AM"; "10:00 AM"; "11:00 AM"; "12:00 PM"; "01:00 PM"; "02:00 PM";
    "03:00 PM"; "04:00 PM"; "05:00 PM"; "06:00 PM"; "07:00 PM"; "08:00 PM" ].

(** ** The pattern [/(\d+):(\d+)\s([AP]M)/] *)

Definition is_AP (c : ascii) : bool :=
  match c with "A" | "P" => true | _ => false end%char.

(** The match that starts at the head of [s]: the three captures.  A shorter
    run of digits for the minutes would be followed by a digit where the
    pattern wants white space, so the longest run decides. *)
Definition slotRegex_at (s : string) : option (string * string * string) :=
  let (h, r1) := span_digits s in
  if is_empty h then None
  else
    match r1 with
    | String ":" r2 =>
        let (m, r3) := span_digits r2 in
        if is_empty m then None
        else
          match r3 with
          | String w (String a (String b _)) =>
              if is_space w && is_AP a && Ascii.eqb b "M"
              then Some (h, m, String a (String b ""))
              else None
          | _ => None
          end
    | _ => None
    end.

(** [s.match(...)]: the leftmost match, [None] for null. *)
Fixpoint slotRegex (s : string) : option (string * string * string) :=
  match slotRegex_at s with
  | Some m => Some m
  | None =>
      match s with
      | String _ r => slotRegex r
      | "" => None
      end
  end.

(** Lines 257-260: the hour of the slot on the 24-hour clock and the text of
    its minutes.  [None] when the slot does not match ([.slice] of null
    throws). *)
Definition slotClock (startTime : string) : option (Z * string) :=
  match slotRegex startTime with
  | None => None
  | Some (hourStr, minuteStr, period) =>
      match parseInt hourStr with
      | Some hour => Some (Slot.hour24 period hour, minuteStr)
      | None => None
      end
  end.

(** Lines 262-267: the end of a slot of one hour. *)
Definition endTimeOf (hour : Z) (minuteStr : string) : string :=
  let endHour := hour + 1 in
  let endPeriod := if 12 <=? endHour then "PM" else "AM" in
  let endHour := if 12 <? endHour then endHour - 12 else endHour in
  let endHour := if endHour =? 0 then 12 else endHour in
  padStart (Number_toString endHour) 2 "0" ++ ":" ++ minuteStr ++ " " ++ endPeriod.

Definition deriveEndTime (startTime : string) : option string :=
  match slotClock startTime with
  | Some (hour, minuteStr) => Some (endTimeOf hour minuteStr)
  | None => None
  end.

(** ** The page *)

Record State := {
  isBooking : bool;
  table : Backend.Table;
  events : list Event
}.

Definition setIsBooking (b : bool) (s : State) : State :=
  {| isBooking := b; table := table s; events := events s |}.

Definition setTable (t : Backend.Table) (s : State) : State :=
  {| isBooking := isBooking s; table := t; events := events s |}.

Definition emit (e : Event) (s : State) : State :=
  {| isBooking := isBooking s; table := table s; events := (events s ++ [e])%list |}.

Definition authRequiredToast : Toast :=
  {| UI.title := "Authentication required";
     UI.description := "Please sign in to book a turf";
     UI.variant := Plain |}.

Definition incompleteToast : Toast :=
  {| UI.title := "Incomplete booking";
     UI.description := "Please select a date and time slot";
     UI.variant := Destructive |}.

Definition bookingSuccessfulToast : Toast :=
  {| UI.title := "Booking successful!";
     UI.description := "Your booking has been confirmed. We've sent you a confirmation email.";
     UI.variant := Plain |}.

Definition bookingFailedToast (error : Backend.Error) : Toast :=
  {| UI.title := "Booking failed";
     UI.description :=
       if is_empty (Backend.message error)
       then "Something went wrong. Please try again."
       else Backend.message error;
     UI.variant := Destructive |}.

(** The TypeError of [null.slice]. *)
Definition sliceOfNull : Backend.Error :=
  {| Backend.message := "Cannot read properties of null (reading 'slice')" |}.

(** What the backend answers to the insert: the id and the creation stamp it
    gave the row, or an error. *)
Inductive InsertReply :=
| Inserted (new_id stamp : string)
| InsertFailed (e : Backend.Error).

Record Replies := {
  insertion : InsertReply;
  notification : Backend.InvokeReply
}.

Import Eff.
Local Open Scope eff_scope.

(** [.insert(row).select().single()]: data and error of the reply. *)
Definition insertBooking (reply : InsertReply)
    (turf_id user_id booking_date start_time end_time : string)
    (total_price : Number.t) (status : string)
  : M State (option Backend.BookingRow * option Backend.Error) :=
  fun s =>
    match reply with
    | InsertFailed e => (Returned (None, Some e), s)
    | Inserted new_id stamp =>
        let row :=
          {| Backend.id := new_id; Backend.turf_id := turf_id;
             Backend.user_id := user_id; Backend.booking_date := booking_date;
             Backend.start_time := start_time; Backend.end_time := end_time;
             Backend.total_price := total_price; Backend.status := status;
             Backend.created_at := stamp |} in
        (Returned (Some row, None), setTable (table s ++ [row])%list s)
    end.

Definition invoke (name recipient : string) (reply : Backend.InvokeReply)
  : M State (option Backend.Error) :=
  fun s =>
    let s' := emit (Invoked name recipient) s in
    match reply with
    | Backend.InvokeOk => (Returned None, s')
    | Backend.InvokeFailed e => (Returned (Some e), s')
    | Backend.InvokeThrew e => (Threw e, s')
    end.

(** [handleBooking()]; [user], [date], [selectedTimeSlot] and [turf] are the
    values the handler closed over, [date] a valid time value.  The text of
    the confirmation mail plays no part in the control flow and is left out
    of the [Invoked] event. *)
Definition handleBooking (user : option Backend.User) (date : option Z)
    (selectedTimeSlot : option string) (turf : option Turf) (r : Replies)
  : M State unit :=
  match user with
  | None =>
      modify (emit (Toasted authRequiredToast)) ;;
      modify (emit (Navigated "/auth"))
  | Some user =>
      match date, selectedTimeSlot, turf with
      | Some date, Some (String c0 slot0), Some turf =>
          let selectedTimeSlot := String c0 slot0 in
          modify (setIsBooking true) ;;
          try_finally
            (try_catch
               (let startTime := selectedTimeSlot in
                clock <- match slotClock startTime with
                         | Some hm => ret hm
                         | None => throw sliceOfNull
                         end ;;
                let (hour, minuteStr) := clock : Z * string in
                let endTime := endTimeOf hour minuteStr in
                reply <- insertBooking (insertion r)
                           (id turf) (Backend.uid user)
                           (split_head "T" (Date_toISOString date))
                           startTime endTime (price turf) "confirmed" ;;
                let (bookingData, bookingError) := reply in
                match bookingError with
                | Some e => throw e
                | None => ret tt
                end ;;
                modify (emit (ConsoleLog "Booking created:")) ;;
                match Backend.email user with
                | Some (String c e) =>
                    try_catch
                      (emailError <- invoke "send-booking-email" (String c e) (notification r) ;;
                       when (match emailError with Some _ => true | None => false end)
                            (modify (emit (ConsoleError "Error sending email:"))) ;;
                       modify (emit (ConsoleLog "Email response:")))
                      (fun emailErr =>
                         modify (emit (ConsoleError "Failed to send email:")))
                | _ => ret tt
                end ;;
                modify (emit (Toasted bookingSuccessfulToast)) ;;
                modify (emit (Navigated "/my-bookings")))
               (fun error =>
                  modify (emit (ConsoleError "Error booking turf:")) ;;
                  modify (emit (Toasted (bookingFailedToast error)))))
            (modify (setIsBooking false))
      | _, _, _ => modify (emit (Toasted incompleteToast))
      end
  end.

End TurfDetail.

(* ================================================================== *)
(** * The admin dashboard *)
(* ================================================================== *)

Module AdminDashboard.
Import JS.

Record Booking := {
  id : string;
  booking_date : string;
  start_time : string;
  end_time : string;
  total_price : Number.t;
  status : string;
  created_at : string;
  user_id : string;
  turf_id : string;
  turf : option string;
  user : option (option string)
}.

(** [x || 0] on a count. *)
Definition or0 (x : Z) : Z := if x =? 0 then 0 else x.

(** Lines 741-743. *)
Definition totalRevenue (enrichedBookings : list Booking) : Number.t :=
  Number.or0
    (fold_left
       (fun sum booking =>
          if negb (String.eqb (status booking) "cancelled")
          then Number.add sum (Number.or0 (total_price booking))
          else sum)
       enrichedBookings Number.zero).

Section WithHost.
Context `{Host}.

(** [new Date(s) >= new Date()]: both sides become their time values, and a
    comparison with NaN is false. *)
Definition notBefore (now : Z) (s : string) : bool :=
  match Date_parse s with
  | Some t => now <=? t
  | None => false
  end.

(** Lines 746-748, the clock of the predicate read as [now]. *)
Definition activeBookings (now : Z) (enrichedBookings : list Booking) : Z :=
  or0 (Z.of_nat
         (List.length
            (filter
               (fun booking =>
                  negb (String.eqb (status booking) "cancelled")
                  && notBefore now (booking_date booking))
               enrichedBookings))).
End WithHost.

End AdminDashboard.

(* ================================================================== *)
(** * Vocabulary of the specification *)
(* ================================================================== *)

Module Spec.
Import JS.

Inductive Period := AM | PM.

Definition periodText (p : Period) : string :=
  match p with AM => "AM" | PM => "PM" end.

(** The 12-hour display string [h:mm AM|PM] with the given texts for the hour
    and the minutes. *)
Definition clockString (hs ms : string) (p : Period) : string :=
  hs ++ ":" ++ ms ++ " " ++ periodText p.

Definition isPM (p : Period) : bool := match p with PM => true | AM => false end.
Definition isAM (p : Period) : bool := match p with AM => true | PM => false end.

(** Section 4.1: if the suffix is PM and the hour is not 12, add 12; if the
    suffix is AM and the hour is 12, set to 0; otherwise keep as it is. *)
Definition to24 (h : Z) (p : Period) : Z :=
  if isPM p && negb (h =? 12) then h + 12
  else if isAM p && (h =? 12) then 0
  else h.

(** Minutes after midnight of [h:m] of period [p]. *)
Definition minutesOfDay (h m : Z) (p : Period) : Z := to24 h p * 60 + m.

(** A run of decimal digits, not empty. *)
Definition numeral (s : string) : Prop := all_digits s = true /\ s <> "".

(** The strings that [/(\d+):(\d+)(?::(\d+))?\s*([AP]M)?/i] matches somewhere:
    the seconds and the suffix being optional, those that contain a numeral,
    a colon and a numeral in a row. *)
Definition matchesTimePattern (s : string) : Prop :=
  exists pre hs ms post, numeral hs /\ numeral ms /\ s = pre ++ hs ++ ":" ++ ms ++ post.

(** One hour after [h] o'clock of period [p] on the 12-hour dial. *)
Definition hourLater (h : Z) (p : Period) : Z * Period :=
  if h =? 11 then (12, match p with AM => PM | PM => AM end)
  else if h =? 12 then (1, p)
  else (h + 1, p).

Definition sumZ (l : list Z) : Z := fold_right Z.add 0 l.

(** The sum of finite Numbers as real numbers, without any rounding. *)
Fixpoint exactSum (l : list Number.t) : option Q :=
  match l with
  | [] => Some 0%Q
  | x :: r =>
      match Number.value x, exactSum r with
      | Some a, Some b => Some (a + b)%Q
      | _, _ => None
      end
  end.

(** The Number [x] is the real number [q]. *)
Definition exactly (x : Number.t) (q : Q) : Prop :=
  exists v, Number.value x = Some v /\ (v == q)%Q.

(** Minutes after midnight that a slot string names, read the way
    [handleBooking] reads it. *)
Definition slotMinutes (s : string) : option Z :=
  match TurfDetail.slotClock s with
  | Some (h, ms) => Some (h * 60 + digits_value 0 ms)
  | None => None
  end.

Definition notCancelled (b : AdminDashboard.Booking) : bool :=
  negb (String.eqb (AdminDashboard.status b) "cancelled").

Section WithHost.
Context `{Host}.

(** The instant at which a booking starts: its date, with the hour and the
    minute of its start time set in local time. *)
Definition bookingStart (b : MyBookings.Booking) : option Z :=
  match MyBookings.startClock (MyBookings.start_time b) with
  | Some (hour, minute) =>
      setHours (Date_parse (MyBookings.booking_date b)) hour minute 0 0
  | None => None
  end.

(** Section 4.4: a date that is today's or a later one.  A date-only string
    names midnight UTC of its day; today is the local day of [now]. *)
Definition onOrAfterToday (now : Z) (s : string) : bool :=
  match Date_parse s with
  | Some t => Day (LocalTime now) <=? Day t
  | None => false
  end.

Definition activeCount (now : Z) (l : list AdminDashboard.Booking) : Z :=
  Z.of_nat
    (List.length
       (filter
          (fun b =>
             negb (String.eqb (AdminDashboard.status b) "cancelled")
             && onOrAfterToday now (AdminDashboard.booking_date b))
          l)).
End WithHost.

End Spec.

(** Two environments to run the pages in: a browser on UTC and one on Indian
    Standard Time, both reading date-only strings. *)
Definition utcHost : JS.Host :=
  {| JS.Date_parse := JS.parse_date_only; JS.LocalTZA := fun _ _ => 0 |}.

Definition istHost : JS.Host :=
  {| JS.Date_parse := JS.parse_date_only; JS.LocalTZA := fun _ _ => 19800000 |}.

(** Sample data: times are those of 10 June 2024, [1717977600000] being its
    midnight UTC. *)
Module Examples.

Definition booking (st date start : string) : MyBookings.Booking :=
  {| MyBookings.id := "b1"; MyBookings.booking_date := date;
     MyBookings.start_time := start; MyBookings.end_time := "";
     MyBookings.total_price := Number.of_Z 1200; MyBookings.status := st;
     MyBookings.created_at := "2024-06-01T00:00:00Z";
     MyBookings.turf_id := "t1"; MyBookings.turf := None |}.

Definition row (st : string) : Backend.BookingRow :=
  {| Backend.id := "b1"; Backend.turf_id := "t1"; Backend.user_id := "u1";
     Backend.booking_date := "2024-06-10"; Backend.start_time := "03:00 PM";
     Backend.end_time := "04:00 PM"; Backend.total_price := Number.of_Z 1200;
     Backend.status := st; Backend.created_at := "2024-06-01T00:00:00Z" |}.

Definition pricedBooking (st date : string) (amount : Number.t)
  : AdminDashboard.Booking :=
  {| AdminDashboard.id := "b1"; AdminDashboard.booking_date := date;
     AdminDashboard.start_time := "03:00 PM"; AdminDashboard.end_time := "04:00 PM";
     AdminDashboard.total_price := amount; AdminDashboard.status := st;
     AdminDashboard.created_at := "2024-06-01T00:00:00Z";
     AdminDashboard.user_id := "u1"; AdminDashboard.turf_id := "t1";
     AdminDashboard.turf := Some "Green Park"; AdminDashboard.user := Some None |}.

Definition adminBooking (st date : string) (amount : Z) : AdminDashboard.Booking :=
  pricedBooking st date (Number.of_Z amount).

Definition user : Backend.User :=
  {| Backend.uid := "u1"; Backend.email := Some "asha@example.com" |}.

Definition turf : TurfDetail.Turf :=
  {| TurfDetail.id := "t1"; TurfDetail.name := "Green Park";
     TurfDetail.description := ""; TurfDetail.location := "Pune";
     TurfDetail.price := Number.of_Z 1200; TurfDetail.image := ""; TurfDetail.capacity := 10;
     TurfDetail.rating := 4; TurfDetail.reviews := 12;
     TurfDetail.features := []; TurfDetail.owner_id := "o1" |}.

Definition midnight : Z := 1717977600000.
Definition eightAM : Z := 1718006400000.
Definition tenAM : Z := 1718013600000.

Definition myBookingsPage (pending : option string) : MyBookings.State :=
  {| MyBookings.bookings := [booking "confirmed" "2024-06-10" "03:00 PM"];
     MyBookings.confirmCancelId := pending;
     MyBookings.isCancelling := false;
     MyBookings.table := [row "confirmed"];
     MyBookings.events := [] |}.

Definition turfPage : TurfDetail.State :=
  {| TurfDetail.isBooking := false; TurfDetail.table := []; TurfDetail.events := [] |}.

Definition networkDown : Backend.Error := {| Backend.message := "Failed to fetch" |}.

End Examples.

(* ================================================================== *)
(** * Shapes of start-time strings *)
(* ================================================================== *)

Module Forms.
Import JS Spec.

Fixpoint all_spaces (s : string) : bool :=
  match s with
  | String c r => is_space c && all_spaces r
  | "" => true
  end.

(** The optional seconds of a time string, as written. *)
Definition secondsText (sec : option string) : string :=
  match sec with
  | Some ss => ":" ++ ss
  | None => ""
  end.

(** The period that two letters spell, in either case. *)
Definition periodOf (a b : ascii) : option Period :=
  match b with
  | "M" | "m" =>
      match a with
      | "A" | "a" => Some AM
      | "P" | "p" => Some PM
      | _ => None
      end
  | _ => None
  end%char.

End Forms.

(* ================================================================== *)
(** * Checks by enumeration *)
(* ================================================================== *)

Module Digits.
Import JS.

(** [f] holds of the [n] integers from [i] on. *)
Fixpoint all_from (n : nat) (f : Z -> bool) (i : Z) : bool :=
  match n with
  | O => true
  | S k => if f i then all_from k f (i + 1) else false
  end.

(** [pad 4 n] is four digits that spell [n]. *)
Definition four_digits (n : Z) : bool :=
  match pad 4 n with
  | String a (String b (String c (String d ""))) =>
      is_digit a && is_digit b && is_digit c && is_digit d
      && (digits_value 0 (pad 4 n) =? n)
  | _ => false
  end.

(** [pad 2 n] is two digits that spell [n]. *)
Definition two_digits (n : Z) : bool :=
  match pad 2 n with
  | String a (String b "") =>
      is_digit a && is_digit b && (digits_value 0 (pad 2 n) =? n)
  | _ => false
  end.

End Digits.

(* ================================================================== *)
(** * Reading the log of a handler *)
(* ================================================================== *)

Module Log.
Import UI.

(** A call of a notification function. *)
Definition isInvoked (ev : Event) : bool :=
  match ev with Invoked _ _ => true | _ => false end.

End Log.

(* ================================================================== *)
(** * More of the JavaScript string methods *)
(* ================================================================== *)

Module JSText.
Import JS.

(** [String.prototype.toLowerCase] on code units below 256: the letters A-Z
    and the capitals of the Latin-1 supplement (U+00C0 to U+00DE but the
    multiplication sign) move up by 32. *)
Definition lower_char (c : ascii) : ascii :=
  let n := N_of_ascii c in
  if (((65 <=? n) && (n <=? 90))
      || ((192 <=? n) && (n <=? 222) && negb (n =? 215)))%N
  then ascii_of_N (n + 32) else c.

Fixpoint toLowerCase (s : string) : string :=
  match s with
  | String c r => String (lower_char c) (toLowerCase r)
  | "" => ""
  end.

(** [s.includes(t)]: [t] occurs in [s]. *)
Fixpoint includes (s t : string) : bool :=
  String.prefix t s
  || match s with
     | String _ r => includes r t
     | "" => false
     end.

(** [s.trimEnd()] and [s.trim()]: white space and line terminators. *)
Fixpoint trimEnd (s : string) : string :=
  match s with
  | String c r =>
      let r' := trimEnd r in
      if is_space c && is_empty r' then "" else String c r'
  | "" => ""
  end.

Definition trim (s : string) : string := trimEnd (skip_spaces s).

(** [parseInt(s, 10)]: leading white space is skipped, a sign is read, and
    the digits that follow give the value; NaN ([None]) without a digit. *)
Definition parseInt10 (s : string) : option Z :=
  let s1 := skip_spaces s in
  let (sign, s2) :=
    match s1 with
    | String "-" r => (-1, r)
    | String "+" r => (1, r)
    | _ => (1, s1)
    end in
  match s2 with
  | String c _ => if is_digit c then Some (sign * digits_value 0 s2) else None
  | "" => None
  end.

End JSText.

(* ================================================================== *)
(** * The date picker of the turf detail page *)
(* ================================================================== *)

Module TurfCalendar.
Import JS.

Section WithHost.
Context `{Host}.

(** The [disabled] callback of the calendar, the clock read as [now]:
      const now = new Date(); now.setHours(0, 0, 0, 0); return date < now;
    [date] is the time value of the day the calendar asks about. *)
Definition disabled (now date : Z) : bool :=
  match setHours (Some now) 0 0 0 0 with
  | Some start => date <? start
  | None => false
  end.

End WithHost.

End TurfCalendar.

(* ================================================================== *)
(** * The admin dashboard: loading, deleting, searching *)
(* ================================================================== *)

Module AdminPage.
Import JS JSText UI AdminDashboard.

Record User := {
  uid : string;
  email : option string;
  u_created_at : string;
  avatar_url : option string;
  full_name : option string;
  updated_at : option string;
  username : option string
}.

Record Turf := {
  tid : string;
  name : string;
  location : string;
  price : Number.t;
  capacity : Z;
  rating : Z;
  reviews : Z;
  t_created_at : string
}.

(** A row of the [profiles] resource. *)
Record Profile := {
  p_id : string;
  p_username : option string;
  p_created_at : option string;
  p_avatar_url : option string;
  p_full_name : option string;
  p_updated_at : option string
}.

Record Stats := {
  totalUsers : Z;
  totalBookings : Z;
  totalRevenue : Number.t;
  activeBookings : Z;
  recentBookings : list Booking
}.

Definition initialStats : Stats :=
  {| totalUsers := 0; totalBookings := 0; totalRevenue := Number.zero;
     activeBookings := 0; recentBookings := [] |}.

(** The page, the [turfs] resource behind it, and what it showed. *)
Record State := {
  stats : Stats;
  turfs : list Turf;
  users : list User;
  bookings : list Booking;
  loading : bool;
  turfToDelete : option string;
  turfsTable : list Turf;
  events : list Event
}.

Definition setStats (x : Stats) (s : State) : State :=
  {| stats := x; turfs := turfs s; users := users s; bookings := bookings s;
     loading := loading s; turfToDelete := turfToDelete s;
     turfsTable := turfsTable s; events := events s |}.

Definition setTurfs (x : list Turf) (s : State) : State :=
  {| stats := stats s; turfs := x; users := users s; bookings := bookings s;
     loading := loading s; turfToDelete := turfToDelete s;
     turfsTable := turfsTable s; events := events s |}.

Definition setUsers (x : list User) (s : State) : State :=
  {| stats := stats s; turfs := turfs s; users := x; bookings := bookings s;
     loading := loading s; turfToDelete := turfToDelete s;
     turfsTable := turfsTable s; events := events s |}.

Definition setBookings (x : list Booking) (s : State) : State :=
  {| stats := stats s; turfs := turfs s; users := users s; bookings := x;
     loading := loading s; turfToDelete := turfToDelete s;
     turfsTable := turfsTable s; events := events s |}.

Definition setLoading (x : bool) (s : State) : State :=
  {| stats := stats s; turfs := turfs s; users := users s; bookings := bookings s;
     loading := x; turfToDelete := turfToDelete s;
     turfsTable := turfsTable s; events := events s |}.

Definition setTurfToDelete (x : option string) (s : State) : State :=
  {| stats := stats s; turfs := turfs s; users := users s; bookings := bookings s;
     loading := loading s; turfToDelete := x;
     turfsTable := turfsTable s; events := events s |}.

Definition setTurfsTable (x : list Turf) (s : State) : State :=
  {| stats := stats s; turfs := turfs s; users := users s; bookings := bookings s;
     loading := loading s; turfToDelete := turfToDelete s;
     turfsTable := x; events := events s |}.

Definition emit (e : Event) (s : State) : State :=
  {| stats := stats s; turfs := turfs s; users := users s; bookings := bookings s;
     loading := loading s; turfToDelete := turfToDelete s;
     turfsTable := turfsTable s; events := (events s ++ [e])%list |}.

(** ** Lines 703-736: the user label of each booking *)

(** How the read of one profile ends: a row, an error in the reply, or a
    rejected promise. *)
Inductive ProfileReply :=
| ProfileFound (p : Profile)
| ProfileFailed (e : Backend.Error)
| ProfileThrew (e : Backend.Error).

(** [{ ...booking, user: { email: x } }] *)
Definition withUser (x : option string) (b : Booking) : Booking :=
  {| id := id b; booking_date := booking_date b; start_time := start_time b;
     end_time := end_time b; total_price := total_price b; status := status b;
     created_at := created_at b; user_id := user_id b; turf_id := turf_id b;
     turf := turf b; user := Some x |}.

(** [userData.username || `User ID: ${user_id}`] *)
Definition userLabel (p : Profile) (b : Booking) : string :=
  match p_username p with
  | Some (String c r) => String c r
  | _ => "User ID: " ++ user_id b
  end.

(** One turn of the loop, on a booking whose user label is still null: the
    booking as it stands afterwards and what was logged. *)
Definition enrichOne (profileOf : string -> ProfileReply) (b : Booking)
  : Booking * list Event :=
  match profileOf (user_id b) with
  | ProfileFound p => (withUser (Some (userLabel p b)) b, [])
  | ProfileFailed _ => (withUser None b, [])
  | ProfileThrew _ =>
      (withUser None b,
       [ConsoleError ("Error fetching user data for booking " ++ id b ++ ":")])
  end.

(** The map and the loop over all bookings. *)
Definition enrich (profileOf : string -> ProfileReply) (allBookings : list Booking)
  : list Booking * list Event :=
  let turns := map (enrichOne profileOf) allBookings in
  (map fst turns, List.concat (map snd turns)).

(** [profilesData?.map(profile => ({ ... }))] *)
Definition transformUser (p : Profile) : User :=
  {| uid := p_id p;
     email := p_username p;
     u_created_at := match p_created_at p with
                     | Some (String c r) => String c r
                     | _ => ""
                     end;
     avatar_url := p_avatar_url p;
     full_name := p_full_name p;
     updated_at := p_updated_at p;
     username := p_username p |}.

(** What the backend answers to the queries of one load: each reply is its
    data and its error. *)
Record Replies := {
  profilesCount : option Z * option Backend.Error;
  allBookings : option (list Booking) * option Backend.Error;
  profileOf : string -> ProfileReply;
  allTurfs : option (list Turf) * option Backend.Error;
  profilesData : option (list Profile) * option Backend.Error
}.

Definition loadFailedToast : Toast :=
  {| title := "Error";
     description := "Failed to load admin data. Please try again.";
     variant := Destructive |}.

Definition authRequiredToast : Toast :=
  {| title := "Authentication required";
     description := "Please sign in to access this page";
     variant := Plain |}.

Definition accessDeniedToast : Toast :=
  {| title := "Access denied";
     description := "This page is restricted to administrators only";
     variant := Destructive |}.

Definition turfDeletedToast : Toast :=
  {| title := "Turf deleted";
     description := "The turf has been successfully removed.";
     variant := Plain |}.

Definition deleteFailedToast : Toast :=
  {| title := "Error";
     description := "Failed to delete turf. Please try again.";
     variant := Destructive |}.

Section WithHost.
Context `{Host}.
Import Eff.
Local Open Scope eff_scope.

Definition throwIf (error : option Backend.Error) : M State unit :=
  match error with
  | Some e => throw e
  | None => ret tt
  end.

(** [fetchStats()], the clock read as [now]. *)
Definition fetchStats (now : Z) (r : Replies) : M State unit :=
  try_finally
    (try_catch
       (modify (setLoading true) ;;
        let (count, profilesError) := profilesCount r in
        throwIf profilesError ;;
        let (bookingRows, bookingsError) := allBookings r in
        throwIf bookingsError ;;
        let (enrichedBookings, logged) :=
          match bookingRows with
          | Some (b :: l) => enrich (profileOf r) (b :: l)
          | _ => ([], [])
          end in
        modify (fun s => fold_left (fun s e => emit e s) logged s) ;;
        modify (emit (ConsoleLog "Enriched bookings:")) ;;
        let revenue := AdminDashboard.totalRevenue enrichedBookings in
        let active := AdminDashboard.activeBookings now enrichedBookings in
        let recent := firstn 5 enrichedBookings in
        modify (setStats
                  {| totalUsers := match count with Some n => or0 n | None => 0 end;
                     totalBookings := or0 (Z.of_nat (List.length enrichedBookings));
                     totalRevenue := revenue;
                     activeBookings := active;
                     recentBookings := recent |}) ;;
        modify (setBookings enrichedBookings) ;;
        let (turfRows, turfsError) := allTurfs r in
        throwIf turfsError ;;
        modify (setTurfs match turfRows with Some l => l | None => [] end) ;;
        let (profileRows, profilesFetchError) := profilesData r in
        throwIf profilesFetchError ;;
        modify (setUsers match profileRows with
                         | Some l => map transformUser l
                         | None => []
                         end))
       (fun error =>
          modify (emit (ConsoleError "Error fetching admin data:")) ;;
          modify (emit (Toasted loadFailedToast))))
    (modify (setLoading false)).

(** The effect of the page (lines 660-808): the two redirects, then the
    load. *)
Definition adminEffect (signedIn isAdmin : bool) (now : Z) (r : Replies)
  : M State unit :=
  if negb signedIn then
    modify (emit (Navigated "/auth")) ;;
    modify (emit (Toasted authRequiredToast))
  else if negb isAdmin then
    modify (emit (Navigated "/")) ;;
    modify (emit (Toasted accessDeniedToast))
  else fetchStats now r.

(** [handleDeleteTurf()]; [deleteFault] is the error of the backend's reply,
    if any.  [.delete().eq('id', x)] removes the rows of that id. *)
Definition handleDeleteTurf (deleteFault : option Backend.Error) : M State unit :=
  fun s0 =>
    match turfToDelete s0 with
    | None | Some "" => ret tt s0
    | Some x =>
        (try_finally
           (try_catch
              (error <- (fun s =>
                           match deleteFault with
                           | Some e => (Returned (Some e), s)
                           | None =>
                               (Returned None,
                                setTurfsTable
                                  (filter (fun t => negb (String.eqb (tid t) x))
                                          (turfsTable s)) s)
                           end) ;;
               throwIf error ;;
               modify (setTurfs (filter (fun turf => negb (String.eqb (tid turf) x))
                                        (turfs s0))) ;;
               modify (emit (Toasted turfDeletedToast)))
              (fun error =>
                 modify (emit (ConsoleError "Error deleting turf:")) ;;
                 modify (emit (Toasted deleteFailedToast))))
           (modify (setTurfToDelete None))) s0
    end.

End WithHost.

(** ** Lines 839-852: the three searches *)

Definition filteredTurfs (turfs : list Turf) (searchTerm : string) : list Turf :=
  filter (fun turf =>
            includes (toLowerCase (name turf)) (toLowerCase searchTerm)
            || includes (toLowerCase (location turf)) (toLowerCase searchTerm))
         turfs.

Definition filteredUsers (users : list User) (searchTerm : string) : list User :=
  filter (fun user =>
            includes (toLowerCase match email user with
                                  | Some (String c r) => String c r
                                  | _ => ""
                                  end)
                     (toLowerCase searchTerm))
         users.

Definition filteredBookings (bookings : list Booking) (searchTerm : string)
  : list Booking :=
  filter (fun booking =>
            includes (toLowerCase match turf booking with
                                  | Some (String c r) => String c r
                                  | _ => ""
                                  end)
                     (toLowerCase searchTerm)
            || includes (toLowerCase (status booking)) (toLowerCase searchTerm)
            || includes (booking_date booking) searchTerm)
         bookings.

End AdminPage.

(* ================================================================== *)
(** * The add-turf page *)
(* ================================================================== *)

Module AddTurf.
Import JS JSText UI.

Record FormData := {
  name : string;
  description : string;
  location : string;
  price : string;
  capacity : string;
  image : string;
  features : list string
}.

Definition withFeatures (l : list string) (d : FormData) : FormData :=
  {| name := name d; description := description d; location := location d;
     price := price d; capacity := capacity d; image := image d; features := l |}.

Section WithNumbers.
(** The numbers of prices and what [parseFloat] makes of a text ([None] for
    NaN). *)
Variable Num : Type.
Variable parseFloat : string -> option Num.

(** The row that [handleSubmit] sends to the [turfs] resource. *)
Record TurfInsert := {
  t_name : string;
  t_description : string;
  t_location : string;
  t_price : Num;
  t_capacity : Z;
  t_image : string;
  t_features : list string;
  t_owner_id : string;
  t_rating : Z;
  t_reviews : Z
}.

Record State := {
  formData : FormData;
  feature : string;
  isSubmitting : bool;
  rows : list TurfInsert;
  events : list Event
}.

Definition setFormData (d : FormData) (s : State) : State :=
  {| formData := d; feature := feature s; isSubmitting := isSubmitting s;
     rows := rows s; events := events s |}.

Definition setFeature (f : string) (s : State) : State :=
  {| formData := formData s; feature := f; isSubmitting := isSubmitting s;
     rows := rows s; events := events s |}.

Definition setIsSubmitting (b : bool) (s : State) : State :=
  {| formData := formData s; feature := feature s; isSubmitting := b;
     rows := rows s; events := events s |}.

Definition setRows (l : list TurfInsert) (s : State) : State :=
  {| formData := formData s; feature := feature s; isSubmitting := isSubmitting s;
     rows := l; events := events s |}.

Definition emit (e : Event) (s : State) : State :=
  {| formData := formData s; feature := feature s; isSubmitting := isSubmitting s;
     rows := rows s; events := (events s ++ [e])%list |}.

(** [handleAddFeature()] *)
Definition handleAddFeature (s : State) : State :=
  if negb (is_empty (trim (feature s)))
     && negb (existsb (String.eqb (trim (feature s))) (features (formData s)))
  then
    setFeature ""
      (setFormData
         (withFeatures (features (formData s) ++ [trim (feature s)])%list (formData s))
         s)
  else s.

(** [handleRemoveFeature(featureToRemove)] *)
Definition handleRemoveFeature (featureToRemove : string) (s : State) : State :=
  setFormData
    (withFeatures
       (filter (fun f => negb (String.eqb f featureToRemove)) (features (formData s)))
       (formData s))
    s.

Definition invalidNumbers : Backend.Error :=
  {| Backend.message := "Price and capacity must be valid numbers" |}.

Definition turfAddedToast : Toast :=
  {| UI.title := "Success!";
     UI.description := "Your turf has been added successfully.";
     UI.variant := Plain |}.

Definition addFailedToast (error : Backend.Error) : Toast :=
  {| UI.title := "Error adding turf";
     UI.description :=
       if is_empty (Backend.message error)
       then "Something went wrong. Please try again."
       else Backend.message error;
     UI.variant := Destructive |}.

Import Eff.
Local Open Scope eff_scope.

(** [handleSubmit(e)]; [user] and [isAdmin] come from the session,
    [insertFault] is the error of the backend's reply, if any. *)
Definition handleSubmit (user : option Backend.User) (isAdmin : bool)
    (insertFault : option Backend.Error) : M State unit :=
  match user with
  | None => ret tt
  | Some user =>
      if negb isAdmin then ret tt
      else
        modify (setIsSubmitting true) ;;
        try_finally
          (try_catch
             (fun s =>
                let numericPrice := parseFloat (price (formData s)) in
                let numericCapacity := parseInt10 (capacity (formData s)) in
                match numericPrice, numericCapacity with
                | Some p, Some c =>
                    (error <- (fun s1 =>
                                 match insertFault with
                                 | Some e => (Returned (Some e), s1)
                                 | None =>
                                     (Returned None,
                                      setRows
                                        (rows s1 ++
                                           [{| t_name := name (formData s);
                                               t_description := description (formData s);
                                               t_location := location (formData s);
                                               t_price := p;
                                               t_capacity := c;
                                               t_image :=
                                                 if is_empty (image (formData s))
                                                 then "/placeholder.svg"
                                                 else image (formData s);
                                               t_features := features (formData s);
                                               t_owner_id := Backend.uid user;
                                               t_rating := 0;
                                               t_reviews := 0 |}])%list s1)
                                 end) ;;
                     match error with
                     | Some e => throw e
                     | None => ret tt
                     end ;;
                     modify (emit (Toasted turfAddedToast)) ;;
                     modify (emit (Navigated "/my-turfs"))) s
                | _, _ => throw invalidNumbers s
                end)
             (fun error =>
                modify (emit (ConsoleError "Error adding turf:")) ;;
                modify (emit (Toasted (addFailedToast error)))))
          (modify (setIsSubmitting false))
  end.

End WithNumbers.

Arguments formData {Num} _.
Arguments feature {Num} _.
Arguments isSubmitting {Num} _.
Arguments rows {Num} _.
Arguments events {Num} _.
Arguments t_name {Num} _.
Arguments t_description {Num} _.
Arguments t_location {Num} _.
Arguments t_price {Num} _.
Arguments t_capacity {Num} _.
Arguments t_image {Num} _.
Arguments t_features {Num} _.
Arguments t_owner_id {Num} _.
Arguments t_rating {Num} _.
Arguments t_reviews {Num} _.
Arguments setFormData {Num} _ _.
Arguments setFeature {Num} _ _.
Arguments setIsSubmitting {Num} _ _.
Arguments setRows {Num} _ _.
Arguments emit {Num} _ _.
Arguments handleAddFeature {Num} _.
Arguments handleRemoveFeature {Num} _ _.
Arguments handleSubmit {Num} _ _ _ _.

End AddTurf.

(* ================================================================== *)
(** * The testimonials carousel *)
(* ================================================================== *)

Module Testimonials.

Record Testimonial := {
  name : string;
  title : string;
  image : string;
  rating : Z;
  text : string
}.

(** The list the component is built with. *)
Definition testimonials : list Testimonial := [].

Section Carousel.
(** The two handlers, for whatever list stands in [testimonials]; each is
    the new [activeIndex] from the previous one.  [%] is the remainder that
    takes the sign of the dividend. *)
Variable items : list Testimonial.

Definition nextTestimonial (prev : Z) : Z :=
  if 0 <? Z.of_nat (List.length items)
  then Z.rem (prev + 1) (Z.of_nat (List.length items))
  else prev.

Definition prevTestimonial (prev : Z) : Z :=
  if 0 <? Z.of_nat (List.length items)
  then Z.rem (prev - 1 + Z.of_nat (List.length items)) (Z.of_nat (List.length items))
  else prev.

End Carousel.

End Testimonials.

(* ================================================================== *)
(** * The two notification functions *)
(* ================================================================== *)

Module Http.

Inductive JsonValue :=
| JString (s : string)
| JBool (b : bool).

(** A response: its status, its headers in order, and the members of the
    JSON object it carries ([None] for a null body). *)
Record Response := {
  status : Z;
  headers : list (string * string);
  body : option (list (string * JsonValue))
}.

Definition corsHeaders : list (string * string) :=
  [ ("Access-Control-Allow-Origin", "*");
    ("Access-Control-Allow-Headers",
     "authorization, x-client-info, apikey, content-type") ].

Definition contentType : string * string := ("Content-Type", "application/json").

End Http.

Module BookingNotification.
Import UI Http.

Record BookingInfo := {
  id : string;
  date : string;
  startTime : string;
  turfName : string;
  price : Number.t
}.

(** What [req.json()] gives: a rejection, or an object with its [type], its
    [email] and its [booking], if it has one. *)
Inductive Body :=
| NoJson (e : Backend.Error)
| Json (type email : string) (booking : option BookingInfo).

(** The TypeError of reading [date] of undefined. *)
Definition noBooking : Backend.Error :=
  {| Backend.message := "Cannot read properties of undefined (reading 'date')" |}.

Section WithTemplates.
(** The HTML of the confirmation ([true]) and of the cancellation ([false])
    for a booking, the date and the price formatted by the environment. *)
Variable mail : bool -> BookingInfo -> string.

(** [handler(req)]: the response and what was logged. *)
Definition handler (method : string) (json : Body) : Response * list Event :=
  if String.eqb method "OPTIONS"
  then ({| status := 200; headers := corsHeaders; body := None |}, [])
  else
    match json with
    | Json type email (Some booking) =>
        let confirmation := String.eqb type "confirmation" in
        let subject :=
          if confirmation
          then "Booking Confirmed: " ++ turfName booking
          else "Booking Cancelled: " ++ turfName booking in
        ({| status := 200;
            headers := (corsHeaders ++ [contentType])%list;
            body := Some [("success", JBool true);
                          ("message", JString "Notification processed")] |},
         [ConsoleLog ("Email would be sent to: " ++ email);
          ConsoleLog ("Subject: " ++ subject);
          ConsoleLog ("Body: " ++ mail confirmation booking)])
    | Json _ _ None =>
        ({| status := 500;
            headers := (corsHeaders ++ [contentType])%list;
            body := Some [("error", JString (Backend.message noBooking))] |},
         [ConsoleError "Error processing notification:"])
    | NoJson e =>
        ({| status := 500;
            headers := (corsHeaders ++ [contentType])%list;
            body := Some [("error", JString (Backend.message e))] |},
         [ConsoleError "Error processing notification:"])
    end.

End WithTemplates.

End BookingNotification.

Module SendBookingEmail.
Import Http.

(** What [req.json()] gives: a rejection, or the three texts of a mail. *)
Inductive Body :=
| NoJson (e : Backend.Error)
| Json (to subject html : string).

(** What the function did with the mail server and its log. *)
Inductive Action :=
| Sent (from to subject html : string)
| Closed
| LoggedError (label : string).

(** How the mail server answers: a fault of the sending and a fault of the
    closing, if any. *)
Record Smtp := {
  sendFault : option Backend.Error;
  closeFault : option Backend.Error
}.

Definition failure (e : Backend.Error) : Response :=
  {| status := 500;
     headers := (contentType :: corsHeaders)%list;
     body := Some [("success", JBool false);
                   ("error", JString (Backend.message e))] |}.

(** [handler(req)]: the response and what was done. *)
Definition handler (method : string) (json : Body) (smtp : Smtp)
  : Response * list Action :=
  if String.eqb method "OPTIONS"
  then ({| status := 200; headers := corsHeaders; body := None |}, [])
  else
    match json with
    | NoJson e => (failure e, [LoggedError "Error sending email:"])
    | Json to subject html =>
        match sendFault smtp with
        | Some e => (failure e, [LoggedError "Error sending email:"])
        | None =>
            let sent := Sent "Turf Booking <kicknclick2@gmail.com>" to subject html in
            match closeFault smtp with
            | Some e => (failure e, [sent; LoggedError "Error sending email:"])
            | None =>
                ({| status := 200;
                    headers := (contentType :: corsHeaders)%list;
                    body := Some [("success", JBool true);
                                  ("message", JString "Email sent successfully")] |},
                 [sent; Closed])
            end
        end
    end.

End SendBookingEmail.

(* ================================================================== *)
(** * Words for the lists of the pages *)
(* ================================================================== *)

Module Words.
Import JS JSText.

(** A list of features as the add-turf page keeps it: no feature twice, none
    empty, none with white space at either end. *)
Definition tidy (l : list string) : Prop :=
  NoDup l /\ Forall (fun f => f <> "" /\ trim f = f) l.

End Words.

(* ================================================================== *)
(** * The table as the dashboard reads it *)
(* ================================================================== *)

Module Reading.

(** A row of the bookings table as the dashboard's query returns it: every
    column, with the name of the turf joined in ([turfName] of the turf id)
    and no user label yet. *)
Definition ofRow (turfName : string -> option string) (r : Backend.BookingRow)
  : AdminDashboard.Booking :=
  {| AdminDashboard.id := Backend.id r;
     AdminDashboard.booking_date := Backend.booking_date r;
     AdminDashboard.start_time := Backend.start_time r;
     AdminDashboard.end_time := Backend.end_time r;
     AdminDashboard.total_price := Backend.total_price r;
     AdminDashboard.status := Backend.status r;
     AdminDashboard.created_at := Backend.created_at r;
     AdminDashboard.user_id := Backend.user_id r;
     AdminDashboard.turf_id := Backend.turf_id r;
     AdminDashboard.turf := turfName (Backend.turf_id r);
     AdminDashboard.user := None |}.

(** The revenue the dashboard would show for a table. *)
Definition revenueOf (turfName : string -> option string) (t : Backend.Table)
  : Number.t :=
  AdminDashboard.totalRevenue (map (ofRow turfName) t).

End Reading.

(** A browser on New York summer time, four hours west of UTC. *)
Definition newYorkHost : JS.Host :=
  {| JS.Date_parse := JS.parse_date_only; JS.LocalTZA := fun _ _ => -14400000 |}.

(* ================================================================== *)
(** * Strings and the two patterns *)
(* ================================================================== *)

Section Strings.
Import JS Spec.

Lemma is_empty_false (s : string) : s <> "" -> is_empty s = false.
Proof. destruct s; [congruence | reflexivity]. Qed.

(** A run of digits followed by something that is not a digit is what
    [span_digits] splits off. *)
Lemma span_digits_stop (hs : string) (c : ascii) (r : string) :
  all_digits hs = true -> is_digit c = false ->
  span_digits (hs ++ String c r) = (hs, String c r).
Proof.
  intros Hd Hc. induction hs as [|x hs IH]; simpl in *.
  - now rewrite Hc.
  - apply andb_true_iff in Hd as [Hx Hd]. rewrite Hx, (IH Hd). reflexivity.
Qed.

Lemma span_digits_end (hs : string) :
  all_digits hs = true -> span_digits hs = (hs, "").
Proof.
  intros Hd. induction hs as [|x hs IH]; simpl in *; [reflexivity|].
  apply andb_true_iff in Hd as [Hx Hd]. now rewrite Hx, (IH Hd).
Qed.

(** What [span_digits] splits off is a run of digits, and the two parts make
    up the string. *)
Lemma span_digits_spec (s d t : string) :
  span_digits s = (d, t) -> all_digits d = true /\ s = d ++ t.
Proof.
  revert d t. induction s as [|x s IH]; simpl; intros d t E.
  - inversion E; subst. split; reflexivity.
  - destruct (is_digit x) eqn:Hx.
    + destruct (span_digits s) as [d' t'] eqn:E'. inversion E; subst.
      destruct (IH _ _ eq_refl) as [Hd Hs]. simpl. rewrite Hx, Hd.
      split; [reflexivity | now rewrite Hs at 1].
    + inversion E; subst. split; reflexivity.
Qed.

(** With digits in front, [span_digits] takes them and goes on. *)
Lemma span_digits_app (d s : string) :
  all_digits d = true ->
  span_digits (d ++ s) = (d ++ fst (span_digits s), snd (span_digits s)).
Proof.
  intros Hd. induction d as [|x d IH]; simpl in *.
  - now destruct (span_digits s).
  - apply andb_true_iff in Hd as [Hx Hd]. now rewrite Hx, (IH Hd).
Qed.

Lemma parseInt_numeral (s : string) :
  numeral s -> parseInt s = Some (digits_value 0 s).
Proof.
  intros [Hd Hn]. destruct s as [|c s]; [congruence|].
  unfold parseInt. simpl in Hd. apply andb_true_iff in Hd as [Hc _].
  now rewrite Hc.
Qed.

Lemma colon_not_digit : is_digit ":" = false.
Proof. reflexivity. Qed.

Lemma space_not_digit : is_digit " " = false.
Proof. reflexivity. Qed.

End Strings.

Section TimePattern.
Import JS Spec MyBookings.

Lemma timeRegex_head (s : string) (m : TimeMatch) :
  timeRegex_at s = Some m -> timeRegex s = Some m.
Proof.
  intros E. destruct s as [|c s]; [cbn in E; discriminate|].
  change (timeRegex (String c s)) with
    (match timeRegex_at (String c s) with Some m => Some m | None => timeRegex s end).
  now rewrite E.
Qed.

Lemma timeRegex_tail (c : ascii) (s : string) :
  timeRegex_at (String c s) = None -> timeRegex (String c s) = timeRegex s.
Proof. intros E. change (timeRegex (String c s)) with
  (match timeRegex_at (String c s) with Some m => Some m | None => timeRegex s end).
  now rewrite E.
Qed.

(** A match at the head of a string begins with a numeral, a colon and a
    numeral. *)
Lemma timeRegex_at_sound (s : string) (m : TimeMatch) :
  timeRegex_at s = Some m ->
  numeral (hourStr m) /\ numeral (minuteStr m) /\
  exists post, s = hourStr m ++ ":" ++ minuteStr m ++ post.
Proof.
  unfold timeRegex_at.
  destruct (span_digits s) as [h r1] eqn:E1.
  destruct (is_empty h) eqn:Hh; [discriminate|].
  destruct r1 as [|c r2]; [discriminate|].
  destruct (Ascii.eqb_spec c ":") as [->|Hc].
  2:{ destruct c as [[] [] [] [] [] [] [] []]; try discriminate. now elim Hc. }
  destruct (span_digits r2) as [mi r3] eqn:E2.
  destruct (is_empty mi) eqn:Hm; [discriminate|].
  destruct (match r3 with
            | String ":" r3' =>
                let (sd, r) := span_digits r3' in
                if is_empty sd then (None, r3) else (Some sd, r)
            | _ => (None, r3)
            end) as [sec r4].
  intros E. inversion E; subst; clear E. simpl.
  apply span_digits_spec in E1 as [Hd1 ->].
  apply span_digits_spec in E2 as [Hd2 ->].
  repeat split; trivial.
  - intros ->. discriminate.
  - intros ->. discriminate.
  - now exists r3.
Qed.

(** A numeral, a colon and a numeral at the head of a string are matched. *)
Lemma timeRegex_at_complete (hs ms post : string) :
  numeral hs -> numeral ms ->
  exists m, timeRegex_at (hs ++ ":" ++ ms ++ post) = Some m /\ hourStr m = hs.
Proof.
  intros [Hd1 Hn1] [Hd2 Hn2]. unfold timeRegex_at.
  change (":" ++ ms ++ post) with (String ":" (ms ++ post)).
  rewrite (span_digits_stop hs ":" _ Hd1 colon_not_digit).
  rewrite (is_empty_false _ Hn1).
  rewrite (span_digits_app ms post Hd2).
  destruct ms as [|x ms]; [congruence|]. simpl is_empty. cbv iota.
  match goal with |- context [let (sec, r4) := ?X in _] => destruct X as [sec r4] end.
  eexists. split; reflexivity.
Qed.

Lemma timeRegex_sound (s : string) (m : TimeMatch) :
  timeRegex s = Some m -> matchesTimePattern s.
Proof.
  induction s as [|c s IH].
  - cbn. discriminate.
  - destruct (timeRegex_at (String c s)) as [t|] eqn:E.
    + intros _. apply timeRegex_at_sound in E as (H1 & H2 & post & E).
      exists "", (hourStr t), (minuteStr t), post. auto.
    + rewrite (timeRegex_tail _ _ E). intros E'.
      destruct (IH E') as (pre & hs & ms & post & H1 & H2 & ->).
      exists (String c pre), hs, ms, post. auto.
Qed.

Lemma timeRegex_complete (s : string) :
  matchesTimePattern s -> exists m, timeRegex s = Some m.
Proof.
  intros (pre & hs & ms & post & H1 & H2 & ->).
  induction pre as [|c pre IH].
  - destruct (timeRegex_at_complete hs ms post H1 H2) as (m & E & _).
    exists m. now apply timeRegex_head.
  - change (String c pre ++ hs ++ ":" ++ ms ++ post)
      with (String c (pre ++ hs ++ ":" ++ ms ++ post)).
    destruct (timeRegex_at (String c (pre ++ hs ++ ":" ++ ms ++ post))) as [t|] eqn:E.
    + exists t. now apply timeRegex_head.
    + rewrite (timeRegex_tail _ _ E). exact IH.
Qed.

(** The pattern fails on exactly the strings that hold no numeral, colon and
    numeral in a row. *)
Lemma timeRegex_none_iff (s : string) :
  timeRegex s = None <-> ~ matchesTimePattern s.
Proof.
  split.
  - intros E Hm. destruct (timeRegex_complete s Hm) as [m E']. congruence.
  - intros Hn. destruct (timeRegex s) as [m|] eqn:E; [|reflexivity].
    elim Hn. now apply (timeRegex_sound s m).
Qed.

(** The match on a 12-hour display string. *)
Lemma timeRegex_clockString (hs ms : string) (p : Period) :
  numeral hs -> numeral ms ->
  timeRegex (clockString hs ms p)
  = Some {| hourStr := hs; minuteStr := ms; secondStr := None;
            periodStr := Some (periodText p) |}.
Proof.
  intros [Hd1 Hn1] [Hd2 Hn2]. apply timeRegex_head.
  unfold timeRegex_at, clockString.
  change (":" ++ ms ++ " " ++ periodText p) with (String ":" (ms ++ String " " (periodText p))).
  rewrite (span_digits_stop hs ":" _ Hd1 colon_not_digit), (is_empty_false _ Hn1).
  rewrite (span_digits_stop ms " " _ Hd2 space_not_digit), (is_empty_false _ Hn2).
  now destruct p.
Qed.

(** The match on [H:MM] without a suffix. *)
Lemma timeRegex_bare (hs ms : string) :
  numeral hs -> numeral ms ->
  timeRegex (hs ++ ":" ++ ms)
  = Some {| hourStr := hs; minuteStr := ms; secondStr := None; periodStr := None |}.
Proof.
  intros [Hd1 Hn1] [Hd2 Hn2]. apply timeRegex_head.
  unfold timeRegex_at.
  change (":" ++ ms) with (String ":" ms).
  rewrite (span_digits_stop hs ":" _ Hd1 colon_not_digit), (is_empty_false _ Hn1).
  rewrite (span_digits_end ms Hd2), (is_empty_false _ Hn2).
  reflexivity.
Qed.

End TimePattern.

Section SlotPattern.
Import JS Spec TurfDetail.

Lemma slotRegex_head (s : string) (m : string * string * string) :
  slotRegex_at s = Some m -> slotRegex s = Some m.
Proof.
  intros E. destruct s as [|c s]; [cbn in E; discriminate|].
  change (slotRegex (String c s)) with
    (match slotRegex_at (String c s) with Some m => Some m | None => slotRegex s end).
  now rewrite E.
Qed.

(** The match on a 12-hour display string. *)
Lemma slotRegex_clockString (hs ms : string) (p : Period) :
  numeral hs -> numeral ms ->
  slotRegex (clockString hs ms p) = Some (hs, ms, periodText p).
Proof.
  intros [Hd1 Hn1] [Hd2 Hn2]. apply slotRegex_head.
  unfold slotRegex_at, clockString.
  change (":" ++ ms ++ " " ++ periodText p) with (String ":" (ms ++ String " " (periodText p))).
  rewrite (span_digits_stop hs ":" _ Hd1 colon_not_digit), (is_empty_false _ Hn1).
  rewrite (span_digits_stop ms " " _ Hd2 space_not_digit), (is_empty_false _ Hn2).
  now destruct p.
Qed.

(** The two adjustments are the conversion of section 4.1, whatever the
    hour. *)
Lemma hour24_to24 (h : Z) (p : Period) : Slot.hour24 (periodText p) h = to24 h p.
Proof.
  unfold Slot.hour24, to24. destruct p; simpl.
  - destruct (h =? 12); reflexivity.
  - destruct (h =? 12) eqn:E; simpl; [reflexivity|].
    reflexivity.
Qed.

Lemma to24_range (h : Z) (p : Period) : 1 <= h <= 12 -> 0 <= to24 h p <= 23.
Proof.
  intros Hh. unfold to24. destruct p; simpl; destruct (Z.eqb_spec h 12); simpl; lia.
Qed.

Lemma toUpperCase_periodText (p : Period) : toUpperCase (periodText p) = periodText p.
Proof. now destruct p. Qed.

Lemma startClock_clockString (hs ms : string) (p : Period) (h : Z) :
  numeral hs -> numeral ms -> parseInt hs = Some h ->
  MyBookings.startClock (clockString hs ms p) = Some (to24 h p, digits_value 0 ms).
Proof.
  intros H1 H2 Hh. unfold MyBookings.startClock.
  rewrite (timeRegex_clockString hs ms p H1 H2). simpl.
  rewrite Hh, (parseInt_numeral ms H2), toUpperCase_periodText, hour24_to24.
  reflexivity.
Qed.

Lemma slotClock_clockString (hs ms : string) (p : Period) (h : Z) :
  numeral hs -> numeral ms -> parseInt hs = Some h ->
  slotClock (clockString hs ms p) = Some (to24 h p, ms).
Proof.
  intros H1 H2 Hh. unfold slotClock.
  rewrite (slotRegex_clockString hs ms p H1 H2), Hh, hour24_to24.
  reflexivity.
Qed.

End SlotPattern.

(* ================================================================== *)
(** * Section 4.1: the 24-hour conversion *)
(* ================================================================== *)

Section Conversion.
Import JS Spec.

(** C3.  For a 12-hour clock string whose hour [h] lies in 1..12, both pages
    convert the hour to: [h + 12] when the suffix is PM and [h] is not 12; 0
    when the suffix is AM and [h] is 12; [h] otherwise; the value lies in
    0..23.  It is the hour [canCancelBooking] hands to [setHours] and the
    hour from which [handleBooking] derives the end of the slot. *)
Theorem hour24_conversion (hs ms : string) (p : Period) (h : Z) :
  numeral hs -> numeral ms -> parseInt hs = Some h -> 1 <= h <= 12 ->
  let H := if isPM p && negb (h =? 12) then h + 12
           else if isAM p && (h =? 12) then 0
           else h in
  0 <= H <= 23
  /\ Slot.hour24 (periodText p) h = H
  /\ MyBookings.startClock (clockString hs ms p) = Some (H, digits_value 0 ms)
  /\ TurfDetail.slotClock (clockString hs ms p) = Some (H, ms).
Proof.
  intros H1 H2 Hh Hr. change (let H := to24 h p in
    0 <= H <= 23 /\ Slot.hour24 (periodText p) h = H
    /\ MyBookings.startClock (clockString hs ms p) = Some (H, digits_value 0 ms)
    /\ TurfDetail.slotClock (clockString hs ms p) = Some (H, ms)).
  cbv zeta. repeat split.
  - now apply to24_range.
  - now apply to24_range.
  - apply hour24_to24.
  - now apply startClock_clockString.
  - now apply slotClock_clockString.
Qed.

Lemma hour24_conversion_witness :
  MyBookings.startClock "03:00 PM" = Some (15, 0)
  /\ TurfDetail.slotClock "03:00 PM" = Some (15, "00").
Proof.
  destruct (hour24_conversion "03" "00" PM 3) as (_ & _ & Hc & Hs).
  - split; [reflexivity | discriminate].
  - split; [reflexivity | discriminate].
  - reflexivity.
  - lia.
  - split; [exact Hc | exact Hs].
Defined.

End Conversion.

(* ================================================================== *)
(** * The cancellation window *)
(* ================================================================== *)

Section Window.
Import JS Spec MyBookings.

(** The quotient by the milliseconds of an hour reaches 7 exactly when the
    difference reaches seven hours. *)
Lemma seven_hours (d : Z) :
  Qle_bool (inject_Z 7) (inject_Z d / inject_Z (1000 * 60 * 60)) = (7 * msPerHour <=? d).
Proof.
  destruct (Z.leb_spec (7 * msPerHour) d) as [Hd|Hd].
  - apply Qle_bool_iff. unfold Qle, Qdiv, Qmult, Qinv, inject_Z. simpl.
    unfold msPerHour in Hd. lia.
  - destruct (Qle_bool _ _) eqn:E; [|reflexivity].
    apply Qle_bool_iff in E. unfold Qle, Qdiv, Qmult, Qinv, inject_Z in E. simpl in E.
    unfold msPerHour in Hd. lia.
Qed.

Context `{Host}.

(** The check in terms of the start instant. *)
Lemma canCancelBooking_start (now : Z) (b : Booking) :
  canCancelBooking now b =
  match bookingStart b with
  | Some t => 7 * msPerHour <=? t - now
  | None => false
  end.
Proof.
  unfold canCancelBooking, bookingStart.
  destruct (startClock (start_time b)) as [[hour minute]|]; [|reflexivity].
  destruct (setHours _ hour minute 0 0) as [t|]; [|reflexivity].
  apply seven_hours.
Qed.


(** C4.  A start time that does not match the time pattern (no numeral, colon
    and numeral in a row: the seconds and the suffix are optional) makes
    [canCancelBooking] return false, whatever the date, the status and the
    time; the function is total, nothing reaches the caller but that result,
    and the Cancel Booking button is not shown. *)
Theorem malformed_start_time_fails_closed (now : Z) (b : Booking) :
  ~ matchesTimePattern (start_time b) ->
  canCancelBooking now b = false /\ showsCancelButton now b = false.
Proof.
  intros Hn. apply timeRegex_none_iff in Hn.
  assert (E : canCancelBooking now b = false).
  { unfold canCancelBooking, startClock. now rewrite Hn. }
  split; [exact E|]. unfold showsCancelButton. rewrite E.
  now rewrite !andb_false_r.
Qed.

(** C10.  A start time [H:MM] without a suffix matches the pattern with the
    suffix group undefined; the hour is kept as it is, as a 24-hour value,
    and [canCancelBooking] answers by the seven-hour window on the instant so
    composed instead of answering false for a malformed string. *)
Theorem bare_time_is_evaluated (now : Z) (b : Booking) (hs ms : string) :
  numeral hs -> numeral ms -> start_time b = hs ++ ":" ++ ms ->
  timeRegex (start_time b)
    = Some {| hourStr := hs; minuteStr := ms; secondStr := None; periodStr := None |}
  /\ startClock (start_time b) = Some (digits_value 0 hs, digits_value 0 ms)
  /\ canCancelBooking now b =
     match setHours (Date_parse (booking_date b))
                    (digits_value 0 hs) (digits_value 0 ms) 0 0 with
     | Some t => 7 * msPerHour <=? t - now
     | None => false
     end.
Proof.
  intros H1 H2 E.
  assert (Em := timeRegex_bare hs ms H1 H2). rewrite <- E in Em.
  assert (Ec : startClock (start_time b) = Some (digits_value 0 hs, digits_value 0 ms)).
  { unfold startClock. rewrite Em. simpl.
    rewrite (parseInt_numeral hs H1), (parseInt_numeral ms H2).
    unfold Slot.hour24. simpl. reflexivity. }
  repeat split; trivial.
  rewrite canCancelBooking_start. unfold bookingStart. now rewrite Ec.
Qed.

End Window.

Section WindowExamples.
Import JS Spec MyBookings Examples.



Lemma malformed_start_time_witness :
  @canCancelBooking utcHost eightAM (booking "confirmed" "2024-06-10" "3 PM") = false.
Proof.
  apply (@malformed_start_time_fails_closed utcHost eightAM
           (booking "confirmed" "2024-06-10" "3 PM")).
  apply timeRegex_none_iff. reflexivity.
Defined.

Lemma bare_time_witness :
  let b := booking "confirmed" "2024-06-10" "14:30" in
  startClock (start_time b) = Some (14, 30)
  /\ @canCancelBooking utcHost (midnight + 27000000) b = true.
Proof.
  intros b.
  destruct (@bare_time_is_evaluated utcHost (midnight + 27000000) b "14" "30")
    as (_ & Hc & Hw).
  - split; [reflexivity | discriminate].
  - split; [reflexivity | discriminate].
  - reflexivity.
  - split; [exact Hc | rewrite Hw; reflexivity].
Defined.

End WindowExamples.

(* ================================================================== *)
(** * The end of a slot *)
(* ================================================================== *)

Section EndTime.
Import JS Spec TurfDetail.

Lemma deriveEndTime_clockString (hs ms : string) (p : Period) (h : Z) :
  numeral hs -> numeral ms -> parseInt hs = Some h ->
  deriveEndTime (clockString hs ms p) = Some (endTimeOf (to24 h p) ms).
Proof.
  intros H1 H2 Hh. unfold deriveEndTime.
  now rewrite (slotClock_clockString hs ms p h H1 H2 Hh).
Qed.

Lemma hour_cases (h : Z) :
  1 <= h <= 12 ->
  h = 1 \/ h = 2 \/ h = 3 \/ h = 4 \/ h = 5 \/ h = 6 \/
  h = 7 \/ h = 8 \/ h = 9 \/ h = 10 \/ h = 11 \/ h = 12.
Proof. lia. Qed.

(** The end of the slot that starts at [h] o'clock of period [p], but for the
    last hour of the day. *)
Lemma endTimeOf_hourLater (h : Z) (p : Period) (ms : string) :
  1 <= h <= 12 -> ~ (h = 11 /\ p = PM) ->
  endTimeOf (to24 h p) ms
  = clockString (pad 2 (fst (hourLater h p))) ms (snd (hourLater h p)).
Proof.
  intros Hh Hn.
  destruct (hour_cases h Hh) as [E|[E|[E|[E|[E|[E|[E|[E|[E|[E|[E|E]]]]]]]]]]];
    subst h; destruct p; try reflexivity.
  elim Hn. split; reflexivity.
Qed.

(** C2, amended.  For a start time [h:mm AM|PM] with [h] in 1..12 other than
    an 11 PM one, the end time is the start time plus sixty minutes: the hour
    one later on the 12-hour dial, written on two digits, the same text for
    the minutes, and the suffix re-derived (11 AM gives 12 PM, 12 PM gives
    01 PM, 12 AM gives 01 AM). *)
Theorem end_time_is_one_hour_later (hs ms : string) (p : Period) (h : Z) :
  numeral hs -> numeral ms -> parseInt hs = Some h -> 1 <= h <= 12 ->
  ~ (h = 11 /\ p = PM) ->
  let (h', p') := hourLater h p in
  deriveEndTime (clockString hs ms p) = Some (clockString (pad 2 h') ms p')
  /\ (forall m, minutesOfDay h' m p' = minutesOfDay h m p + 60)
  /\ (h = 12 -> p = PM -> deriveEndTime (clockString hs ms p) = Some ("01:" ++ ms ++ " PM")).
Proof.
  intros H1 H2 Hh Hr Hn.
  assert (E := deriveEndTime_clockString hs ms p h H1 H2 Hh).
  rewrite (endTimeOf_hourLater h p ms Hr Hn) in E.
  destruct (hourLater h p) as [h' p'] eqn:El. simpl in E.
  split; [exact E|]. split.
  - intros m. unfold minutesOfDay.
    destruct (hour_cases h Hr) as [X|[X|[X|[X|[X|[X|[X|[X|[X|[X|[X|X]]]]]]]]]]];
      subst h; destruct p; cbv in El; inversion El; subst;
      try (repeat match goal with
                  | |- context [to24 ?a ?b] =>
                      let v := eval vm_compute in (to24 a b) in
                      change (to24 a b) with v
                  end; lia).
    elim Hn. split; reflexivity.
  - intros -> ->. inversion El; subst. exact E.
Qed.

(** C2 as the specification words it fails at 11 PM: the end of the slot is
    written 12 PM, not 12 AM. *)
Lemma eleven_pm_ends_at_noon :
  deriveEndTime (clockString "11" "00" PM) = Some "12:00 PM"
  /\ deriveEndTime (clockString "11" "00" PM)
     <> Some (clockString (pad 2 (fst (hourLater 11 PM))) "00" (snd (hourLater 11 PM))).
Proof. split; [reflexivity | discriminate]. Qed.

Lemma end_time_witness :
  deriveEndTime "09:00 AM" = Some "10:00 AM"
  /\ deriveEndTime "12:30 PM" = Some "01:30 PM"
  /\ deriveEndTime "11:15 AM" = Some "12:15 PM".
Proof.
  assert (N : forall s, all_digits s = true -> s <> "" -> numeral s) by (intros; split; trivial).
  pose proof (end_time_is_one_hour_later "09" "00" AM 9
                (N "09" eq_refl ltac:(discriminate)) (N "00" eq_refl ltac:(discriminate))
                eq_refl ltac:(lia) ltac:(intros [X _]; discriminate)) as W1.
  pose proof (end_time_is_one_hour_later "12" "30" PM 12
                (N "12" eq_refl ltac:(discriminate)) (N "30" eq_refl ltac:(discriminate))
                eq_refl ltac:(lia) ltac:(intros [X _]; discriminate)) as W2.
  pose proof (end_time_is_one_hour_later "11" "15" AM 11
                (N "11" eq_refl ltac:(discriminate)) (N "15" eq_refl ltac:(discriminate))
                eq_refl ltac:(lia) ltac:(intros [_ X]; discriminate)) as W3.
  cbv beta iota delta [hourLater Z.eqb Pos.eqb] in W1, W2, W3.
  split; [exact (proj1 W1) | split; [exact (proj1 W2) | exact (proj1 W3)]].
Defined.

End EndTime.

(* ================================================================== *)
(** * Creating a booking *)
(* ================================================================== *)

Section Create.
Import JS Spec UI TurfDetail.

Ltac run :=
  cbv beta iota zeta delta
    [Eff.exec Eff.bind Eff.modify Eff.try_catch Eff.try_finally Eff.ret
     Eff.throw Eff.when insertBooking invoke snd fst].

(** Each of the twelve slots the page offers ends sixty minutes after it
    starts. *)
Lemma offered_slot_lasts_an_hour (slot e : string) :
  In slot timeSlots -> deriveEndTime slot = Some e ->
  exists m0, slotMinutes slot = Some m0 /\ slotMinutes e = Some (m0 + 60).
Proof.
  intros Hin He. unfold timeSlots in Hin. simpl in Hin.
  repeat (destruct Hin as [Hin|Hin];
          [subst slot; vm_compute in He; inversion He; subst e;
           eexists; split; vm_compute; reflexivity|]).
  contradiction.
Qed.

(** One hour later on the dial is sixty minutes later in the day, but for the
    last hour of the day. *)
Lemma hourLater_minutes (h : Z) (p : Period) :
  1 <= h <= 12 -> ~ (h = 11 /\ p = PM) ->
  forall m,
    minutesOfDay (fst (hourLater h p)) m (snd (hourLater h p)) = minutesOfDay h m p + 60.
Proof.
  intros Hh Hn m.
  destruct (hour_cases h Hh) as [E|[E|[E|[E|[E|[E|[E|[E|[E|[E|[E|E]]]]]]]]]]];
    subst h; destruct p; unfold minutesOfDay;
    try (match goal with
         | |- context [hourLater ?a ?b] =>
             let v := eval vm_compute in (hourLater a b) in
             change (hourLater a b) with v
         end; cbn [fst snd];
         repeat match goal with
                | |- context [to24 ?a ?b] =>
                    let v := eval vm_compute in (to24 a b) in
                    change (to24 a b) with v
                end; lia).
  elim Hn. split; reflexivity.
Qed.

(** What [handleBooking] stores for a slot that its pattern reads, whatever
    becomes of the notification. *)
Lemma handleBooking_stores (user : Backend.User) (date : Z) (slot e : string)
    (turf : Turf) (r : Replies) (s : State) (new_id stamp : string) :
  deriveEndTime slot = Some e ->
  insertion r = Inserted new_id stamp ->
  let s' := Eff.exec (handleBooking (Some user) (Some date) (Some slot) (Some turf) r) s in
  exists row,
    table s' = (table s ++ [row])%list
    /\ Backend.start_time row = slot
    /\ Backend.end_time row = e
    /\ Backend.total_price row = price turf
    /\ Backend.status row = "confirmed"
    /\ Backend.turf_id row = id turf
    /\ Backend.user_id row = Backend.uid user.
Proof.
  intros He Hins s'.
  unfold deriveEndTime in He.
  destruct (slotClock slot) as [[hour minuteStr]|] eqn:Hc; [|discriminate].
  inversion He; subst e; clear He.
  destruct slot as [|c0 slot0]; [discriminate|].
  subst s'. unfold handleBooking. run. rewrite Hc, Hins.
  destruct (Backend.email user) as [[|c m]|];
    [| destruct (notification r) |];
    (eexists; split; [reflexivity | repeat split; assumption]).
Qed.

(** C5, amended.  For every turf, user and date and every start time
    [h:mm AM|PM] with [h] in 1..12 other than an 11 PM one, a booking that
    the backend accepts adds one record to the table: it carries the start
    time, an end time that is the start time plus one hour (the hour one
    later on the 12-hour dial on two digits, the same minutes, the suffix
    re-derived, sixty minutes later in the day), the price of the turf as
    total_price and the status 'confirmed'.  This holds whatever becomes of
    the notification. *)
Theorem handleBooking_persists (user : Backend.User) (date : Z) (hs ms : string)
    (p : Period) (h : Z) (turf : Turf) (r : Replies) (s : State)
    (new_id stamp : string) :
  numeral hs -> numeral ms -> parseInt hs = Some h -> 1 <= h <= 12 ->
  ~ (h = 11 /\ p = PM) ->
  insertion r = Inserted new_id stamp ->
  let slot := clockString hs ms p in
  let s' := Eff.exec (handleBooking (Some user) (Some date) (Some slot) (Some turf) r) s in
  exists row,
    table s' = (table s ++ [row])%list
    /\ Backend.start_time row = slot
    /\ Backend.end_time row
       = clockString (pad 2 (fst (hourLater h p))) ms (snd (hourLater h p))
    /\ (forall m, minutesOfDay (fst (hourLater h p)) m (snd (hourLater h p))
                  = minutesOfDay h m p + 60)
    /\ Backend.total_price row = price turf
    /\ Backend.status row = "confirmed"
    /\ Backend.turf_id row = id turf
    /\ Backend.user_id row = Backend.uid user.
Proof.
  intros H1 H2 Hh Hr Hn Hins slot s'.
  assert (E : deriveEndTime slot
              = Some (clockString (pad 2 (fst (hourLater h p))) ms (snd (hourLater h p)))).
  { unfold slot. rewrite (deriveEndTime_clockString hs ms p h H1 H2 Hh).
    now rewrite (endTimeOf_hourLater h p ms Hr Hn). }
  destruct (handleBooking_stores user date slot _ turf r s new_id stamp E Hins)
    as (row & Ht & Hs & He & Hp & Hst & Htu & Hu).
  exists row. fold s' in Ht.
  split; [exact Ht|]. split; [exact Hs|]. split; [exact He|].
  split; [exact (hourLater_minutes h p Hr Hn)|].
  repeat split; assumption.
Qed.

(** C5 as the specification words it fails for a start at 11 PM: the record
    that is stored ends at '12:00 PM', noon of the same day, eleven hours
    before it starts. *)
Lemma eleven_pm_booking_ends_at_noon :
  let r := {| insertion := Inserted "b9" "2024-06-09T10:00:00Z";
              notification := Backend.InvokeOk |} in
  let s' := Eff.exec (handleBooking (Some Examples.user) (Some Examples.midnight)
                        (Some "11:00 PM") (Some Examples.turf) r) Examples.turfPage in
  map Backend.start_time (table s') = ["11:00 PM"]
  /\ map Backend.end_time (table s') = ["12:00 PM"]
  /\ map Backend.status (table s') = ["confirmed"]
  /\ slotMinutes "11:00 PM" = Some 1380
  /\ slotMinutes "12:00 PM" = Some 720
  /\ "12:00 PM" <> clockString "12" "00" AM.
Proof. repeat split; discriminate. Qed.

Lemma handleBooking_persists_witness :
  let r := {| insertion := Inserted "b9" "2024-06-09T10:00:00Z";
              notification := Backend.InvokeThrew Examples.networkDown |} in
  let s' := Eff.exec (handleBooking (Some Examples.user) (Some Examples.midnight)
                        (Some "03:00 PM") (Some Examples.turf) r) Examples.turfPage in
  exists row,
    table s' = [row]
    /\ Backend.end_time row = "04:00 PM"
    /\ Backend.total_price row = Number.of_Z 1200
    /\ Backend.status row = "confirmed".
Proof.
  intros r s'.
  assert (N : forall x, all_digits x = true -> x <> "" -> numeral x) by (intros; split; trivial).
  destruct (handleBooking_persists Examples.user Examples.midnight "03" "00" PM 3
              Examples.turf r Examples.turfPage "b9" "2024-06-09T10:00:00Z"
              (N "03" eq_refl ltac:(discriminate)) (N "00" eq_refl ltac:(discriminate))
              eq_refl ltac:(lia) ltac:(intros [X _]; discriminate) eq_refl)
    as (row & Ht & _ & He & _ & Hp & Hs & _).
  exists row. repeat split; assumption.
Defined.

(** Whatever the notification call does, a booking that the backend accepted
    is announced as successful and nothing is reported as failed. *)
Lemma handleBooking_notification_swallowed (user : Backend.User) (date : Z)
    (slot e : string) (turf : Turf) (r : Replies) (s : State) (new_id stamp : string) :
  deriveEndTime slot = Some e ->
  insertion r = Inserted new_id stamp ->
  let s' := Eff.exec (handleBooking (Some user) (Some date) (Some slot) (Some turf) r) s in
  exists log,
    events s' = (events s ++ log ++ [Toasted bookingSuccessfulToast; Navigated "/my-bookings"])%list
    /\ (forall t, In (Toasted t) log -> False)
    /\ isBooking s' = false.
Proof.
  intros He Hins s'. unfold deriveEndTime in He.
  destruct (slotClock slot) as [[hour minuteStr]|] eqn:Hc; [|discriminate].
  destruct slot as [|c0 slot0]; [discriminate|].
  subst s'. unfold handleBooking. run. rewrite Hc, Hins.
  destruct (Backend.email user) as [[|c m]|];
    [| destruct (notification r) |]; cbn [events isBooking emit setIsBooking setTable];
    rewrite <- ?app_assoc; cbn [app].
  - exists [ConsoleLog "Booking created:"]. repeat split.
    intros t [X|[]]; discriminate.
  - exists [ConsoleLog "Booking created:"; Invoked "send-booking-email" (String c m);
            ConsoleLog "Email response:"]. repeat split.
    intros t [X|[X|[X|[]]]]; discriminate.
  - exists [ConsoleLog "Booking created:"; Invoked "send-booking-email" (String c m);
            ConsoleError "Error sending email:"; ConsoleLog "Email response:"]. repeat split.
    intros t [X|[X|[X|[X|[]]]]]; discriminate.
  - exists [ConsoleLog "Booking created:"; Invoked "send-booking-email" (String c m);
            ConsoleError "Failed to send email:"]. repeat split.
    intros t [X|[X|[X|[]]]]; discriminate.
  - exists [ConsoleLog "Booking created:"]. repeat split.
    intros t [X|[]]; discriminate.
Qed.

End Create.

(* ================================================================== *)
(** * Cancelling a booking *)
(* ================================================================== *)

Section Cancel.
Import JS Spec UI MyBookings.

Ltac run :=
  cbv beta iota zeta delta
    [Eff.exec Eff.bind Eff.modify Eff.try_catch Eff.try_finally Eff.ret
     Eff.throw Eff.when selectSingle updateCancelled invoke throwIf snd fst].

Lemma find_absent {A : Type} (f : A -> bool) (l : list A) :
  (forall x, In x l -> f x = false) -> find f l = None.
Proof.
  induction l as [|a l IH]; simpl; intros Hf; [reflexivity|].
  rewrite (Hf a (or_introl eq_refl)). apply IH. intros x Hx. apply Hf. now right.
Qed.

(** C9.  For a booking id that none of the loaded bookings carries,
    [handleCancelRequest] does not consult the eligibility check: at any time
    and in any environment it shows no refusal and sets the id as the pending
    cancellation, which opens the confirmation dialog. *)
Theorem unknown_id_opens_confirmation `{Host} (now : Z) (bookingId : string) (s : State) :
  (forall b, In b (bookings s) -> id b <> bookingId) ->
  handleCancelRequest now bookingId s = setConfirmCancelId (Some bookingId) s
  /\ confirmCancelId (handleCancelRequest now bookingId s) = Some bookingId
  /\ events (handleCancelRequest now bookingId s) = events s.
Proof.
  intros Hn.
  assert (E : handleCancelRequest now bookingId s = setConfirmCancelId (Some bookingId) s).
  { unfold handleCancelRequest. rewrite find_absent; [reflexivity|].
    intros b Hb. apply String.eqb_neq. now apply Hn. }
  rewrite E. repeat split.
Qed.

Lemma unknown_id_witness :
  confirmCancelId
    (@handleCancelRequest utcHost Examples.tenAM "b404" (Examples.myBookingsPage None))
  = Some "b404".
Proof.
  apply (@unknown_id_opens_confirmation utcHost Examples.tenAM "b404"
           (Examples.myBookingsPage None)).
  intros b [<-|[]]. discriminate.
Defined.

(** A loaded booking that starts in less than seven hours is refused. *)
Lemma known_id_is_checked :
  @handleCancelRequest utcHost Examples.tenAM "b1" (Examples.myBookingsPage None)
  = emit (Toasted cannotCancelToast) (Examples.myBookingsPage None).
Proof. reflexivity. Qed.

(** Once the reads and the update went through, the row is cancelled in the
    table, whatever becomes of the notification. *)
Lemma handleCancelConfirm_persists (user : option Backend.User) (r : Replies)
    (s : State) (c : ascii) (cid : string) (row : Backend.BookingRow) :
  confirmCancelId s = Some (String c cid) ->
  Backend.eq_id (String c cid) (table s) = [row] ->
  fetchFault r = None -> updateFault r = None ->
  table (Eff.exec (handleCancelConfirm user r) s)
  = Backend.update_status (String c cid) "cancelled" (table s).
Proof.
  intros Hc Hrow Hf Hu. unfold handleCancelConfirm, Eff.exec. cbv beta. rewrite Hc. run.
  rewrite Hf, Hu. cbn [table setIsCancelling]. rewrite Hrow.
  destruct user as [[u [[|c' m]|]]|]; try reflexivity.
  destruct (notification r); reflexivity.
Qed.

(** With the notification delivered, or answered with an error, the
    cancellation is announced and the list on the page follows. *)
Lemma handleCancelConfirm_announced (u : Backend.User) (r : Replies)
    (s : State) (c c' : ascii) (cid mail : string) (row : Backend.BookingRow) :
  confirmCancelId s = Some (String c cid) ->
  Backend.eq_id (String c cid) (table s) = [row] ->
  Backend.email u = Some (String c' mail) ->
  fetchFault r = None -> updateFault r = None ->
  (forall e, notification r <> Backend.InvokeThrew e) ->
  let s' := Eff.exec (handleCancelConfirm (Some u) r) s in
  events s' = (events s ++ [Invoked "booking-notification" (String c' mail);
                            Toasted bookingCancelledToast])%list
  /\ bookings s' = map (fun b => if String.eqb (id b) (String c cid)
                                 then cancelled b else b) (bookings s).
Proof.
  intros Hc Hrow Hm Hf Hu Hn s'. subst s'.
  unfold handleCancelConfirm, Eff.exec. cbv beta. rewrite Hc. run.
  rewrite Hf, Hu. cbn [table setIsCancelling]. rewrite Hrow.
  destruct u as [uid0 mail0]. simpl in Hm. subst mail0.
  destruct (notification r) as [|e|e]; [| | now elim (Hn e)];
    cbn; rewrite <- app_assoc; split; reflexivity.
Qed.


End Cancel.

(* ================================================================== *)
(** * A notification that fails *)
(* ================================================================== *)

Section Notifications.
Import JS Spec UI.

Ltac run :=
  cbv beta iota zeta delta
    [Eff.exec Eff.bind Eff.modify Eff.try_catch Eff.try_finally Eff.ret
     Eff.throw Eff.when TurfDetail.insertBooking TurfDetail.invoke
     MyBookings.selectSingle MyBookings.updateCancelled MyBookings.invoke
     MyBookings.throwIf snd fst].




End Notifications.

(* ================================================================== *)
(** * Whole numbers as Numbers *)
(* ================================================================== *)

Section WholeNumbers.
Import Number.

(** A magnitude whose low bits, below the spacing at its size, are all zero
    is a Number as it stands. *)
Lemma nearest_exact (negative : bool) (n : Z) :
  0 < n < overflow_units ->
  (2 ^ Z.max 0 (Z.log2 n - 52) | n) ->
  nearest negative n 1 = if negative then Finite (- n) else Finite n.
Proof.
  intros Hn Hdiv. unfold nearest. rewrite Z.div_1_r, Z.mul_1_l.
  set (s := Z.max 0 (Z.log2 n - 52)) in *.
  assert (Hp : 0 < 2 ^ s) by (apply Z.pow_pos_nonneg; unfold s; lia).
  assert (Hm : n mod 2 ^ s = 0) by (apply Z.mod_divide; [lia | exact Hdiv]).
  rewrite Hm. cbn [Z.mul].
  replace (2 ^ s <? 0) with false by (symmetry; apply Z.ltb_ge; lia).
  replace (0 =? 2 ^ s) with false by (symmetry; apply Z.eqb_neq; lia).
  cbn [orb andb].
  replace (n / 2 ^ s * 2 ^ s) with n
    by (rewrite Z.mul_comm; apply Z.div_exact; [lia | exact Hm]).
  replace (overflow_units <=? n) with false by (symmetry; apply Z.leb_gt; lia).
  replace (n =? 0) with false by (symmetry; apply Z.eqb_neq; lia).
  reflexivity.
Qed.

Lemma integer_units_divide (a : Z) :
  0 < a <= 2 ^ 53 ->
  (2 ^ Z.max 0 (Z.log2 (a * 2 ^ unit_exponent) - 52) | a * 2 ^ unit_exponent).
Proof.
  intros Ha. unfold unit_exponent.
  rewrite Z.log2_mul_pow2 by lia.
  destruct (Z.eq_dec a (2 ^ 53)) as [->|Hne].
  - rewrite Z.log2_pow2 by lia. exists (2 ^ 52).
    rewrite <- !Z.pow_add_r by lia. reflexivity.
  - assert (Hl : Z.log2 a < 53) by (apply Z.log2_lt_pow2; lia).
    assert (Hl0 : 0 <= Z.log2 a) by apply Z.log2_nonneg.
    exists (a * 2 ^ (52 - Z.log2 a)).
    rewrite <- Z.mul_assoc, <- Z.pow_add_r by lia. do 2 f_equal. lia.
Qed.

(** The whole numbers up to 2^53 in magnitude are Numbers. *)
Lemma of_Z_exact (n : Z) :
  Z.abs n <= 2 ^ 53 -> of_Z n = Finite (n * 2 ^ unit_exponent).
Proof.
  intros Hn. unfold of_Z. destruct (Z.eq_dec n 0) as [->|Hne].
  - reflexivity.
  - assert (Hu : 0 < 2 ^ unit_exponent)
      by (apply Z.pow_pos_nonneg; unfold unit_exponent; lia).
    rewrite nearest_exact.
    + destruct (Z.ltb_spec n 0); f_equal;
        [rewrite Z.abs_neq by lia | rewrite Z.abs_eq by lia]; lia.
    + split; [nia|]. unfold overflow_units, unit_exponent in *.
      change 2098 with (1024 + 1074). rewrite Z.pow_add_r by lia.
      apply Z.mul_lt_mono_pos_r; [exact Hu|].
      apply Z.le_lt_trans with (2 ^ 53); [exact Hn|]. apply Z.pow_lt_mono_r; lia.
    + apply integer_units_divide. lia.
Qed.

(** Their sum, when it is within 2^53 too, is not rounded. *)
Lemma add_of_Z (a b : Z) :
  Z.abs a <= 2 ^ 53 -> Z.abs b <= 2 ^ 53 -> Z.abs (a + b) <= 2 ^ 53 ->
  add (of_Z a) (of_Z b) = of_Z (a + b).
Proof.
  intros Ha Hb Hab. rewrite (of_Z_exact a Ha), (of_Z_exact b Hb). unfold add.
  rewrite <- Z.mul_add_distr_r.
  assert (Hu : 0 < 2 ^ unit_exponent)
    by (apply Z.pow_pos_nonneg; unfold unit_exponent; lia).
  destruct (Z.eqb_spec ((a + b) * 2 ^ unit_exponent) 0) as [E|E].
  - assert (a + b = 0) as -> by nia. reflexivity.
  - unfold of_Z. f_equal.
    + destruct (Z.ltb_spec (a + b) 0), (Z.ltb_spec ((a + b) * 2 ^ unit_exponent) 0);
        trivial; nia.
    + rewrite Z.abs_mul, (Z.abs_eq (2 ^ unit_exponent)) by lia. reflexivity.
Qed.

Lemma or0_of_Z (n : Z) : Z.abs n <= 2 ^ 53 -> or0 (of_Z n) = of_Z n.
Proof.
  intros Hn. rewrite (of_Z_exact n Hn). unfold or0, to_boolean.
  destruct (Z.eqb_spec (n * 2 ^ unit_exponent) 0) as [E|E]; [|reflexivity].
  cbn [negb]. unfold zero. now rewrite E.
Qed.

Lemma value_of_Z (n : Z) :
  Z.abs n <= 2 ^ 53 -> exists v, value (of_Z n) = Some v /\ (v == inject_Z n)%Q.
Proof.
  intros Hn. rewrite (of_Z_exact n Hn). cbn [value]. eexists. split; [reflexivity|].
  unfold Qeq, inject_Z, unit_exponent. cbn [Qnum Qden].
  rewrite Pos2Z.inj_pow. lia.
Qed.

End WholeNumbers.

(* ================================================================== *)
(** * The admin aggregates *)
(* ================================================================== *)

Section Aggregates.
Import JS Spec AdminDashboard.

Lemma or0_id (x : Z) : or0 x = x.
Proof. unfold or0. destruct (Z.eqb_spec x 0); congruence. Qed.

(** The reduce goes over the bookings that are not cancelled. *)
Lemma revenue_fold (l : list Booking) (acc : Number.t) :
  fold_left
    (fun sum booking =>
       if negb (String.eqb (status booking) "cancelled")
       then Number.add sum (Number.or0 (total_price booking)) else sum) l acc
  = fold_left (fun sum p => Number.add sum (Number.or0 p))
              (map total_price (filter notCancelled l)) acc.
Proof.
  revert acc. induction l as [|b l IH]; intros acc; [reflexivity|].
  cbn [fold_left filter]. rewrite IH. unfold notCancelled at 2.
  now destruct (negb (String.eqb (status b) "cancelled")).
Qed.

(** Whole numbers add without rounding as long as the sums stay within
    2^53 in magnitude. *)
Lemma whole_sum (ns : list Z) (a : Z) :
  Z.abs a + sumZ (map Z.abs ns) <= 2 ^ 53 ->
  fold_left (fun sum p => Number.add sum (Number.or0 p)) (map Number.of_Z ns)
            (Number.of_Z a)
  = Number.of_Z (a + sumZ ns).
Proof.
  revert a. induction ns as [|n ns IH]; intros a Ha; cbn [map fold_left sumZ fold_right] in *.
  - now rewrite Z.add_0_r.
  - fold (sumZ (map Z.abs ns)) in Ha. fold (sumZ ns).
    assert (Hs : 0 <= sumZ (map Z.abs ns)).
    { clear. induction ns as [|x ns IH]; cbn [map sumZ fold_right]; [lia|].
      fold (sumZ (map Z.abs ns)). lia. }
    rewrite or0_of_Z by lia. rewrite add_of_Z by lia.
    rewrite IH by lia. f_equal. lia.
Qed.

Lemma exactSum_whole (ns : list Z) :
  sumZ (map Z.abs ns) <= 2 ^ 53 ->
  exists q, exactSum (map Number.of_Z ns) = Some q /\ (q == inject_Z (sumZ ns))%Q.
Proof.
  induction ns as [|n ns IH]; cbn [map exactSum sumZ fold_right]; intros Hb.
  - exists 0%Q. split; reflexivity.
  - fold (sumZ (map Z.abs ns)) in Hb. fold (sumZ ns).
    assert (Hs : 0 <= sumZ (map Z.abs ns)).
    { clear. induction ns as [|x ns IH]; cbn [map sumZ fold_right]; [lia|].
      fold (sumZ (map Z.abs ns)). lia. }
    destruct (value_of_Z n ltac:(lia)) as (v & Hv & Ev).
    destruct (IH ltac:(lia)) as (q & Hq & Eq).
    rewrite Hv, Hq. exists (v + q)%Q. split; [reflexivity|].
    rewrite Ev, Eq. rewrite inject_Z_plus. reflexivity.
Qed.

Lemma sum_abs_nonneg (ns : list Z) : 0 <= sumZ (map Z.abs ns).
Proof.
  induction ns as [|x ns IH]; cbn [map sumZ fold_right]; [lia|].
  fold (sumZ (map Z.abs ns)). lia.
Qed.

Lemma abs_sum_le (ns : list Z) : Z.abs (sumZ ns) <= sumZ (map Z.abs ns).
Proof.
  induction ns as [|x ns IH]; cbn [map sumZ fold_right]; [lia|].
  fold (sumZ (map Z.abs ns)). fold (sumZ ns). lia.
Qed.

(** The revenue of whole prices within 2^53. *)
Lemma revenue_whole (l : list Booking) (ns : list Z) :
  map total_price (filter notCancelled l) = map Number.of_Z ns ->
  sumZ (map Z.abs ns) <= 2 ^ 53 ->
  totalRevenue l = Number.of_Z (sumZ ns).
Proof.
  intros Hp Hb. pose proof (sum_abs_nonneg ns). pose proof (abs_sum_le ns).
  unfold totalRevenue. rewrite revenue_fold, Hp.
  change Number.zero with (Number.of_Z 0).
  rewrite whole_sum by (cbn [Z.abs]; lia).
  rewrite or0_of_Z by lia. reflexivity.
Qed.

(** C7, amended.  The total revenue is the sum, taken in the order of the
    list with the addition of Numbers (each step rounded to the nearest
    double), of the total_price of the bookings whose status is not
    'cancelled', a price of zero or NaN counting as 0; a cancelled booking
    adds nothing.  When these prices are whole numbers whose magnitudes sum
    to at most 2^53, no step rounds and the revenue is their exact sum. *)
Theorem totalRevenue_is_rounded_sum (l : list Booking) :
  totalRevenue l
  = Number.or0
      (fold_left (fun sum p => Number.add sum (Number.or0 p))
                 (map total_price
                      (filter (fun b => negb (String.eqb (status b) "cancelled")) l))
                 Number.zero)
  /\ totalRevenue l
     = totalRevenue (filter (fun b => negb (String.eqb (status b) "cancelled")) l)
  /\ (forall ns,
        map total_price (filter (fun b => negb (String.eqb (status b) "cancelled")) l)
        = map Number.of_Z ns ->
        sumZ (map Z.abs ns) <= 2 ^ 53 ->
        totalRevenue l = Number.of_Z (sumZ ns)
        /\ exactly (totalRevenue l) (inject_Z (sumZ ns))
        /\ exists q,
             exactSum (map total_price
                         (filter (fun b => negb (String.eqb (status b) "cancelled")) l))
             = Some q
             /\ exactly (totalRevenue l) q).
Proof.
  assert (E : totalRevenue l
              = Number.or0
                  (fold_left (fun sum p => Number.add sum (Number.or0 p))
                             (map total_price (filter notCancelled l)) Number.zero)).
  { unfold totalRevenue. now rewrite revenue_fold. }
  split; [exact E|]. split.
  - rewrite E. unfold totalRevenue. rewrite revenue_fold.
    fold notCancelled. do 3 f_equal.
    clear. induction l as [|b l IH]; [reflexivity|]. cbn [filter].
    destruct (notCancelled b) eqn:Hb; [|exact IH].
    cbn [filter]. rewrite Hb. now f_equal.
  - intros ns Hp Hb. fold notCancelled in Hp.
    pose proof (sum_abs_nonneg ns) as Hs. pose proof (abs_sum_le ns) as Hsum.
    assert (R : totalRevenue l = Number.of_Z (sumZ ns))
      by (apply revenue_whole; assumption).
    split; [exact R|].
    destruct (value_of_Z (sumZ ns) ltac:(lia)) as (v & Hv & Ev).
    split; [exists v; rewrite R; split; assumption|].
    fold notCancelled. rewrite Hp.
    destruct (exactSum_whole ns Hb) as (q & Hq & Eq).
    exists q. split; [exact Hq|]. exists v. rewrite R. split; [exact Hv|].
    now rewrite Ev, Eq.
Qed.

(** C7 as the specification words it fails for prices that are not whole:
    the doubles for 0.1 and 0.2 add up to the double 0.30000000000000004,
    which is not their exact sum; and it fails for whole prices beyond 2^53. *)
Lemma totalRevenue_not_exact :
  (exists t e,
      Number.value
        (totalRevenue [Examples.pricedBooking "confirmed" "2024-06-10" (Number.of_Q (1 # 10));
                       Examples.pricedBooking "confirmed" "2024-06-11" (Number.of_Q (2 # 10))])
      = Some t
      /\ exactSum [Number.of_Q (1 # 10); Number.of_Q (2 # 10)] = Some e
      /\ ~ (t == e)%Q)
  /\ totalRevenue [Examples.adminBooking "confirmed" "2024-06-10" (2 ^ 53);
                   Examples.adminBooking "confirmed" "2024-06-11" 1]
     = Number.of_Z (2 ^ 53)
  /\ Number.of_Z (2 ^ 53) <> Number.of_Z (2 ^ 53 + 1 + 1).
Proof.
  split; [|split].
  - eexists. eexists. split; [vm_compute; reflexivity|].
    split; [vm_compute; reflexivity|].
    unfold Qeq. vm_compute. discriminate.
  - vm_compute. reflexivity.
  - vm_compute. discriminate.
Qed.

Lemma totalRevenue_witness :
  totalRevenue [Examples.adminBooking "confirmed" "2024-06-10" 1200;
                Examples.adminBooking "cancelled" "2024-06-11" 900;
                Examples.adminBooking "pending" "2024-06-12" 1500]
  = Number.of_Z 2700.
Proof.
  destruct (totalRevenue_is_rounded_sum
              [Examples.adminBooking "confirmed" "2024-06-10" 1200;
               Examples.adminBooking "cancelled" "2024-06-11" 900;
               Examples.adminBooking "pending" "2024-06-12" 1500])
    as (_ & _ & W).
  exact (proj1 (W [1200; 1500] eq_refl ltac:(vm_compute; discriminate))).
Defined.

(** What the dashboard counts: the bookings that are not cancelled and whose
    date, as an instant, is not before now. *)
Lemma activeBookings_counts_instants `{Host} (now : Z) (l : list Booking) :
  activeBookings now l
  = Z.of_nat (List.length
                (filter (fun b => notCancelled b && notBefore now (booking_date b)) l)).
Proof. unfold activeBookings. now rewrite or0_id. Qed.

(** A booking dated today (midnight UTC of the day on which [now] falls) is
    counted only at that very midnight. *)
Lemma today_not_counted `{Host} (now : Z) (b : Booking) :
  Date_parse (booking_date b) = Some (Day now * msPerDay) ->
  now mod msPerDay <> 0 ->
  activeBookings now [b] = 0.
Proof.
  intros Hd Hn. rewrite activeBookings_counts_instants. simpl.
  unfold notBefore. rewrite Hd.
  replace (now <=? Day now * msPerDay) with false; [now rewrite andb_false_r|].
  symmetry. apply Z.leb_gt. unfold Day.
  pose proof (Z.div_mod now msPerDay ltac:(discriminate)).
  pose proof (Z.mod_pos_bound now msPerDay ltac:(reflexivity)). lia.
Qed.

(** C8 at the input on which it fails.  At ten in the morning of 10 June 2024
    a confirmed booking dated 10 June 2024 is on or after today, and the
    dashboard counts no active booking; so it is in a browser on UTC and in
    one on Indian time. *)
Theorem activeBookings_misses_today :
  let l := [Examples.adminBooking "confirmed" "2024-06-10" 1200] in
  @activeBookings utcHost Examples.tenAM l = 0
  /\ @activeCount utcHost Examples.tenAM l = 1
  /\ @activeBookings istHost Examples.tenAM l = 0
  /\ @activeCount istHost Examples.tenAM l = 1.
Proof. repeat split. Qed.

End Aggregates.

(* ================================================================== *)
(** * More on the cancellation window *)
(* ================================================================== *)

Section WindowMore.
Import JS Spec Forms MyBookings.

Lemma digit_value_range (c : ascii) :
  is_digit c = true -> 0 <= digit_value c <= 9.
Proof.
  destruct c as [[] [] [] [] [] [] [] []]; simpl; try discriminate;
    intros _; split; vm_compute; discriminate.
Qed.

Lemma digits_value_nonneg (s : string) (acc : Z) :
  0 <= acc -> 0 <= digits_value acc s.
Proof.
  revert acc. induction s as [|c s IH]; cbn [digits_value]; intros acc Ha; [exact Ha|].
  destruct (is_digit c) eqn:Hc; [|exact Ha].
  apply IH. pose proof (digit_value_range c Hc). lia.
Qed.

Lemma space_is_no_digit (c : ascii) : is_space c = true -> is_digit c = false.
Proof. destruct c as [[] [] [] [] [] [] [] []]; vm_compute; congruence. Qed.

Lemma periodOf_letters (a b : ascii) (p : Period) :
  periodOf a b = Some p ->
  is_AP a = true /\ is_M b = true /\ is_digit a = false /\ is_space a = false
  /\ toUpperCase (String a (String b "")) = periodText p.
Proof.
  destruct b as [[] [] [] [] [] [] [] []]; try discriminate;
    destruct a as [[] [] [] [] [] [] [] []]; try discriminate;
    intros E; inversion E; subst; repeat split.
Qed.

Lemma skip_spaces_run (ws : string) (a : ascii) (r : string) :
  all_spaces ws = true -> is_space a = false ->
  skip_spaces (ws ++ String a r) = String a r.
Proof.
  intros Hw Ha. induction ws as [|w ws IH]; simpl in *.
  - now rewrite Ha.
  - apply andb_true_iff in Hw as [Hw1 Hw2]. rewrite Hw1. now apply IH.
Qed.

(** After a numeral, white space and a letter that is neither stop the run of
    digits. *)
Lemma span_digits_before_suffix (ds ws : string) (a : ascii) (r : string) :
  all_digits ds = true -> all_spaces ws = true -> is_digit a = false ->
  span_digits (ds ++ ws ++ String a r) = (ds, ws ++ String a r).
Proof.
  intros Hd Hw Ha. destruct ws as [|w ws]; simpl in *.
  - now apply span_digits_stop.
  - apply andb_true_iff in Hw as [Hw _].
    apply span_digits_stop; [exact Hd | now apply space_is_no_digit].
Qed.

(** X1.  [canCancelBooking] reads a start time leniently: seconds after the
    minutes are matched and dropped, any run of white space (or none) may
    separate the time from the suffix, the suffix counts in either letter
    case, and whatever follows it is not looked at.  All these spellings give
    the hour and the minute of the plain 12-hour string. *)
Theorem start_time_spellings (hs ms : string) (sec : option string) (ws : string)
    (a b : ascii) (rest : string) (p : Period) :
  numeral hs -> numeral ms ->
  (forall ss, sec = Some ss -> numeral ss) ->
  all_spaces ws = true -> periodOf a b = Some p ->
  startClock (hs ++ ":" ++ ms ++ secondsText sec ++ ws ++ String a (String b rest))
  = Some (to24 (digits_value 0 hs) p, digits_value 0 ms).
Proof.
  intros H1 H2 Hsec Hw Hp.
  destruct (periodOf_letters a b p Hp) as (Ha & Hb & Had & Has & Hup).
  assert (Em : timeRegex (hs ++ ":" ++ ms ++ secondsText sec ++ ws ++ String a (String b rest))
               = Some {| hourStr := hs; minuteStr := ms; secondStr := sec;
                         periodStr := Some (String a (String b "")) |}).
  { apply timeRegex_head. unfold timeRegex_at.
    destruct H1 as [Hd1 Hn1], H2 as [Hd2 Hn2].
    change (":" ++ ms ++ secondsText sec ++ ws ++ String a (String b rest))
      with (String ":" (ms ++ secondsText sec ++ ws ++ String a (String b rest))).
    rewrite (span_digits_stop hs ":" _ Hd1 colon_not_digit), (is_empty_false _ Hn1).
    destruct sec as [ss|]; cbn [secondsText append].
    - destruct (Hsec ss eq_refl) as [Hd3 Hn3].
      rewrite (span_digits_stop ms ":" _ Hd2 colon_not_digit), (is_empty_false _ Hn2).
      rewrite (span_digits_before_suffix ss ws a _ Hd3 Hw Had), (is_empty_false _ Hn3).
      rewrite (skip_spaces_run ws a _ Hw Has), Ha, Hb. reflexivity.
    - rewrite (span_digits_before_suffix ms ws a _ Hd2 Hw Had), (is_empty_false _ Hn2).
      assert (E3 : match ws ++ String a (String b rest) with
                   | String ":" r3' =>
                       let (sd, r) := span_digits r3' in
                       if is_empty sd then (None, ws ++ String a (String b rest)) else (Some sd, r)
                   | _ => (@None string, ws ++ String a (String b rest))
                   end = (None, ws ++ String a (String b rest))).
      { destruct ws as [|w ws']; simpl.
        - destruct a as [[] [] [] [] [] [] [] []]; try reflexivity; discriminate.
        - simpl in Hw. apply andb_true_iff in Hw as [Hw1 _].
          destruct w as [[] [] [] [] [] [] [] []]; try reflexivity; discriminate. }
      rewrite E3.
      rewrite (skip_spaces_run ws a _ Hw Has), Ha, Hb. reflexivity. }
  unfold startClock. rewrite Em. simpl.
  rewrite (parseInt_numeral hs H1), (parseInt_numeral ms H2).
  simpl toUpperCase in Hup. rewrite Hup, hour24_to24. reflexivity.
Qed.

Lemma start_time_spellings_witness :
  startClock "3:05:59pm sharp" = Some (15, 5)
  /\ startClock "03:05   Am" = Some (3, 5).
Proof.
  split.
  - apply (start_time_spellings "3" "05" (Some "59") "" "p" "m" " sharp" PM);
      try reflexivity; try (split; [reflexivity | discriminate]).
    intros ss E. inversion E. split; [reflexivity | discriminate].
  - apply (start_time_spellings "03" "05" None "   " "A" "m" "" AM);
      try reflexivity; try (split; [reflexivity | discriminate]).
    intros ss E. discriminate.
Defined.

Context `{Host}.

(** X2.  The window closes and never reopens: a booking that can be cancelled
    now could be cancelled at every earlier instant, and one that cannot be
    cancelled now cannot be cancelled at any later instant. *)
Theorem window_never_reopens (now later : Z) (b : Booking) :
  now <= later ->
  (canCancelBooking later b = true -> canCancelBooking now b = true)
  /\ (canCancelBooking now b = false -> canCancelBooking later b = false).
Proof.
  intros Hle. rewrite !canCancelBooking_start.
  destruct (bookingStart b) as [t|]; [|split; trivial].
  split.
  - rewrite !Z.leb_le. lia.
  - rewrite !Z.leb_gt. lia.
Qed.

End WindowMore.

Section WindowMoreExamples.
Import JS Spec MyBookings Examples.

Lemma window_never_reopens_witness :
  let b := booking "confirmed" "2024-06-10" "03:00 PM" in
  @canCancelBooking utcHost midnight b = true
  /\ @canCancelBooking utcHost tenAM b = false.
Proof.
  intros b.
  assert (E8 : @canCancelBooking utcHost eightAM b = true) by reflexivity.
  assert (E9 : @canCancelBooking utcHost (eightAM + 1) b = false) by reflexivity.
  split.
  - apply (proj1 (@window_never_reopens utcHost midnight eightAM b ltac:(unfold midnight, eightAM; lia))).
    exact E8.
  - apply (proj2 (@window_never_reopens utcHost (eightAM + 1) tenAM b ltac:(unfold tenAM, eightAM; lia))).
    exact E9.
Defined.

End WindowMoreExamples.

(* ================================================================== *)
(** * More on the end of a slot *)
(* ================================================================== *)

Section EndTimeMore.
Import JS Spec TurfDetail.

Lemma slotRegex_tail (c : ascii) (s : string) :
  slotRegex_at (String c s) = None -> slotRegex (String c s) = slotRegex s.
Proof.
  intros E. change (slotRegex (String c s)) with
    (match slotRegex_at (String c s) with Some m => Some m | None => slotRegex s end).
  now rewrite E.
Qed.

Lemma slotRegex_at_sound (s hs ms pt : string) :
  slotRegex_at s = Some (hs, ms, pt) ->
  numeral hs /\ numeral ms /\ (pt = "AM" \/ pt = "PM").
Proof.
  unfold slotRegex_at.
  destruct (span_digits s) as [h r1] eqn:E1.
  destruct (is_empty h) eqn:Hh; [discriminate|].
  destruct r1 as [|c r2]; [discriminate|].
  destruct (Ascii.eqb_spec c ":") as [->|Hc].
  2:{ destruct c as [[] [] [] [] [] [] [] []]; try discriminate. now elim Hc. }
  destruct (span_digits r2) as [mi r3] eqn:E2.
  destruct (is_empty mi) eqn:Hm; [discriminate|].
  destruct r3 as [|w [|a [|b r]]]; try discriminate.
  destruct (is_space w && is_AP a && Ascii.eqb b "M") eqn:Hs; [|discriminate].
  intros E; inversion E; subst; clear E.
  apply span_digits_spec in E1 as [Hd1 _]. apply span_digits_spec in E2 as [Hd2 _].
  apply andb_true_iff in Hs as [Hs Hb]. apply andb_true_iff in Hs as [_ Ha].
  apply Ascii.eqb_eq in Hb. subst b.
  repeat split; trivial.
  - intros ->. discriminate.
  - intros ->. discriminate.
  - destruct a as [[] [] [] [] [] [] [] []]; try discriminate; auto.
Qed.

Lemma slotRegex_sound (s hs ms pt : string) :
  slotRegex s = Some (hs, ms, pt) ->
  numeral hs /\ numeral ms /\ (pt = "AM" \/ pt = "PM").
Proof.
  induction s as [|c s IH].
  - cbn. discriminate.
  - destruct (slotRegex_at (String c s)) as [[[h m] q]|] eqn:E.
    + rewrite (slotRegex_head _ _ E). intros X. inversion X; subst.
      now apply (slotRegex_at_sound (String c s)).
    + rewrite (slotRegex_tail _ _ E). exact IH.
Qed.

Lemma hour24_nonneg (pt : string) (h : Z) : 0 <= h -> 0 <= Slot.hour24 pt h.
Proof.
  intros Hh. unfold Slot.hour24.
  destruct (String.eqb pt "PM" && negb (h =? 12));
    match goal with |- context [String.eqb pt "AM" && ?c] =>
      destruct (String.eqb pt "AM" && c) end; lia.
Qed.

(** What [slotClock] returns: an hour that is not negative and the text of
    the minutes, a numeral. *)
Lemma slotClock_sound (s : string) (h : Z) (ms : string) :
  slotClock s = Some (h, ms) -> 0 <= h /\ numeral ms.
Proof.
  unfold slotClock.
  destruct (slotRegex s) as [[[hs m] pt]|] eqn:E; [|discriminate].
  destruct (slotRegex_sound s hs m pt E) as (H1 & H2 & _).
  rewrite (parseInt_numeral hs H1). intros X. inversion X; subst.
  split; [|exact H2].
  apply hour24_nonneg, digits_value_nonneg. lia.
Qed.

Lemma hour_below_23 (h : Z) :
  0 <= h <= 22 ->
  h = 0 \/ h = 1 \/ h = 2 \/ h = 3 \/ h = 4 \/ h = 5 \/ h = 6 \/ h = 7 \/
  h = 8 \/ h = 9 \/ h = 10 \/ h = 11 \/ h = 12 \/ h = 13 \/ h = 14 \/ h = 15 \/
  h = 16 \/ h = 17 \/ h = 18 \/ h = 19 \/ h = 20 \/ h = 21 \/ h = 22.
Proof. lia. Qed.

(** The end time of an hour up to 22 is a 12-hour display string. *)
Lemma endTimeOf_display (h : Z) (ms : string) :
  0 <= h <= 22 ->
  exists hs k p,
    endTimeOf h ms = clockString hs ms p /\ numeral hs
    /\ parseInt hs = Some k /\ to24 k p = h + 1.
Proof.
  intros Hh.
  assert (N : forall s, all_digits s = true -> s <> "" -> numeral s) by (intros; split; trivial).
  destruct (hour_below_23 h Hh)
    as [E|[E|[E|[E|[E|[E|[E|[E|[E|[E|[E|[E|[E|[E|[E|[E|[E|[E|[E|[E|[E|[E|E]]]]]]]]]]]]]]]]]]]]]];
    subst h.
  1-11: (eexists _, _, AM; split; [reflexivity|];
         split; [apply N; [reflexivity | discriminate]|]; split; reflexivity).
  all: (eexists _, _, PM; split; [reflexivity|];
        split; [apply N; [reflexivity | discriminate]|]; split; reflexivity).
Qed.

(** X3.  The end time that [handleBooking] writes can be read again: for every
    slot string the page accepts whose hour on the 24-hour clock is at most
    22, the derived end time is matched by the pattern of the booking page
    and by the pattern of the cancellation check, and both read it as the
    next hour with the same minutes. *)
Theorem end_time_reads_back (slot e : string) (h : Z) (ms : string) :
  slotClock slot = Some (h, ms) -> h <= 22 -> deriveEndTime slot = Some e ->
  slotClock e = Some (h + 1, ms)
  /\ MyBookings.startClock e = Some (h + 1, digits_value 0 ms).
Proof.
  intros Hc Hh He. unfold deriveEndTime in He. rewrite Hc in He.
  inversion He; subst e; clear He.
  destruct (slotClock_sound slot h ms Hc) as [H0 Hms].
  destruct (endTimeOf_display h ms (conj H0 Hh)) as (hs & k & p & E & Hhs & Hk & H24).
  rewrite E. split.
  - rewrite (slotClock_clockString hs ms p k Hhs Hms Hk). now rewrite H24.
  - rewrite (startClock_clockString hs ms p k Hhs Hms Hk). now rewrite H24.
Qed.

Lemma end_time_reads_back_witness :
  slotClock "12:00 PM" = Some (12, "00")
  /\ slotClock "01:00 PM" = Some (13, "00")
  /\ MyBookings.startClock "01:00 PM" = Some (13, 0).
Proof.
  destruct (end_time_reads_back "12:00 PM" "01:00 PM" 12 "00" eq_refl ltac:(lia) eq_refl)
    as [E1 E2].
  split; [reflexivity | split; [exact E1 | exact E2]].
Defined.

End EndTimeMore.

(* ================================================================== *)
(** * The date of a booking *)
(* ================================================================== *)

Section StoredDate.
Import JS Spec UI Digits TurfDetail.

Lemma is_leap_shift (y era : Z) : is_leap (y + era * 400) = is_leap y.
Proof.
  unfold is_leap.
  replace ((y + era * 400) mod 4) with (y mod 4)
    by (replace (y + era * 400) with (y + (era * 100) * 4) by ring; now rewrite Z.mod_add).
  replace ((y + era * 400) mod 100) with (y mod 100)
    by (replace (y + era * 400) with (y + (era * 4) * 100) by ring; now rewrite Z.mod_add).
  replace ((y + era * 400) mod 400) with (y mod 400) by (now rewrite Z.mod_add).
  reflexivity.
Qed.

Lemma doe_split (doe : Z) :
  0 <= doe <= 146096 ->
  let yoe := (doe - doe / 1460 + doe / 36524 - doe / 146096) / 365 in
  let doy := doe - (365 * yoe + yoe / 4 - yoe / 100) in
  0 <= yoe <= 399 /\ 0 <= doy <= 365
  /\ (doy = 365 -> is_leap (yoe + 1) = true)
  /\ (doe <= 146036 -> yoe < 399 \/ doy <= 305)
  /\ (146037 <= doe -> yoe = 399 /\ 306 <= doy).
Proof.
  intros H yoe doy.
  assert (B : 0 <= yoe <= 399 /\ 0 <= doy <= 365)
    by (subst doy yoe; Z.div_mod_to_equations; lia).
  split; [tauto|]. split; [tauto|]. split; [|split].
  - intros E. unfold is_leap.
    assert (X : (yoe + 1) mod 4 = 0 /\ ((yoe + 1) mod 100 <> 0 \/ (yoe + 1) mod 400 = 0)).
    { subst doy yoe. Z.div_mod_to_equations. lia. }
    destruct X as [X4 [X100|X400]].
    + apply Z.eqb_eq in X4. apply Z.eqb_neq in X100. now rewrite X4, X100.
    + apply Z.eqb_eq in X400. rewrite X400. now rewrite orb_true_r.
  - intros E. subst doy yoe. Z.div_mod_to_equations. lia.
  - intros E. subst doy yoe. Z.div_mod_to_equations. lia.
Qed.

Lemma doy_split (doy : Z) :
  0 <= doy <= 365 ->
  let mp := (5 * doy + 2) / 153 in
  let d := doy - (153 * mp + 2) / 5 + 1 in
  0 <= mp <= 11 /\ 1 <= d <= 31
  /\ (mp = 11 -> d <= 29 /\ (d = 29 -> doy = 365))
  /\ (mp = 1 \/ mp = 3 \/ mp = 6 \/ mp = 8 -> d <= 30)
  /\ (doy <= 305 <-> mp <= 9).
Proof.
  intros H mp d. subst d mp. Z.div_mod_to_equations. lia.
Qed.

(** The calendar date of a day number is a date of the calendar, and it is
    the date of that day. *)
Lemma civil_round (z : Z) :
  let '(y, m, d) := civil_from_days z in
  1 <= m <= 12 /\ 1 <= d <= days_in_month y m /\ days_from_civil y m d = z
  /\ (-719528 <= z <= 2932896 -> 0 <= y <= 9999).
Proof.
  unfold civil_from_days.
  set (z' := z + 719468). set (era := z' / 146097). set (doe := z' - era * 146097).
  assert (Hdoe : 0 <= doe <= 146096) by (subst doe era; Z.div_mod_to_equations; lia).
  destruct (doe_split doe Hdoe) as (Hy & Hdoy & Hleap & Hlo & Hhi).
  set (yoe := (doe - doe / 1460 + doe / 36524 - doe / 146096) / 365) in *.
  set (doy := doe - (365 * yoe + yoe / 4 - yoe / 100)) in *.
  destruct (doy_split doy Hdoy) as (Hmp & Hd & Hfeb & H30 & H305).
  set (mp := (5 * doy + 2) / 153) in *.
  set (d := doy - (153 * mp + 2) / 5 + 1) in *.
  cbv zeta.
  destruct (Z.ltb_spec mp 10) as [Hlt|Hge].
  - (* March to December *)
    destruct (Z.leb_spec (mp + 3) 2) as [X|_]; [lia|].
    split; [lia|]. split; [|split].
    + split; [lia|]. unfold days_in_month.
      destruct (Z.eqb_spec (mp + 3) 2); [lia|].
      destruct ((mp + 3 =? 4) || (mp + 3 =? 6) || (mp + 3 =? 9) || (mp + 3 =? 11)) eqn:E; [|lia].
      apply H30. repeat (apply orb_true_iff in E as [E|E]); try apply Z.eqb_eq in E; lia.
    + unfold days_from_civil.
      destruct (Z.leb_spec (mp + 3) 2) as [X|_]; [lia|].
      replace ((mp + 3 + 9) mod 12) with mp by (Z.div_mod_to_equations; lia).
      replace ((yoe + era * 400) / 400) with era by (Z.div_mod_to_equations; lia).
      replace (yoe + era * 400 - era * 400) with yoe by lia.
      subst d doy doe z'. lia.
    + intros Hz. subst doe era z'. Z.div_mod_to_equations. lia.
  - (* January and February *)
    destruct (Z.leb_spec (mp - 9) 2) as [_|X]; [|lia].
    split; [lia|]. split; [|split].
    + split; [lia|]. unfold days_in_month.
      destruct (Z.eqb_spec (mp - 9) 2) as [E2|E2].
      * replace (yoe + era * 400 + 1) with ((yoe + 1) + era * 400) by ring.
        rewrite is_leap_shift.
        destruct (is_leap (yoe + 1)) eqn:L; [lia|].
        assert (d <> 29) by (intros E; discriminate (Hleap (proj2 (Hfeb ltac:(lia)) E))).
        lia.
      * destruct ((mp - 9 =? 4) || (mp - 9 =? 6) || (mp - 9 =? 9) || (mp - 9 =? 11)) eqn:E; [|lia].
        repeat (apply orb_true_iff in E as [E|E]); try apply Z.eqb_eq in E; lia.
    + unfold days_from_civil.
      destruct (Z.leb_spec (mp - 9) 2) as [_|X]; [|lia].
      replace ((mp - 9 + 9) mod 12) with mp by (Z.div_mod_to_equations; lia).
      replace ((yoe + era * 400 + 1 - 1) / 400) with era by (Z.div_mod_to_equations; lia).
      replace (yoe + era * 400 + 1 - 1 - era * 400) with yoe by lia.
      subst d doy doe z'. lia.
    + intros Hz. subst doe era z'. Z.div_mod_to_equations. lia.
Qed.
Lemma all_from_spec (n : nat) (f : Z -> bool) (i : Z) :
  all_from n f i = true -> forall j, i <= j < i + Z.of_nat n -> f j = true.
Proof.
  revert i. induction n as [|n IH]; intros i Ha j Hj; [lia|].
  cbn [all_from] in Ha. destruct (f i) eqn:Fi; [|discriminate].
  destruct (Z.eq_dec j i) as [->|Hne]; [exact Fi|].
  apply (IH (i + 1) Ha). lia.
Qed.

Lemma four_digits_ok (n : Z) : 0 <= n <= 9999 -> four_digits n = true.
Proof.
  intros H. apply (all_from_spec (Z.to_nat 10000) four_digits 0); [|lia].
  vm_compute. reflexivity.
Qed.

Lemma two_digits_ok (n : Z) : 0 <= n <= 99 -> two_digits n = true.
Proof.
  intros H. apply (all_from_spec (Z.to_nat 100) two_digits 0); [|lia].
  vm_compute. reflexivity.
Qed.

Lemma digit_is_not_T (c : ascii) : is_digit c = true -> Ascii.eqb c "T" = false.
Proof. destruct c as [[] [] [] [] [] [] [] []]; try discriminate; reflexivity. Qed.

(** The date part of [toISOString], read as a date-only string, is midnight
    UTC of the same day, for every instant of the years 0 to 9999. *)
Lemma iso_date_round_trip (tv : Z) :
  -62167219200000 <= tv <= 253402300799999 ->
  parse_date_only (split_head "T" (Date_toISOString tv)) = Some (Day tv * msPerDay).
Proof.
  intros Htv.
  assert (Hz : -719528 <= Day tv <= 2932896)
    by (unfold Day, msPerDay; Z.div_mod_to_equations; lia).
  pose proof (civil_round (Day tv)) as R. unfold Date_toISOString.
  destruct (civil_from_days (Day tv)) as [[y m] d].
  destruct R as (Hm & Hd & Hback & Hy). specialize (Hy Hz).
  assert (Hd31 : 1 <= d <= 31).
  { split; [lia|]. unfold days_in_month in Hd.
    destruct (m =? 2); [destruct (is_leap y); lia|].
    destruct ((m =? 4) || (m =? 6) || (m =? 9) || (m =? 11)); lia. }
  replace ((0 <=? y) && (y <=? 9999)) with true
    by (symmetry; apply andb_true_iff; split; apply Z.leb_le; lia).
  pose proof (four_digits_ok y Hy) as F4. unfold four_digits in F4.
  pose proof (two_digits_ok m ltac:(lia)) as Fm. unfold two_digits in Fm.
  pose proof (two_digits_ok d ltac:(lia)) as Fd. unfold two_digits in Fd.
  destruct (pad 4 y) as [|y1 [|y2 [|y3 [|y4 [|? ?]]]]]; try discriminate.
  destruct (pad 2 m) as [|m1 [|m2 [|? ?]]]; try discriminate.
  destruct (pad 2 d) as [|d1 [|d2 [|? ?]]]; try discriminate.
  repeat (apply andb_true_iff in F4 as [F4 ?]).
  repeat (apply andb_true_iff in Fm as [Fm ?]).
  repeat (apply andb_true_iff in Fd as [Fd ?]).
  cbn [append split_head].
  repeat match goal with
         | D : is_digit ?c = true |- context [Ascii.eqb ?c "T"] =>
             rewrite (digit_is_not_T c D)
         end.
  cbn [Ascii.eqb Bool.eqb split_head]. unfold parse_date_only.
  cbn [all_digits].
  repeat match goal with D : is_digit ?c = true |- _ => rewrite D; clear D end.
  cbn [andb].
  match goal with H : (_ =? y) = true |- _ => apply Z.eqb_eq in H; rewrite H end.
  match goal with H : (_ =? m) = true |- _ => apply Z.eqb_eq in H; rewrite H end.
  match goal with H : (_ =? d) = true |- _ => apply Z.eqb_eq in H; rewrite H end.
  replace ((1 <=? m) && (m <=? 12) && (1 <=? d) && (d <=? days_in_month y m)) with true.
  - now rewrite Hback.
  - symmetry. rewrite !andb_true_iff, !Z.leb_le. lia.
Qed.

Ltac run :=
  cbv beta iota zeta delta
    [Eff.exec Eff.bind Eff.modify Eff.try_catch Eff.try_finally Eff.ret
     Eff.throw Eff.when insertBooking invoke snd fst].

(** X4.  The booking date that [handleBooking] stores is the UTC calendar day
    of the chosen instant: read back as a date-only string, the way
    [new Date(booking_date)] reads it, it is midnight UTC of the day on which
    the chosen instant falls in UTC (for instants of the years 0 to 9999). *)
Theorem stored_date_reads_back (user : Backend.User) (date : Z) (slot e : string)
    (turf : Turf) (r : Replies) (s : State) (new_id stamp : string) :
  -62167219200000 <= date <= 253402300799999 ->
  deriveEndTime slot = Some e ->
  insertion r = Inserted new_id stamp ->
  let s' := Eff.exec (handleBooking (Some user) (Some date) (Some slot) (Some turf) r) s in
  exists row,
    table s' = (table s ++ [row])%list
    /\ parse_date_only (Backend.booking_date row) = Some (Day date * msPerDay).
Proof.
  intros Hd He Hins s'. unfold deriveEndTime in He.
  destruct (slotClock slot) as [[hour minuteStr]|] eqn:Hc; [|discriminate].
  destruct slot as [|c0 slot0]; [discriminate|].
  subst s'. unfold handleBooking. run. rewrite Hc, Hins.
  destruct (Backend.email user) as [[|c m]|];
    [| destruct (notification r) |];
    (eexists; split; [reflexivity | now apply iso_date_round_trip]).
Qed.

Lemma stored_date_witness :
  let r := {| insertion := Inserted "b9" "2024-06-09T10:00:00Z";
              notification := Backend.InvokeOk |} in
  let s' := Eff.exec (handleBooking (Some Examples.user) (Some (Examples.tenAM - 55800000))
                        (Some "03:00 PM") (Some Examples.turf) r) Examples.turfPage in
  map Backend.booking_date (table s') = ["2024-06-09"]
  /\ exists row, table s' = [row]
       /\ parse_date_only (Backend.booking_date row)
          = Some (Examples.midnight - 86400000).
Proof.
  intros r s'. split; [reflexivity|].
  destruct (stored_date_reads_back Examples.user (Examples.tenAM - 55800000)
              "03:00 PM" "04:00 PM" Examples.turf r Examples.turfPage
              "b9" "2024-06-09T10:00:00Z"
              ltac:(unfold Examples.tenAM; lia) eq_refl eq_refl) as (row & Ht & Hp).
  exists row. split; [exact Ht | exact Hp].
Defined.

End StoredDate.

(* ================================================================== *)
(** * The outcomes of a booking *)
(* ================================================================== *)

Section CreateMore.
Import JS Spec UI Log TurfDetail.

Ltac run :=
  cbv beta iota zeta delta
    [Eff.exec Eff.bind Eff.modify Eff.try_catch Eff.try_finally Eff.ret
     Eff.throw Eff.when insertBooking invoke snd fst].

(** X5.  [handleBooking] stores at most one row and changes no row that was
    there.  It stores one only for a signed-in user with a date, a slot and a
    turf, a slot that the pattern matches and an insert that the backend
    accepts, and the row is then confirmed and bears the user, the turf and
    its price.  In every other case the table stays as it was, no
    notification function is called and no success is announced. *)
Theorem handleBooking_outcomes (user : option Backend.User) (date : option Z)
    (slot : option string) (turf : option Turf) (r : Replies) (s : State) :
  let s' := Eff.exec (handleBooking user date slot turf r) s in
  (exists u d sl t new_id stamp row,
      user = Some u /\ date = Some d /\ slot = Some sl /\ turf = Some t
      /\ insertion r = Inserted new_id stamp
      /\ deriveEndTime sl = Some (Backend.end_time row)
      /\ table s' = (table s ++ [row])%list
      /\ Backend.id row = new_id
      /\ Backend.user_id row = Backend.uid u
      /\ Backend.turf_id row = id t
      /\ Backend.total_price row = price t
      /\ Backend.start_time row = sl
      /\ Backend.status row = "confirmed")
  \/ (table s' = table s
      /\ exists log,
           events s' = (events s ++ log)%list
           /\ forallb (fun ev => negb (isInvoked ev)) log = true
           /\ ~ In (Toasted bookingSuccessfulToast) log).
Proof.
  intros s'. subst s'.
  destruct user as [u|].
  2:{ right. split; [reflexivity|].
      exists [Toasted authRequiredToast; Navigated "/auth"].
      cbn. rewrite <- app_assoc. repeat split.
      intros [X|[X|[]]]; discriminate. }
  assert (Incomplete :
            table (Eff.exec (Eff.modify (emit (Toasted incompleteToast))) s) = table s
            /\ exists log,
                 events (Eff.exec (Eff.modify (emit (Toasted incompleteToast))) s)
                 = (events s ++ log)%list
                 /\ forallb (fun ev => negb (isInvoked ev)) log = true
                 /\ ~ In (Toasted bookingSuccessfulToast) log).
  { split; [reflexivity|]. exists [Toasted incompleteToast]. repeat split.
    intros [X|[]]; discriminate. }
  destruct date as [d|]; [|right; exact Incomplete].
  destruct slot as [[|c0 sl0]|]; [right; exact Incomplete| |right; exact Incomplete].
  destruct turf as [t|]; [|right; exact Incomplete].
  clear Incomplete. unfold handleBooking. run.
  destruct (slotClock (String c0 sl0)) as [[hour minuteStr]|] eqn:Hc.
  - destruct (insertion r) as [new_id stamp|e] eqn:Hins.
    + left. exists u, d, (String c0 sl0), t, new_id, stamp.
      destruct (Backend.email u) as [[|c m]|];
        [| destruct (notification r) |];
        (eexists; repeat split; try reflexivity;
         cbn; unfold deriveEndTime; rewrite Hc; reflexivity).
    + right. split; [reflexivity|].
      exists [ConsoleError "Error booking turf:"; Toasted (bookingFailedToast e)].
      cbn. rewrite <- app_assoc. repeat split.
      intros [X|[X|[]]]; discriminate.
  - right. split; [reflexivity|].
    exists [ConsoleError "Error booking turf:"; Toasted (bookingFailedToast sliceOfNull)].
    cbn. rewrite <- app_assoc. repeat split.
    intros [X|[X|[]]]; discriminate.
Qed.

(** X6.  Nothing in [handleBooking] looks for an earlier booking of the slot:
    booking the same turf, date and slot a second time, by the same or by
    another user, stores a second confirmed row beside the first. *)
Theorem same_slot_booked_twice (u1 u2 : Backend.User) (date : Z) (slot e : string)
    (turf : Turf) (r1 r2 : Replies) (s : State) (id1 id2 stamp1 stamp2 : string) :
  deriveEndTime slot = Some e ->
  insertion r1 = Inserted id1 stamp1 ->
  insertion r2 = Inserted id2 stamp2 ->
  let s1 := Eff.exec (handleBooking (Some u1) (Some date) (Some slot) (Some turf) r1) s in
  let s2 := Eff.exec (handleBooking (Some u2) (Some date) (Some slot) (Some turf) r2) s1 in
  exists row1 row2,
    table s2 = (table s ++ [row1; row2])%list
    /\ Backend.turf_id row1 = Backend.turf_id row2
    /\ Backend.booking_date row1 = Backend.booking_date row2
    /\ Backend.start_time row1 = Backend.start_time row2
    /\ Backend.status row1 = "confirmed" /\ Backend.status row2 = "confirmed"
    /\ Backend.user_id row1 = Backend.uid u1 /\ Backend.user_id row2 = Backend.uid u2.
Proof.
  intros He H1 H2 s1 s2. unfold deriveEndTime in He.
  destruct (slotClock slot) as [[hour minuteStr]|] eqn:Hc; [|discriminate].
  destruct slot as [|c0 slot0]; [discriminate|].
  assert (step : forall (u : Backend.User) (r : Replies) (st : State) (i stamp : string),
             insertion r = Inserted i stamp ->
             table (Eff.exec (handleBooking (Some u) (Some date) (Some (String c0 slot0))
                                (Some turf) r) st)
             = (table st ++
                  [{| Backend.id := i; Backend.turf_id := id turf;
                      Backend.user_id := Backend.uid u;
                      Backend.booking_date := split_head "T" (Date_toISOString date);
                      Backend.start_time := String c0 slot0;
                      Backend.end_time := endTimeOf hour minuteStr;
                      Backend.total_price := price turf;
                      Backend.status := "confirmed";
                      Backend.created_at := stamp |}])%list).
  { intros u r st i stamp Hi. unfold handleBooking. run. rewrite Hc, Hi.
    destruct (Backend.email u) as [[|c m]|];
      [| destruct (notification r) |]; reflexivity. }
  subst s2. rewrite (step u2 r2 s1 id2 stamp2 H2).
  subst s1. rewrite (step u1 r1 s id1 stamp1 H1).
  rewrite <- app_assoc. eexists _, _. split; [reflexivity|]. repeat split.
Qed.

End CreateMore.

Section CreateMoreExamples.
Import JS Spec UI TurfDetail.

Lemma same_slot_booked_twice_witness :
  let r1 := {| insertion := Inserted "b1" "2024-06-09T10:00:00Z";
               notification := Backend.InvokeOk |} in
  let r2 := {| insertion := Inserted "b2" "2024-06-09T10:05:00Z";
               notification := Backend.InvokeOk |} in
  let s1 := Eff.exec (handleBooking (Some Examples.user) (Some Examples.tenAM)
                        (Some "03:00 PM") (Some Examples.turf) r1) Examples.turfPage in
  let s2 := Eff.exec (handleBooking (Some Examples.user) (Some Examples.tenAM)
                        (Some "03:00 PM") (Some Examples.turf) r2) s1 in
  map Backend.id (table s2) = ["b1"; "b2"]
  /\ exists row1 row2,
       table s2 = [row1; row2]
       /\ Backend.start_time row1 = Backend.start_time row2
       /\ Backend.status row2 = "confirmed".
Proof.
  intros r1 r2 s1 s2. split; [reflexivity|].
  destruct (same_slot_booked_twice Examples.user Examples.user Examples.tenAM
              "03:00 PM" "04:00 PM" Examples.turf r1 r2 Examples.turfPage
              "b1" "b2" "2024-06-09T10:00:00Z" "2024-06-09T10:05:00Z"
              eq_refl eq_refl eq_refl)
    as (row1 & row2 & Ht & _ & _ & Hs & _ & Hc & _).
  exists row1, row2. repeat split; assumption.
Defined.

End CreateMoreExamples.

(* ================================================================== *)
(** * The outcomes of a cancellation *)
(* ================================================================== *)

Section CancelMore.
Import JS Spec UI MyBookings.

Ltac run :=
  cbv beta iota zeta delta
    [Eff.exec Eff.bind Eff.modify Eff.try_catch Eff.try_finally Eff.ret
     Eff.throw Eff.when selectSingle updateCancelled invoke throwIf snd fst].

Ltac settle :=
  unfold setConfirmCancelId, setIsCancelling, emit, setTable, setBookings;
  cbn [bookings confirmCancelId isCancelling table events];
  rewrite <- ?app_assoc; try reflexivity.

Lemma find_unique {A : Type} (f : A -> bool) (l : list A) (a : A) :
  In a l -> f a = true -> (forall x, In x l -> f x = true -> x = a) ->
  find f l = Some a.
Proof.
  induction l as [|x l IH]; simpl; intros Hin Ha Hu; [contradiction|].
  destruct (f x) eqn:Fx.
  - f_equal. apply Hu; auto.
  - destruct Hin as [->|Hin]; [congruence|]. apply IH; auto.
Qed.

Lemma update_status_rows (x st : string) (t : Backend.Table) :
  Forall2 (fun r r' => r' = r \/ (Backend.id r = x /\ r' = Backend.set_status st r))
          t (Backend.update_status x st t).
Proof.
  induction t as [|r t IH]; simpl; constructor; trivial.
  destruct (String.eqb_spec (Backend.id r) x); auto.
Qed.

Lemma update_status_ids (x st : string) (t : Backend.Table) :
  map Backend.id (Backend.update_status x st t) = map Backend.id t.
Proof.
  induction t as [|r t IH]; simpl; [reflexivity|]. rewrite IH.
  now destruct (String.eqb (Backend.id r) x).
Qed.

Lemma Forall2_same {A : Type} (P : A -> A -> Prop) (l : list A) :
  (forall a, P a a) -> Forall2 P l l.
Proof. intros HP. induction l; constructor; auto. Qed.

(** The table after [handleCancelConfirm]: as it was, or with the pending id
    cancelled. *)
Lemma handleCancelConfirm_table (user : option Backend.User) (r : Replies) (s : State) :
  let s' := Eff.exec (handleCancelConfirm user r) s in
  table s' = table s
  \/ exists c cid, confirmCancelId s = Some (String c cid)
       /\ table s' = Backend.update_status (String c cid) "cancelled" (table s).
Proof.
  intros s'. subst s'. unfold handleCancelConfirm, Eff.exec. cbv beta.
  destruct (confirmCancelId s) as [[|c cid]|] eqn:Hc; [left; reflexivity| |left; reflexivity].
  run. destruct (fetchFault r); [left; reflexivity|].
  cbn [table setIsCancelling].
  destruct (Backend.eq_id (String c cid) (table s)) as [|row [|row2 rest]];
    [left; reflexivity| |left; reflexivity].
  destruct (updateFault r); [left; reflexivity|].
  right. exists c, cid. split; [reflexivity|].
  destruct user as [[u [[|c' m]|]]|]; try reflexivity.
  destruct (notification r); reflexivity.
Qed.

(** X7.  Whatever the backend and the notification answer, [handleCancelConfirm]
    neither adds, removes, reorders nor renames a row of the table: each row
    is left as it was, or it bears the pending id and only its status is set
    to 'cancelled'. *)
Theorem cancel_touches_only_status (user : option Backend.User) (r : Replies) (s : State) :
  let s' := Eff.exec (handleCancelConfirm user r) s in
  Forall2 (fun row row' =>
             row' = row
             \/ (confirmCancelId s = Some (Backend.id row)
                 /\ row' = Backend.set_status "cancelled" row))
          (table s) (table s')
  /\ map Backend.id (table s') = map Backend.id (table s).
Proof.
  intros s'. destruct (handleCancelConfirm_table user r s) as [E|(c & cid & Hc & E)];
    fold s' in E; rewrite E.
  - split; [apply Forall2_same; auto | reflexivity].
  - split; [|apply update_status_ids].
    eapply Forall2_impl; [|apply update_status_rows].
    intros a b [X|[X Y]]; [now left|right]. rewrite Hc, X. auto.
Qed.

(** X8.  A cancellation that the backend does not carry out changes nothing:
    when the read fails, when the pending id names no row or more than one,
    or when the update fails, the table and the list on the page stay as they
    were, no notification is called, the failure is logged and shown, and the
    dialog is closed. *)
Theorem cancellation_not_carried_out (user : option Backend.User) (r : Replies)
    (s : State) (c : ascii) (cid : string) :
  confirmCancelId s = Some (String c cid) ->
  fetchFault r <> None
  \/ (forall row, Backend.eq_id (String c cid) (table s) <> [row])
  \/ updateFault r <> None ->
  Eff.exec (handleCancelConfirm user r) s
  = {| bookings := bookings s; confirmCancelId := None; isCancelling := false;
       table := table s;
       events := (events s ++ [ConsoleError "Error cancelling booking:";
                               Toasted cancelFailedToast])%list |}.
Proof.
  intros Hc Hwhy. unfold handleCancelConfirm, Eff.exec. cbv beta. rewrite Hc. run.
  destruct (fetchFault r) as [e|] eqn:Hf.
  { settle. }
  cbn [table setIsCancelling].
  destruct (Backend.eq_id (String c cid) (table s)) as [|row [|row2 rest]] eqn:Hrow;
    try (now settle).
  destruct (updateFault r) as [e|] eqn:Hu.
  { settle. }
  destruct Hwhy as [X|[X|X]]; [now elim X | now elim (X row) | now elim X].
Qed.

Lemma cancellation_not_carried_out_witness :
  let r := {| fetchFault := None;
              updateFault := Some Examples.networkDown;
              notification := Backend.InvokeOk |} in
  let s' := Eff.exec (handleCancelConfirm (Some Examples.user) r)
                     (Examples.myBookingsPage (Some "b1")) in
  table s' = [Examples.row "confirmed"] /\ confirmCancelId s' = None.
Proof.
  intros r s'. subst s'.
  rewrite (cancellation_not_carried_out (Some Examples.user) r
             (Examples.myBookingsPage (Some "b1")) "b" "1" eq_refl).
  - split; reflexivity.
  - right. right. discriminate.
Defined.

Context `{Host}.

(** X9.  For a loaded booking whose id no other loaded booking shares,
    [handleCancelRequest] applies the check to that booking at the time of the
    click: it opens the confirmation when the check passes and shows the
    refusal otherwise.  So the button that was shown opens the confirmation
    only while the seven hours still hold; the status is not looked at again. *)
Theorem loaded_booking_is_checked (now : Z) (s : State) (b : Booking) :
  In b (bookings s) ->
  (forall b', In b' (bookings s) -> id b' = id b -> b' = b) ->
  handleCancelRequest now (id b) s
  = if canCancelBooking now b
    then setConfirmCancelId (Some (id b)) s
    else emit (Toasted cannotCancelToast) s.
Proof.
  intros Hin Hu. unfold handleCancelRequest.
  rewrite (find_unique _ (bookings s) b Hin (String.eqb_refl _)).
  - now destruct (canCancelBooking now b).
  - intros x Hx E. apply Hu; [exact Hx | now apply String.eqb_eq].
Qed.

(** X10.  From the click to the cancelled row.  For a loaded booking with an id
    of its own that is not empty, more than seven hours ahead, with one row in
    the table, a backend that answers without fault and a notification that
    does not throw: the request followed by the confirmation cancels the row,
    shows the booking as cancelled in the list, announces it, closes the
    dialog, and the Cancel Booking button of that booking is gone for good. *)
Theorem cancel_flow (now : Z) (user : option Backend.User) (r : Replies)
    (s : State) (b : Booking) (row : Backend.BookingRow) :
  In b (bookings s) ->
  (forall b', In b' (bookings s) -> id b' = id b -> b' = b) ->
  id b <> "" ->
  canCancelBooking now b = true ->
  Backend.eq_id (id b) (table s) = [row] ->
  fetchFault r = None -> updateFault r = None ->
  (forall e, notification r <> Backend.InvokeThrew e) ->
  let s2 := Eff.exec (handleCancelConfirm user r) (handleCancelRequest now (id b) s) in
  table s2 = Backend.update_status (id b) "cancelled" (table s)
  /\ bookings s2 = map (fun x => if String.eqb (id x) (id b) then cancelled x else x)
                       (bookings s)
  /\ In (cancelled b) (bookings s2)
  /\ (forall later, showsCancelButton later (cancelled b) = false)
  /\ confirmCancelId s2 = None
  /\ isCancelling s2 = false
  /\ In (Toasted bookingCancelledToast) (events s2).
Proof.
  intros Hin Hu Hid Hcan Hrow Hf Hup Hn. cbv zeta.
  assert (Hreq : handleCancelRequest now (id b) s = setConfirmCancelId (Some (id b)) s).
  { unfold handleCancelRequest.
    rewrite (find_unique _ (bookings s) b Hin (String.eqb_refl _)).
    - now rewrite Hcan.
    - intros x Hx E. apply Hu; [exact Hx | now apply String.eqb_eq]. }
  rewrite Hreq.
  destruct (id b) as [|c cid] eqn:Eid; [congruence|].
  assert (E2 : Eff.exec (handleCancelConfirm user r)
                 (setConfirmCancelId (Some (String c cid)) s) = {| bookings := map (fun x => if String.eqb (id x) (String c cid)
                                                 then cancelled x else x) (bookings s);
                       confirmCancelId := None; isCancelling := false;
                       table := Backend.update_status (String c cid) "cancelled" (table s);
                       events := (events s ++
                                  match user with
                                  | Some {| Backend.email := Some (String c' m) |} =>
                                      [Invoked "booking-notification" (String c' m)]
                                  | _ => []
                                  end ++ [Toasted bookingCancelledToast])%list |}).
  { unfold handleCancelConfirm, Eff.exec. cbv beta.
    cbn [confirmCancelId setConfirmCancelId]. run.
    rewrite Hf, Hup. cbn [table setIsCancelling setConfirmCancelId]. rewrite Hrow.
    destruct user as [[u [[|c' m]|]]|]; try reflexivity.
    destruct (notification r) as [|e|e] eqn:En; [| | now elim (Hn e)];
      settle. }
  rewrite E2. cbn [table bookings confirmCancelId isCancelling events].
  split; [reflexivity|]. split; [reflexivity|]. split; [|split; [|split; [|split]]].
  - apply in_map_iff. exists b. split; [|exact Hin].
    now rewrite Eid, String.eqb_refl.
  - intros later. reflexivity.
  - reflexivity.
  - reflexivity.
  - apply in_or_app. right. apply in_or_app. right. now left.
Qed.

End CancelMore.

Section CancelMoreExamples.
Import JS Spec UI MyBookings Examples.

Lemma loaded_booking_witness :
  confirmCancelId
    (@handleCancelRequest utcHost midnight "b1" (myBookingsPage None)) = Some "b1"
  /\ events (@handleCancelRequest utcHost tenAM "b1" (myBookingsPage None))
     = [Toasted cannotCancelToast].
Proof.
  pose (b := booking "confirmed" "2024-06-10" "03:00 PM").
  assert (U : forall b', In b' (bookings (myBookingsPage None)) -> id b' = id b -> b' = b)
    by (intros b' [<-|[]] _; reflexivity).
  pose proof (@loaded_booking_is_checked utcHost midnight (myBookingsPage None) b
                (or_introl eq_refl) U) as W1.
  pose proof (@loaded_booking_is_checked utcHost tenAM (myBookingsPage None) b
                (or_introl eq_refl) U) as W2.
  change (id b) with "b1" in W1, W2.
  split; [rewrite W1 | rewrite W2]; reflexivity.
Defined.

Lemma cancel_flow_witness :
  let r := {| fetchFault := None; updateFault := None;
              notification := Backend.InvokeFailed networkDown |} in
  let s2 := Eff.exec (handleCancelConfirm (Some user) r)
              (@handleCancelRequest utcHost midnight "b1" (myBookingsPage None)) in
  table s2 = [row "cancelled"] /\ map status (bookings s2) = ["cancelled"].
Proof.
  intros r s2.
  pose (b := booking "confirmed" "2024-06-10" "03:00 PM").
  destruct (@cancel_flow utcHost midnight (Some user) r (myBookingsPage None) b
              (row "confirmed") (or_introl eq_refl)
              ltac:(intros b' [<-|[]] _; reflexivity)
              ltac:(discriminate) eq_refl eq_refl eq_refl eq_refl
              ltac:(intros e; discriminate))
    as (Ht & Hb & _).
  change (id b) with "b1" in Ht, Hb. fold s2 in Ht, Hb.
  rewrite Ht, Hb. split; reflexivity.
Defined.

End CancelMoreExamples.

(* ================================================================== *)
(** * The date picker *)
(* ================================================================== *)

Section Picker.
Import JS TurfCalendar.
Context `{Host}.

(** X11.  In a time zone with a fixed offset from UTC the date picker of the
    turf page disables exactly the instants of earlier local days: a day is
    disabled if and only if its local calendar day lies before the local day
    of now.  Today, at any hour, and every later day can be picked. *)
Theorem picker_disables_past_days (offset now date : Z) :
  (forall t isUTC, LocalTZA t isUTC = offset) ->
  -8640000000000000 + msPerDay <= now <= 8640000000000000 ->
  (disabled now date = true <-> Day (date + offset) < Day (now + offset)).
Proof.
  intros Hz Hnow. unfold disabled, setHours, LocalTime, UTC, MakeDate, MakeTime, TimeClip.
  rewrite !Hz.
  replace (0 * msPerHour + 0 * msPerMinute + 0 * msPerSecond + 0) with 0 by reflexivity.
  assert (Hd := Z.div_mod (now + offset) msPerDay ltac:(discriminate)).
  assert (Hm := Z.mod_pos_bound (now + offset) msPerDay ltac:(reflexivity)).
  fold (Day (now + offset)) in Hd.
  replace (Z.abs (Day (now + offset) * msPerDay + 0 - offset) <=? 8640000000000000) with true
    by (symmetry; apply Z.leb_le; unfold msPerDay in *; lia).
  rewrite Z.ltb_lt. unfold Day at 2.
  assert (Hd' := Z.div_mod (date + offset) msPerDay ltac:(discriminate)).
  assert (Hm' := Z.mod_pos_bound (date + offset) msPerDay ltac:(reflexivity)).
  unfold msPerDay in *. split; intros X.
  - apply Z.div_lt_upper_bound; lia.
  - assert ((date + offset) / 86400000 + 1 <= Day (now + offset)) by lia. nia.
Qed.

End Picker.

Section PickerExamples.
Import JS TurfCalendar Examples.

Lemma picker_witness :
  @disabled istHost tenAM (midnight - 19800000) = false
  /\ @disabled istHost tenAM (midnight - 19800001) = true.
Proof.
  assert (Hz : forall (t : Z) (isUTC : bool), @LocalTZA istHost t isUTC = 19800000)
    by reflexivity.
  assert (Hn : -8640000000000000 + msPerDay <= tenAM <= 8640000000000000)
    by (unfold tenAM, msPerDay; lia).
  pose proof (@picker_disables_past_days istHost 19800000 tenAM (midnight - 19800000) Hz Hn) as W1.
  pose proof (@picker_disables_past_days istHost 19800000 tenAM (midnight - 19800001) Hz Hn) as W2.
  split.
  - destruct (@disabled istHost tenAM (midnight - 19800000)); [|reflexivity].
    apply proj1 in W1. specialize (W1 eq_refl). vm_compute in W1. discriminate W1.
  - apply W2. vm_compute. reflexivity.
Defined.

End PickerExamples.

(* ================================================================== *)
(** * The admin dashboard: loading *)
(* ================================================================== *)

Section AdminLoad.
Import JS JSText UI AdminDashboard AdminPage.

Lemma revenue_of_map (f : Booking -> Booking) (l : list Booking) :
  (forall b, status (f b) = status b /\ total_price (f b) = total_price b) ->
  AdminDashboard.totalRevenue (map f l) = AdminDashboard.totalRevenue l.
Proof.
  intros Hf. unfold AdminDashboard.totalRevenue. f_equal.
  generalize Number.zero.
  induction l as [|b l IH]; intros acc; cbn [map fold_left]; [reflexivity|].
  destruct (Hf b) as [Hs Hp]. rewrite Hs, Hp. apply IH.
Qed.

Lemma active_of_map `{Host} (f : Booking -> Booking) (now : Z) (l : list Booking) :
  (forall b, status (f b) = status b /\ booking_date (f b) = booking_date b) ->
  AdminDashboard.activeBookings now (map f l) = AdminDashboard.activeBookings now l.
Proof.
  intros Hf. unfold AdminDashboard.activeBookings. f_equal. f_equal.
  induction l as [|b l IH]; simpl; [reflexivity|].
  destruct (Hf b) as [Hs Hd]. rewrite Hs, Hd.
  destruct (negb (String.eqb (status b) "cancelled") && notBefore now (booking_date b));
    simpl; now rewrite IH.
Qed.

Lemma enrich_is_map (profileOf : string -> ProfileReply) (l : list Booking) :
  fst (enrich profileOf l) = map (fun b => fst (enrichOne profileOf b)) l.
Proof. unfold enrich. cbn [fst]. now rewrite map_map. Qed.

Lemma labelled_keeps (profileOf : string -> ProfileReply) (b : Booking) :
  status (fst (enrichOne profileOf b)) = status b
  /\ total_price (fst (enrichOne profileOf b)) = total_price b
  /\ booking_date (fst (enrichOne profileOf b)) = booking_date b
  /\ id (fst (enrichOne profileOf b)) = id b.
Proof.
  unfold enrichOne. destruct (profileOf (user_id b)); repeat split.
Qed.

(** One turn of the loop copies every field of the booking and sets the
    label. *)
Lemma enrichOne_fields (profileOf : string -> ProfileReply) (b : Booking) :
  let e := fst (enrichOne profileOf b) in
  id e = id b /\ booking_date e = booking_date b
  /\ start_time e = start_time b /\ end_time e = end_time b
  /\ total_price e = total_price b /\ status e = status b
  /\ created_at e = created_at b /\ user_id e = user_id b
  /\ turf_id e = turf_id b /\ turf e = turf b
  /\ user e
     = Some match profileOf (user_id b) with
            | ProfileFound p =>
                Some match p_username p with
                     | Some (String c r) => String c r
                     | _ => ("User ID: " ++ user_id b)%string
                     end
            | ProfileFailed _ | ProfileThrew _ => None
            end.
Proof.
  unfold enrichOne. destruct (profileOf (user_id b)) as [p|e|e];
    cbn [fst withUser id booking_date start_time end_time total_price status
         created_at user_id turf_id turf user]; repeat split.
Qed.

(** X12.  Looking up the user of each booking changes nothing but the label:
    whatever the profile reads answer (a row, an error, a thrown error), the
    enriched list has the same bookings in the same order with every field
    but the label as it was fetched, so the revenue and the count of active
    bookings are those of the rows as fetched; and the label is the username
    of the profile that was found, or "User ID: " and the user id when that
    profile has no username or an empty one, or null when the read failed or
    threw: null, or a text that is not empty. *)
Theorem enrich_changes_labels_only `{Host} (profileOf : string -> ProfileReply)
    (now : Z) (l : list Booking) :
  let enriched := fst (enrich profileOf l) in
  Forall2
    (fun b e =>
       id e = id b /\ booking_date e = booking_date b
       /\ start_time e = start_time b /\ end_time e = end_time b
       /\ total_price e = total_price b /\ status e = status b
       /\ created_at e = created_at b /\ user_id e = user_id b
       /\ turf_id e = turf_id b /\ turf e = turf b
       /\ user e
          = Some match profileOf (user_id b) with
                 | ProfileFound p =>
                     Some match p_username p with
                          | Some (String c r) => String c r
                          | _ => ("User ID: " ++ user_id b)%string
                          end
                 | ProfileFailed _ | ProfileThrew _ => None
                 end)
    l enriched
  /\ map id enriched = map id l
  /\ AdminDashboard.totalRevenue enriched = AdminDashboard.totalRevenue l
  /\ AdminDashboard.activeBookings now enriched = AdminDashboard.activeBookings now l
  /\ Forall (fun e => user e = Some None
                      \/ exists c label, user e = Some (Some (String c label)))
            enriched.
Proof.
  intros enriched. subst enriched. rewrite enrich_is_map.
  split; [|split; [|split; [|split]]].
  - induction l as [|b l IH]; cbn [map]; constructor; [|exact IH].
    exact (enrichOne_fields profileOf b).
  - rewrite map_map. apply map_ext. intros b. apply labelled_keeps.
  - apply (revenue_of_map (fun b => fst (enrichOne profileOf b))).
    intros b. pose proof (labelled_keeps profileOf b). tauto.
  - apply (active_of_map (fun b => fst (enrichOne profileOf b))).
    intros b. pose proof (labelled_keeps profileOf b). tauto.
  - apply Forall_forall. intros e He. apply in_map_iff in He as (b & <- & _).
    destruct (enrichOne_fields profileOf b) as (_ & _ & _ & _ & _ & _ & _ & _ & _ & _ & U).
    rewrite U. destruct (profileOf (user_id b)) as [p|e|e]; auto.
    right. destruct (p_username p) as [[|c r]|]; cbn [append]; eauto.
Qed.

End AdminLoad.

Section AdminLoadMore.
Import JS JSText UI AdminDashboard AdminPage.
Context `{Host}.

Ltac run :=
  cbv beta iota zeta delta
    [Eff.exec Eff.bind Eff.modify Eff.try_catch Eff.try_finally Eff.ret
     Eff.throw Eff.when throwIf snd fst].

Ltac fields :=
  cbn [stats turfs users bookings loading turfToDelete turfsTable events
       setStats setTurfs setUsers setBookings setLoading setTurfToDelete
       setTurfsTable emit].

Lemma emit_all (l : list Event) (s : State) :
  fold_left (fun s e => emit e s) l s
  = {| stats := stats s; turfs := turfs s; users := users s; bookings := bookings s;
       loading := loading s; turfToDelete := turfToDelete s;
       turfsTable := turfsTable s; events := (events s ++ l)%list |}.
Proof.
  revert s. induction l as [|e l IH]; intros s; simpl.
  - rewrite app_nil_r. now destruct s.
  - rewrite IH. unfold emit. cbn [stats turfs users bookings loading turfToDelete
                                  turfsTable events].
    now rewrite <- app_assoc.
Qed.

Lemma or0_same (x : Z) : or0 x = x.
Proof. unfold or0. destruct (Z.eqb_spec x 0); congruence. Qed.

(** X13.  After a load in which no query fails, the figures of the dashboard
    are those of the list it shows in the bookings tab: the total is the
    length of that list, the revenue and the active count are computed from
    it, the recent bookings are its first five at most, and the active count
    lies between zero and the total.  A profile read that fails or throws
    does not fail the load, and no failure is shown. *)
Theorem load_figures_agree (now : Z) (r : Replies) (s : State)
    (count : option Z) (rows : option (list Booking))
    (turfRows : option (list Turf)) (profileRows : option (list Profile)) :
  profilesCount r = (count, None) -> allBookings r = (rows, None) ->
  allTurfs r = (turfRows, None) -> profilesData r = (profileRows, None) ->
  let s' := Eff.exec (fetchStats now r) s in
  totalBookings (stats s') = Z.of_nat (List.length (bookings s'))
  /\ totalRevenue (stats s') = AdminDashboard.totalRevenue (bookings s')
  /\ activeBookings (stats s') = AdminDashboard.activeBookings now (bookings s')
  /\ recentBookings (stats s') = firstn 5 (bookings s')
  /\ 0 <= activeBookings (stats s') <= totalBookings (stats s')
  /\ (List.length (recentBookings (stats s')) <= 5)%nat
  /\ map id (bookings s') = map id match rows with Some l => l | None => [] end
  /\ loading s' = false
  /\ (forall t, In (Toasted t) (events s') -> In (Toasted t) (events s)).
Proof.
  intros Hc Hb Ht Hp s'. subst s'. unfold fetchStats. run.
  rewrite Hc, Hb, Ht, Hp. run.
  set (pair := match rows with
               | Some (b :: l) => enrich (profileOf r) (b :: l)
               | _ => ([], [])
               end).
  assert (Hids : map id (fst pair) = map id match rows with Some l => l | None => [] end).
  { subst pair. destruct rows as [[|b l]|]; try reflexivity.
    rewrite enrich_is_map, map_map. apply map_ext. intros x. apply labelled_keeps. }
  assert (Hlog : forall t, ~ In (Toasted t) (snd pair)).
  { subst pair. destruct rows as [[|b l]|]; try (intros t []).
    intros t. unfold enrich. cbn [snd]. intros X. apply in_concat in X as (ev & X & Y).
    apply in_map_iff in X as (tu & <- & X). apply in_map_iff in X as (x & <- & _).
    unfold enrichOne in Y. destruct (profileOf r (user_id x)); cbn in Y; try contradiction.
    destruct Y as [Y|[]]. discriminate. }
  destruct pair as [enriched logged]. cbn [fst snd] in Hids, Hlog.
  rewrite emit_all. fields.
  rewrite !or0_same.
  assert (Hact : 0 <= AdminDashboard.activeBookings now enriched <= Z.of_nat (List.length enriched)).
  { rewrite activeBookings_counts_instants. split; [lia|].
    apply Nat2Z.inj_le, filter_length_le. }
  split; [reflexivity|]. split; [reflexivity|]. split; [reflexivity|].
  split; [reflexivity|]. split; [exact Hact|]. split; [apply firstn_le_length|].
  split; [exact Hids|]. split; [reflexivity|].
  intros t X. apply in_app_or in X as [X|[X|[]]]; [|discriminate].
  apply in_app_or in X as [X|X]; [exact X | now elim (Hlog t)].
Qed.

(** X14.  A load stops at the first query that fails, shows one failure and
    leaves what it had not yet set: a failure of the profile count or of the
    bookings query leaves the figures and all lists as they were; a failure
    of the turfs query comes after the figures and the bookings were set and
    leaves the turfs and the users; a failure of the profiles query leaves
    the users alone.  The page stops loading in every case. *)
Theorem load_stops_at_first_failure (now : Z) (r : Replies) (s : State) :
  let s' := Eff.exec (fetchStats now r) s in
  loading s' = false
  /\ (snd (profilesCount r) <> None \/ snd (allBookings r) <> None ->
      stats s' = stats s /\ bookings s' = bookings s /\ turfs s' = turfs s
      /\ users s' = users s
      /\ events s' = (events s ++ [ConsoleError "Error fetching admin data:";
                                   Toasted loadFailedToast])%list)
  /\ (snd (profilesCount r) = None -> snd (allBookings r) = None ->
      snd (allTurfs r) <> None ->
      totalBookings (stats s') = Z.of_nat (List.length (bookings s'))
      /\ totalRevenue (stats s') = AdminDashboard.totalRevenue (bookings s')
      /\ turfs s' = turfs s /\ users s' = users s
      /\ In (Toasted loadFailedToast) (events s'))
  /\ (snd (profilesCount r) = None -> snd (allBookings r) = None ->
      snd (allTurfs r) = None -> snd (profilesData r) <> None ->
      turfs s' = match fst (allTurfs r) with Some l => l | None => [] end
      /\ users s' = users s
      /\ In (Toasted loadFailedToast) (events s')).
Proof.
  intros s'. subst s'. unfold fetchStats. run.
  destruct (profilesCount r) as [count [e1|]]; run.
  { fields. rewrite <- app_assoc. cbn [snd].
    split; [reflexivity|]. split; [intros _; repeat split; reflexivity|].
    split; intros X; discriminate X. }
  destruct (allBookings r) as [rows [e2|]]; run.
  { fields. rewrite <- app_assoc. cbn [snd].
    split; [reflexivity|]. split; [intros _; repeat split; reflexivity|].
    split; intros _ X; discriminate X. }
  set (pair := match rows with
               | Some (b :: l) => enrich (profileOf r) (b :: l)
               | _ => ([], [])
               end).
  destruct pair as [enriched logged]. rewrite emit_all.
  destruct (allTurfs r) as [turfRows [e3|]]; run.
  { fields. rewrite !or0_same. cbn [snd].
    split; [reflexivity|]. split; [intros [X|X]; now elim X|].
    split; [|intros _ _ X; discriminate X].
    intros _ _ _. repeat (split; [reflexivity|]).
    apply in_or_app. right. now left. }
  destruct (profilesData r) as [profileRows [e4|]]; run.
  { fields. cbn [snd fst].
    split; [reflexivity|]. split; [intros [X|X]; now elim X|].
    split; [intros _ _ X; now elim X|].
    intros _ _ _ _. repeat (split; [reflexivity|]).
    apply in_or_app. right. now left. }
  fields. cbn [snd].
  split; [reflexivity|]. split; [intros [X|X]; now elim X|].
  split; [intros _ _ X; now elim X | intros _ _ _ X; now elim X].
Qed.

End AdminLoadMore.

Section AdminLoadExamples.
Import JS JSText UI AdminDashboard AdminPage.

Lemma load_figures_witness :
  let r := {| profilesCount := (Some 3, None);
              allBookings := (Some [Examples.adminBooking "confirmed" "2024-06-11" 1200;
                                    Examples.adminBooking "cancelled" "2024-06-12" 900],
                              None);
              profileOf := fun _ => ProfileThrew Examples.networkDown;
              allTurfs := (Some [], None);
              profilesData := (None, None) |} in
  let s := {| stats := initialStats; turfs := []; users := []; bookings := [];
              loading := true; turfToDelete := None; turfsTable := []; events := [] |} in
  let s' := Eff.exec (@fetchStats utcHost Examples.tenAM r) s in
  totalRevenue (stats s') = Number.of_Z 1200 /\ activeBookings (stats s') = 1
  /\ totalBookings (stats s') = 2 /\ loading s' = false.
Proof.
  intros r s s'.
  destruct (@load_figures_agree utcHost Examples.tenAM r s _ _ _ _
              eq_refl eq_refl eq_refl eq_refl)
    as (Hn & Hr & Ha & _ & _ & _ & _ & Hl & _).
  fold s' in Hn, Hr, Ha, Hl. rewrite Hn, Hr, Ha, Hl.
  split; [vm_compute; reflexivity | repeat split].
Defined.

End AdminLoadExamples.

(* ================================================================== *)
(** * The admin dashboard: deleting and searching *)
(* ================================================================== *)

Section AdminDelete.
Import JS JSText UI AdminDashboard AdminPage.

Ltac run :=
  cbv beta iota zeta delta
    [Eff.exec Eff.bind Eff.modify Eff.try_catch Eff.try_finally Eff.ret
     Eff.throw Eff.when throwIf snd fst].

Ltac fields :=
  cbn [stats turfs users bookings loading turfToDelete turfsTable events
       setStats setTurfs setUsers setBookings setLoading setTurfToDelete
       setTurfsTable emit].

(** X15.  Deleting a turf removes from the list and from the table exactly the
    turfs of the pending id: no turf of that id is left, every other turf
    stays, in order, and a list that showed the table still shows it.  When
    the backend refuses, the list and the table stay as they were and the
    failure is shown.  The pending id is cleared either way, and nothing else
    of the page changes. *)
Theorem delete_turf_outcomes (fault : option Backend.Error) (s : State)
    (c : ascii) (x : string) :
  turfToDelete s = Some (String c x) ->
  let s' := Eff.exec (handleDeleteTurf fault) s in
  turfToDelete s' = None
  /\ bookings s' = bookings s /\ stats s' = stats s /\ users s' = users s
  /\ match fault with
     | None =>
         turfs s' = filter (fun t => negb (String.eqb (tid t) (String c x))) (turfs s)
         /\ turfsTable s'
            = filter (fun t => negb (String.eqb (tid t) (String c x))) (turfsTable s)
         /\ (forall t, In t (turfs s') <-> In t (turfs s) /\ tid t <> String c x)
         /\ (turfs s = turfsTable s -> turfs s' = turfsTable s')
         /\ events s' = (events s ++ [Toasted turfDeletedToast])%list
     | Some _ =>
         turfs s' = turfs s /\ turfsTable s' = turfsTable s
         /\ events s' = (events s ++ [ConsoleError "Error deleting turf:";
                                      Toasted deleteFailedToast])%list
     end.
Proof.
  intros Hp s'. subst s'. unfold handleDeleteTurf, Eff.exec. cbv beta. rewrite Hp. run.
  destruct fault as [e|]; fields.
  - rewrite <- app_assoc. repeat split.
  - split; [reflexivity|]. split; [reflexivity|]. split; [reflexivity|].
    split; [reflexivity|]. split; [reflexivity|]. split; [reflexivity|].
    split; [|split; [|reflexivity]].
    + intros t. rewrite filter_In, negb_true_iff, String.eqb_neq. tauto.
    + intros E. now rewrite E.
Qed.

Lemma delete_turf_witness :
  let t1 := {| tid := "t1"; name := "Green Park"; location := "Pune";
               price := Number.of_Z 1200;
               capacity := 10; rating := 4; reviews := 12; t_created_at := "" |} in
  let t2 := {| tid := "t2"; name := "City Arena"; location := "Hyderabad";
               price := Number.of_Z 900;
               capacity := 14; rating := 5; reviews := 3; t_created_at := "" |} in
  let s := {| stats := initialStats; turfs := [t1; t2]; users := []; bookings := [];
              loading := false; turfToDelete := Some "t1"; turfsTable := [t1; t2];
              events := [] |} in
  turfs (Eff.exec (handleDeleteTurf None) s) = [t2]
  /\ turfs (Eff.exec (handleDeleteTurf (Some Examples.networkDown)) s) = [t1; t2].
Proof.
  intros t1 t2 s.
  destruct (delete_turf_outcomes None s "t" "1" eq_refl) as (_ & _ & _ & _ & E1 & _).
  destruct (delete_turf_outcomes (Some Examples.networkDown) s "t" "1" eq_refl)
    as (_ & _ & _ & _ & E2 & _).
  split; [rewrite E1 | rewrite E2]; reflexivity.
Defined.

End AdminDelete.

Section AdminSearch.
Import JS JSText UI AdminDashboard AdminPage.

Lemma prefix_empty (s : string) : String.prefix "" s = true.
Proof. now destruct s. Qed.

Lemma includes_empty (s : string) : includes s "" = true.
Proof. destruct s; cbn [includes]; now rewrite prefix_empty. Qed.

Lemma prefix_app (t r : string) : String.prefix t (t ++ r) = true.
Proof.
  induction t as [|c t IH]; simpl; [apply prefix_empty|].
  destruct (Ascii.ascii_dec c c) as [_|N]; [exact IH | now elim N].
Qed.

(** A text includes each of its parts. *)
Lemma includes_part (pre t post : string) : includes (pre ++ t ++ post) t = true.
Proof.
  induction pre as [|c pre IH].
  - change ("" ++ t ++ post) with (t ++ post).
    destruct (t ++ post) eqn:E; cbn [includes]; rewrite <- ?E, prefix_app; reflexivity.
  - change (String c pre ++ t ++ post) with (String c (pre ++ t ++ post)).
    cbn [includes]. rewrite IH. apply orb_true_r.
Qed.

Lemma toLowerCase_app (a b : string) :
  toLowerCase (a ++ b) = toLowerCase a ++ toLowerCase b.
Proof. induction a as [|c a IH]; simpl; [reflexivity | now rewrite IH]. Qed.

Lemma filter_all {A : Type} (f : A -> bool) (l : list A) :
  (forall x, f x = true) -> filter f l = l.
Proof.
  intros Hf. induction l as [|a l IH]; simpl; [reflexivity|]. now rewrite Hf, IH.
Qed.

(** X16.  The search box of the dashboard.  An empty search term shows every
    turf, user and booking.  A turf is found by any part of its name or of
    its location, whatever the letter case of the term; a booking is found
    by any part of its date as written. *)
Theorem search_finds (turfs : list Turf) (users : list User) (bookings : list Booking) :
  filteredTurfs turfs "" = turfs
  /\ filteredUsers users "" = users
  /\ filteredBookings bookings "" = bookings
  /\ (forall t term pre part post,
        In t turfs ->
        name t = pre ++ part ++ post \/ location t = pre ++ part ++ post ->
        toLowerCase term = toLowerCase part ->
        In t (filteredTurfs turfs term))
  /\ (forall b term pre post,
        In b bookings -> booking_date b = pre ++ term ++ post ->
        In b (filteredBookings bookings term)).
Proof.
  split; [|split; [|split; [|split]]].
  - apply filter_all. intros t. cbn [toLowerCase]. now rewrite includes_empty.
  - apply filter_all. intros u. cbn [toLowerCase]. now rewrite includes_empty.
  - apply filter_all. intros b. cbn [toLowerCase]. rewrite !includes_empty.
    now rewrite !orb_true_r.
  - intros t term pre part post Hin Hpart Hterm. apply filter_In. split; [exact Hin|].
    rewrite Hterm. destruct Hpart as [E|E]; rewrite E, !toLowerCase_app, includes_part.
    + reflexivity.
    + apply orb_true_r.
  - intros b term pre post Hin Hdate. apply filter_In. split; [exact Hin|].
    rewrite Hdate, includes_part. apply orb_true_r.
Qed.

Lemma search_witness :
  let t1 := {| tid := "t1"; name := "Green Park"; location := "Pune";
               price := Number.of_Z 1200;
               capacity := 10; rating := 4; reviews := 12; t_created_at := "" |} in
  let t2 := {| tid := "t2"; name := "City Arena"; location := "Hyderabad";
               price := Number.of_Z 900;
               capacity := 14; rating := 5; reviews := 3; t_created_at := "" |} in
  In t1 (filteredTurfs [t1; t2] "PARK")
  /\ filteredTurfs [t1; t2] "park" = [t1]
  /\ filteredTurfs [t1; t2] "" = [t1; t2].
Proof.
  intros t1 t2.
  destruct (search_finds [t1; t2] [] []) as (E & _ & _ & F & _).
  split; [|split; [reflexivity | exact E]].
  apply (F t1 "PARK" "Green " "Park" ""); [now left | now left | reflexivity].
Defined.

End AdminSearch.

(* ================================================================== *)
(** * The add-turf page *)
(* ================================================================== *)

Section Features.
Import JS JSText UI Words AddTurf.
Variable Num : Type.

Lemma trimEnd_idem (s : string) : trimEnd (trimEnd s) = trimEnd s.
Proof.
  induction s as [|c s IH]; cbn [trimEnd]; [reflexivity|].
  destruct (is_space c && is_empty (trimEnd s)) eqn:E; [reflexivity|].
  cbn [trimEnd]. rewrite IH, E. reflexivity.
Qed.

Lemma skip_spaces_head (s : string) :
  match skip_spaces s with
  | String c _ => is_space c = false
  | "" => True
  end.
Proof.
  induction s as [|c s IH]; cbn [skip_spaces]; [exact I|].
  destruct (is_space c) eqn:E; [exact IH | exact E].
Qed.

Lemma trim_idem (s : string) : trim (trim s) = trim s.
Proof.
  unfold trim. pose proof (skip_spaces_head s) as Hh.
  destruct (skip_spaces s) as [|c r]; [reflexivity|].
  cbn [trimEnd]. rewrite Hh. cbn [andb skip_spaces]. rewrite Hh.
  cbn [trimEnd]. rewrite trimEnd_idem, Hh. reflexivity.
Qed.

Lemma existsb_eqb_false (x : string) (l : list string) :
  existsb (String.eqb x) l = false -> ~ In x l.
Proof.
  intros E Hin. assert (X : existsb (String.eqb x) l = true).
  { apply existsb_exists. exists x. split; [exact Hin | apply String.eqb_refl]. }
  congruence.
Qed.

Lemma filter_neq_absent (x : string) (l : list string) :
  ~ In x l -> filter (fun f => negb (String.eqb f x)) l = l.
Proof.
  induction l as [|a l IH]; simpl; intros Hn; [reflexivity|].
  destruct (String.eqb_spec a x) as [->|_]; [elim Hn; now left|].
  simpl. rewrite IH; [reflexivity | tauto].
Qed.

Lemma NoDup_filter {A : Type} (f : A -> bool) (l : list A) :
  NoDup l -> NoDup (filter f l).
Proof.
  induction 1 as [|a l Hn Hd IH]; simpl; [constructor|].
  destruct (f a); [|exact IH]. constructor; [|exact IH].
  intros X. apply filter_In in X. tauto.
Qed.

(** X17.  The features of the form stay tidy: starting from a list without
    repetition, without empty entries and without white space at the ends of
    an entry (the empty list the page starts with is one), adding a feature
    and removing one give such a list again.  Adding leaves the other fields
    of the form alone, and a removal leaves no entry equal to the removed
    text. *)
Theorem features_stay_tidy (s : State Num) (x : string) :
  tidy (features (formData s)) ->
  tidy (features (formData (handleAddFeature s)))
  /\ tidy (features (formData (handleRemoveFeature x s)))
  /\ ~ In x (features (formData (handleRemoveFeature x s)))
  /\ name (formData (handleAddFeature s)) = name (formData s)
  /\ price (formData (handleAddFeature s)) = price (formData s)
  /\ capacity (formData (handleAddFeature s)) = capacity (formData s).
Proof.
  intros [Hnd Hall]. split; [|split; [|split]].
  - unfold handleAddFeature.
    destruct (negb (is_empty (trim (feature s)))) eqn:E1; cbn [andb]; [|now split].
    destruct (negb (existsb (String.eqb (trim (feature s))) (features (formData s)))) eqn:E2;
      [|now split].
    cbn. apply negb_true_iff in E1, E2. split.
    + apply NoDup_app; [exact Hnd | repeat constructor; intros [] |].
      intros a Ha [<-|[]]. now apply (existsb_eqb_false _ _ E2).
    + apply Forall_app. split; [exact Hall|]. constructor; [|constructor].
      split; [|apply trim_idem]. intros X. rewrite X in E1. discriminate.
  - unfold handleRemoveFeature. cbn. split; [now apply NoDup_filter|].
    apply Forall_forall. intros f Hf. apply filter_In in Hf as [Hf _].
    rewrite Forall_forall in Hall. now apply Hall.
  - unfold handleRemoveFeature. cbn. intros X. apply filter_In in X as [_ X].
    now rewrite String.eqb_refl in X.
  - unfold handleAddFeature.
    destruct (negb (is_empty (trim (feature s)))
              && negb (existsb (String.eqb (trim (feature s))) (features (formData s))));
      repeat split.
Qed.

(** X18.  Adding and removing a feature.  A text that is blank, or whose
    trimmed form is already listed, changes nothing, not even the input box.
    Any other text is appended in its trimmed form and the box is cleared;
    removing that feature afterwards gives back the list as it was. *)
Theorem add_then_remove (s : State Num) :
  (trim (feature s) = "" \/ In (trim (feature s)) (features (formData s)) ->
   handleAddFeature s = s)
  /\ (trim (feature s) <> "" -> ~ In (trim (feature s)) (features (formData s)) ->
      features (formData (handleAddFeature s))
      = (features (formData s) ++ [trim (feature s)])%list
      /\ feature (handleAddFeature s) = ""
      /\ features (formData (handleRemoveFeature (trim (feature s))
                               (handleAddFeature s)))
         = features (formData s)).
Proof.
  split.
  - intros Hwhy. unfold handleAddFeature. destruct Hwhy as [E|Hin].
    + now rewrite E.
    + replace (existsb (String.eqb (trim (feature s))) (features (formData s))) with true.
      * now rewrite andb_false_r.
      * symmetry. apply existsb_exists. exists (trim (feature s)).
        split; [exact Hin | apply String.eqb_refl].
  - intros Hne Hnin.
    assert (E : handleAddFeature s
                = setFeature ""
                    (setFormData
                       (withFeatures (features (formData s) ++ [trim (feature s)])%list
                                     (formData s)) s)).
    { unfold handleAddFeature. rewrite (is_empty_false _ Hne). cbn [negb andb].
      replace (existsb (String.eqb (trim (feature s))) (features (formData s))) with false;
        [reflexivity|].
      symmetry. destruct (existsb _ _) eqn:X; [|reflexivity].
      apply existsb_exists in X as (y & Hy & Ey). apply String.eqb_eq in Ey. subst y.
      now elim Hnin. }
    rewrite E. cbn. split; [reflexivity|]. split; [reflexivity|].
    rewrite filter_app. cbn. rewrite String.eqb_refl. cbn.
    rewrite app_nil_r. now apply filter_neq_absent.
Qed.

End Features.

Section FeaturesExamples.
Import JS JSText UI Words AddTurf.

Lemma features_stay_tidy_witness :
  let s := {| formData := {| name := "Green Park"; description := ""; location := "Pune";
                             price := "1200"; capacity := "10"; image := "";
                             features := ["Floodlights"] |};
              feature := "  Showers ";
              isSubmitting := false; rows := @nil (TurfInsert Z); events := [] |} in
  features (formData (handleAddFeature s)) = ["Floodlights"; "Showers"]
  /\ tidy (features (formData (handleAddFeature s)))
  /\ features (formData (handleRemoveFeature "Floodlights" s)) = [].
Proof.
  intros s.
  assert (T : tidy (features (formData s))).
  { split; [repeat constructor; intros []|].
    repeat constructor. discriminate. }
  destruct (features_stay_tidy Z s "Floodlights" T) as (Ha & _).
  split; [reflexivity|]. split; [exact Ha | reflexivity].
Defined.

End FeaturesExamples.

Section Submit.
Import JS JSText UI Log AddTurf.
Variable Num : Type.
Variable parseFloat : string -> option Num.

Ltac run :=
  cbv beta iota zeta delta
    [Eff.exec Eff.bind Eff.modify Eff.try_catch Eff.try_finally Eff.ret
     Eff.throw Eff.when snd fst].

Ltac fields :=
  cbn [formData feature isSubmitting rows events
       setFormData setFeature setIsSubmitting setRows emit].

(** X19.  [handleSubmit] stores at most one turf and changes no stored row.
    It stores one only for a signed-in administrator whose price and capacity
    texts both parse and whose insert the backend accepts; the row then
    belongs to that user, starts with rating 0 and no reviews, has the parsed
    numbers, and has the placeholder image when the image field is empty.
    Without a user or without the administrator flag the handler does nothing
    at all; in every other case the rows stay as they were, one failure is
    shown, and the form is released. *)
Theorem submit_outcomes (user : option Backend.User) (isAdmin : bool)
    (fault : option Backend.Error) (s : State Num) :
  let s' := Eff.exec (handleSubmit parseFloat user isAdmin fault) s in
  (user = None \/ isAdmin = false -> s' = s)
  /\ ((exists u p c row,
         user = Some u /\ isAdmin = true /\ fault = None
         /\ parseFloat (price (formData s)) = Some p
         /\ parseInt10 (capacity (formData s)) = Some c
         /\ rows s' = (rows s ++ [row])%list
         /\ t_owner_id row = Backend.uid u
         /\ t_price row = p /\ t_capacity row = c
         /\ t_rating row = 0 /\ t_reviews row = 0
         /\ t_image row <> ""
         /\ (image (formData s) <> "" -> t_image row = image (formData s))
         /\ t_features row = features (formData s)
         /\ isSubmitting s' = false
         /\ events s' = (events s ++ [Toasted turfAddedToast; Navigated "/my-turfs"])%list)
      \/ rows s' = rows s
         /\ forall u, user = Some u -> isAdmin = true ->
              isSubmitting s' = false
              /\ exists e,
                   events s' = (events s ++ [ConsoleError "Error adding turf:";
                                             Toasted (addFailedToast e)])%list
                   /\ ((parseFloat (price (formData s)) = None
                        \/ parseInt10 (capacity (formData s)) = None) ->
                       e = invalidNumbers)).
Proof.
  intros s'. subst s'. unfold handleSubmit.
  destruct user as [u|].
  2:{ split; [reflexivity|]. right. split; [reflexivity|]. intros u X. discriminate X. }
  destruct isAdmin.
  2:{ split; [reflexivity|]. right. split; [reflexivity|]. intros u' _ X. discriminate X. }
  cbn [negb]. run. fields.
  split; [intros [X|X]; discriminate X|].
  destruct (parseFloat (price (formData s))) as [p|] eqn:Ep.
  2:{ right. fields. split; [reflexivity|]. intros u' _ _. split; [reflexivity|].
      exists invalidNumbers. rewrite <- app_assoc. split; [reflexivity | auto]. }
  destruct (parseInt10 (capacity (formData s))) as [c|] eqn:Ec.
  2:{ right. fields. split; [reflexivity|]. intros u' _ _. split; [reflexivity|].
      exists invalidNumbers. rewrite <- app_assoc. split; [reflexivity | auto]. }
  run. destruct fault as [e|].
  - right. fields. split; [reflexivity|]. intros u' _ _. split; [reflexivity|].
    exists e. rewrite <- app_assoc. split; [reflexivity|].
    intros [X|X]; discriminate X.
  - left. eexists u, p, c, _. fields. rewrite <- app_assoc.
    repeat (split; [reflexivity|]).
    cbn [t_image t_features]. split; [|split; [|split; [reflexivity|split; reflexivity]]].
    + destruct (image (formData s)); [discriminate|discriminate].
    + intros X. destruct (image (formData s)); [now elim X | reflexivity].
Qed.

End Submit.

(* ================================================================== *)
(** * The testimonials carousel *)
(* ================================================================== *)

Section CarouselSteps.
Import Testimonials.

(** X20.  The two arrows of the carousel.  For any list of testimonials and an
    index within it, the next and the previous index are within it again,
    the last entry is followed by the first and the first preceded by the
    last, and each arrow undoes the other.  With no testimonial, as the
    component is built, neither arrow changes the index. *)
Theorem carousel_steps (items : list Testimonial) (i : Z) :
  let n := Z.of_nat (List.length items) in
  (0 <= i < n ->
     0 <= nextTestimonial items i < n
     /\ 0 <= prevTestimonial items i < n
     /\ prevTestimonial items (nextTestimonial items i) = i
     /\ nextTestimonial items (prevTestimonial items i) = i
     /\ nextTestimonial items (n - 1) = 0
     /\ prevTestimonial items 0 = n - 1)
  /\ (items = [] -> nextTestimonial items i = i /\ prevTestimonial items i = i)
  /\ nextTestimonial testimonials i = i
  /\ prevTestimonial testimonials i = i.
Proof.
  intros n. split; [|split; [|split]]; try reflexivity.
  2:{ intros ->. split; reflexivity. }
  intros Hi.
  assert (Hn : 0 < n) by lia.
  assert (N : forall j, 0 <= j < n ->
                nextTestimonial items j = if j + 1 =? n then 0 else j + 1).
  { intros j Hj. unfold nextTestimonial. fold n.
    replace (0 <? n) with true by (symmetry; now apply Z.ltb_lt).
    rewrite Z.rem_mod_nonneg by lia.
    destruct (Z.eqb_spec (j + 1) n) as [E|E].
    - rewrite E. apply Z.mod_same. lia.
    - apply Z.mod_small. lia. }
  assert (P : forall j, 0 <= j < n ->
                prevTestimonial items j = if j =? 0 then n - 1 else j - 1).
  { intros j Hj. unfold prevTestimonial. fold n.
    replace (0 <? n) with true by (symmetry; now apply Z.ltb_lt).
    rewrite Z.rem_mod_nonneg by lia.
    destruct (Z.eqb_spec j 0) as [E|E].
    - subst j. replace (0 - 1 + n) with (n - 1) by ring. apply Z.mod_small. lia.
    - replace (j - 1 + n) with ((j - 1) + 1 * n) by ring.
      rewrite Z.mod_add by lia. apply Z.mod_small. lia. }
  assert (In1 : 0 <= nextTestimonial items i < n)
    by (rewrite (N i Hi); destruct (Z.eqb_spec (i + 1) n); lia).
  assert (In2 : 0 <= prevTestimonial items i < n)
    by (rewrite (P i Hi); destruct (Z.eqb_spec i 0); lia).
  split; [exact In1|]. split; [exact In2|]. split; [|split; [|split]].
  - rewrite (P _ In1), (N i Hi).
    destruct (Z.eqb_spec (i + 1) n) as [E|E].
    + rewrite Z.eqb_refl. lia.
    + destruct (Z.eqb_spec (i + 1) 0); lia.
  - rewrite (N _ In2), (P i Hi).
    destruct (Z.eqb_spec i 0) as [E|E].
    + replace (n - 1 + 1) with n by ring. rewrite Z.eqb_refl. lia.
    + destruct (Z.eqb_spec (i - 1 + 1) n); lia.
  - rewrite (N (n - 1)) by lia. replace (n - 1 + 1) with n by ring.
    now rewrite Z.eqb_refl.
  - rewrite (P 0) by lia. reflexivity.
Qed.

Lemma carousel_witness :
  let t := {| name := "Asha"; title := "Captain"; image := ""; rating := 5;
              text := "Good pitch" |} in
  nextTestimonial [t; t; t] 2 = 0 /\ prevTestimonial [t; t; t] 0 = 2.
Proof.
  intros t.
  destruct (carousel_steps [t; t; t] 2) as [W _].
  destruct (W ltac:(cbn; lia)) as (_ & _ & _ & _ & E1 & E2).
  split; [exact E1 | exact E2].
Defined.

End CarouselSteps.

(* ================================================================== *)
(** * The two notification functions *)
(* ================================================================== *)

Section Functions.
Import UI Http.

(** X21.  The booking-notification function.  Every response carries the two
    CORS headers.  A preflight request is answered 200 with no body and no
    log, whatever it carries.  Otherwise a body with a booking is answered
    200 whatever its type and its address, and the function only logs the
    mail: a type other than 'confirmation', known or not, is treated exactly
    as a cancellation.  A body that cannot be read, or one without a booking,
    is answered 500 with the message of the error. *)
Theorem notification_replies (mail : bool -> BookingNotification.BookingInfo -> string)
    (method : string) (json : BookingNotification.Body) :
  let out := BookingNotification.handler mail method json in
  incl corsHeaders (headers (fst out))
  /\ (method = "OPTIONS" ->
      out = ({| status := 200; headers := corsHeaders; body := None |}, []))
  /\ (method <> "OPTIONS" ->
      (forall type email b,
          json = BookingNotification.Json type email (Some b) ->
          status (fst out) = 200
          /\ (type <> "confirmation" ->
              out = BookingNotification.handler mail method
                      (BookingNotification.Json "cancellation" email (Some b)))
          /\ In (ConsoleLog ("Email would be sent to: " ++ email)) (snd out))
      /\ (forall type email,
             json = BookingNotification.Json type email None -> status (fst out) = 500)
      /\ (forall e,
             json = BookingNotification.NoJson e ->
             status (fst out) = 500
             /\ body (fst out) = Some [("error", JString (Backend.message e))])).
Proof.
  intros out. subst out. unfold BookingNotification.handler.
  destruct (String.eqb_spec method "OPTIONS") as [E|E].
  - split; [apply incl_refl|]. split; [reflexivity|]. intros X. now elim X.
  - split.
    { destruct json as [e|type email [b|]]; cbn [fst headers];
        apply incl_appl, incl_refl. }
    split; [intros X; now elim E|]. intros _. split; [|split].
    + intros type email b ->. cbn [fst snd status]. split; [reflexivity|]. split.
      * intros Ht. apply String.eqb_neq in Ht. rewrite Ht.
        destruct (String.eqb_spec method "OPTIONS") as [X|_]; [now elim E|].
        reflexivity.
      * now left.
    + intros type email ->. reflexivity.
    + intros e ->. split; reflexivity.
Qed.

(** X22.  The send-booking-email function.  Every response carries the two
    CORS headers, and a preflight request touches neither the body nor the
    mail server.  The answer is 200 exactly when the body was read, the mail
    was sent and the connection was closed.  When sending fails the
    connection is never closed; and when only the closing fails the answer
    is 500 although the mail went out. *)
Theorem email_replies (method : string) (json : SendBookingEmail.Body)
    (smtp : SendBookingEmail.Smtp) :
  let out := SendBookingEmail.handler method json smtp in
  incl corsHeaders (headers (fst out))
  /\ (method = "OPTIONS" -> snd out = [] /\ status (fst out) = 200)
  /\ (method <> "OPTIONS" ->
      (status (fst out) = 200 <->
         (exists to subject html, json = SendBookingEmail.Json to subject html)
         /\ SendBookingEmail.sendFault smtp = None
         /\ SendBookingEmail.closeFault smtp = None)
      /\ (status (fst out) = 200 \/ status (fst out) = 500)
      /\ (In SendBookingEmail.Closed (snd out) -> status (fst out) = 200)
      /\ (forall to subject html e,
             json = SendBookingEmail.Json to subject html ->
             SendBookingEmail.sendFault smtp = None ->
             SendBookingEmail.closeFault smtp = Some e ->
             status (fst out) = 500
             /\ In (SendBookingEmail.Sent "Turf Booking <kicknclick2@gmail.com>"
                      to subject html) (snd out))).
Proof.
  intros out. subst out. unfold SendBookingEmail.handler.
  destruct (String.eqb_spec method "OPTIONS") as [E|E].
  - split; [apply incl_refl|]. split; [now split|]. intros X. now elim X.
  - split.
    { destruct json as [e|to subject html]; [apply incl_tl, incl_refl|].
      destruct (SendBookingEmail.sendFault smtp); [apply incl_tl, incl_refl|].
      destruct (SendBookingEmail.closeFault smtp); apply incl_tl, incl_refl. }
    split; [intros X; now elim E|]. intros _.
    destruct json as [e|to subject html].
    { cbn. split; [split; [discriminate | intros ((t & sj & h & X) & _); discriminate X]|].
      split; [now right|]. split; [intros [X|[]]; discriminate X|].
      intros t sj h e' X. discriminate X. }
    destruct (SendBookingEmail.sendFault smtp) as [e|] eqn:Es.
    { cbn. split; [split; [discriminate | intros (_ & X & _); discriminate X]|].
      split; [now right|]. split; [intros [X|[]]; discriminate X|].
      intros t sj h e' _ X. discriminate X. }
    destruct (SendBookingEmail.closeFault smtp) as [e|] eqn:Ec.
    { cbn. split; [split; [discriminate | intros (_ & _ & X); discriminate X]|].
      split; [now right|]. split; [intros [X|[X|[]]]; discriminate X|].
      intros t sj h e' X _ _. inversion X; subst. split; [reflexivity | now left]. }
    cbn. split; [split; [intros _; split; [eauto | split; reflexivity] | reflexivity]|].
    split; [now left|]. split; [reflexivity|].
    intros t sj h e' _ _ X. discriminate X.
Qed.

End Functions.

(* ================================================================== *)
(** * Across the pages *)
(* ================================================================== *)

Section Across.
Import JS Spec UI Reading.

(** The prices that count, for a table as the dashboard reads it. *)
Lemma counted_prices (turfName : string -> option string) (t : Backend.Table) :
  map AdminDashboard.total_price (filter notCancelled (map (ofRow turfName) t))
  = map Backend.total_price
        (filter (fun x => negb (String.eqb (Backend.status x) "cancelled")) t).
Proof.
  induction t as [|x t IH]; [reflexivity|]. cbn [map filter].
  unfold notCancelled at 1. cbn [ofRow AdminDashboard.status].
  destruct (negb (String.eqb (Backend.status x) "cancelled")); cbn [map];
    now rewrite IH.
Qed.

Lemma revenueOf_counted (turfName : string -> option string) (t u : Backend.Table) :
  filter (fun x => negb (String.eqb (Backend.status x) "cancelled")) t
  = filter (fun x => negb (String.eqb (Backend.status x) "cancelled")) u ->
  revenueOf turfName t = revenueOf turfName u.
Proof.
  intros E. unfold revenueOf, AdminDashboard.totalRevenue.
  now rewrite !revenue_fold, !counted_prices, E.
Qed.

(** Cancelling the rows of an id leaves the rows of the other ids to count. *)
Lemma counted_after_update (x : string) (t : Backend.Table) :
  filter (fun r => negb (String.eqb (Backend.status r) "cancelled"))
         (Backend.update_status x "cancelled" t)
  = filter (fun r => negb (String.eqb (Backend.status r) "cancelled"))
           (filter (fun r => negb (String.eqb (Backend.id r) x)) t).
Proof.
  unfold Backend.update_status. induction t as [|r t IH]; [reflexivity|].
  cbn [map filter]. destruct (String.eqb (Backend.id r) x); cbn [negb filter].
  - cbn [Backend.set_status Backend.status]. exact IH.
  - destruct (negb (String.eqb (Backend.status r) "cancelled")); now rewrite IH.
Qed.

Lemma whole_prices (amount : Backend.BookingRow -> Z) (t : Backend.Table) :
  (forall x, In x t -> Backend.total_price x = Number.of_Z (amount x)) ->
  map Backend.total_price t = map Number.of_Z (map amount t).
Proof.
  intros Hp. rewrite map_map. apply map_ext_in. exact Hp.
Qed.

Lemma sum_abs_filter (amount : Backend.BookingRow -> Z) (f : Backend.BookingRow -> bool)
    (t : Backend.Table) :
  sumZ (map Z.abs (map amount (filter f t))) <= sumZ (map Z.abs (map amount t)).
Proof.
  unfold sumZ. induction t as [|x t IH]; cbn [map filter fold_right]; [lia|].
  destruct (f x); cbn [map fold_right]; lia.
Qed.

(** The counted amounts split into those of one id and those of the others. *)
Lemma sum_split_by_id (amount : Backend.BookingRow -> Z) (x : string)
    (t : Backend.Table) :
  sumZ (map amount (filter (fun r => negb (String.eqb (Backend.status r) "cancelled")) t))
  = sumZ (map amount
            (filter (fun r => negb (String.eqb (Backend.status r) "cancelled"))
                    (filter (fun r => negb (String.eqb (Backend.id r) x)) t)))
    + sumZ (map amount
              (filter (fun r => negb (String.eqb (Backend.status r) "cancelled"))
                      (Backend.eq_id x t))).
Proof.
  unfold Backend.eq_id, sumZ. induction t as [|r t IH]; [reflexivity|]. cbn [filter].
  destruct (String.eqb (Backend.id r) x); cbn [negb filter];
    destruct (negb (String.eqb (Backend.status r) "cancelled"));
    cbn [map fold_right]; lia.
Qed.

(** X23.  From the cancellation to the dashboard.  Once the read and the
    update of a cancellation went through, the revenue that the dashboard
    computes from the table is the revenue of the rows of the other ids,
    whether or not the notification could be sent.  When the prices in the
    table are whole numbers whose magnitudes sum to at most 2^53, no sum is
    rounded, and the revenue is lower by exactly the price of the cancelled
    booking, or the same when that booking was cancelled before. *)
Theorem cancellation_lowers_revenue (turfName : string -> option string)
    (user : option Backend.User) (r : MyBookings.Replies) (s : MyBookings.State)
    (c : ascii) (cid : string) (row : Backend.BookingRow) :
  MyBookings.confirmCancelId s = Some (String c cid) ->
  Backend.eq_id (String c cid) (MyBookings.table s) = [row] ->
  MyBookings.fetchFault r = None -> MyBookings.updateFault r = None ->
  let after :=
    revenueOf turfName
      (MyBookings.table (Eff.exec (MyBookings.handleCancelConfirm user r) s)) in
  after
  = revenueOf turfName
      (filter (fun x => negb (String.eqb (Backend.id x) (String c cid)))
              (MyBookings.table s))
  /\ forall amount : Backend.BookingRow -> Z,
       (forall x, In x (MyBookings.table s) ->
                  Backend.total_price x = Number.of_Z (amount x)) ->
       sumZ (map Z.abs (map amount (MyBookings.table s))) <= 2 ^ 53 ->
       let before :=
         sumZ (map amount
                 (filter (fun x => negb (String.eqb (Backend.status x) "cancelled"))
                         (MyBookings.table s))) in
       revenueOf turfName (MyBookings.table s) = Number.of_Z before
       /\ after
          = Number.of_Z
              (before - (if String.eqb (Backend.status row) "cancelled"
                         then 0 else amount row)).
Proof.
  intros Hc Hrow Hf Hu after. subst after.
  rewrite (handleCancelConfirm_persists user r s c cid row Hc Hrow Hf Hu).
  set (t := MyBookings.table s) in *.
  set (others := filter (fun x => negb (String.eqb (Backend.id x) (String c cid))) t).
  assert (E : revenueOf turfName (Backend.update_status (String c cid) "cancelled" t)
              = revenueOf turfName others)
    by (apply revenueOf_counted, counted_after_update).
  split; [exact E|]. intros amount Hp Hb before.
  assert (W : forall u, (forall x, In x u -> In x t) ->
                        sumZ (map Z.abs (map amount u)) <= 2 ^ 53 ->
                        revenueOf turfName u
                        = Number.of_Z
                            (sumZ (map amount
                                     (filter (fun x => negb (String.eqb (Backend.status x)
                                                                        "cancelled")) u)))).
  { intros u Hin Hbu. unfold revenueOf. apply revenue_whole.
    - rewrite counted_prices. apply whole_prices.
      intros x Hx. apply Hp, Hin. now apply filter_In in Hx.
    - eapply Z.le_trans; [apply sum_abs_filter | exact Hbu]. }
  split; [apply W; [auto | exact Hb]|].
  rewrite E, W.
  - f_equal. subst before. rewrite (sum_split_by_id amount (String c cid) t).
    fold others. rewrite Hrow. cbn [filter].
    destruct (String.eqb (Backend.status row) "cancelled");
      cbn [negb map sumZ fold_right]; lia.
  - intros x Hx. now apply filter_In in Hx.
  - eapply Z.le_trans; [apply sum_abs_filter | exact Hb].
Qed.

Lemma cancellation_lowers_revenue_witness :
  let r := {| MyBookings.fetchFault := None; MyBookings.updateFault := None;
              MyBookings.notification := Backend.InvokeFailed Examples.networkDown |} in
  let s := Examples.myBookingsPage (Some "b1") in
  revenueOf (fun _ => None) (MyBookings.table s) = Number.of_Z 1200
  /\ revenueOf (fun _ => None)
       (MyBookings.table (Eff.exec (MyBookings.handleCancelConfirm (Some Examples.user) r) s))
     = Number.of_Z 0.
Proof.
  intros r s.
  destruct (cancellation_lowers_revenue (fun _ => None) (Some Examples.user) r s
              "b"%char "1" (Examples.row "confirmed") eq_refl eq_refl eq_refl eq_refl)
    as [_ W].
  destruct (W (fun _ => 1200)) as [W1 W2].
  - intros x [<-|[]]. reflexivity.
  - vm_compute. discriminate.
  - split; [exact W1 | exact W2].
Defined.

End Across.

Section StartInZone.
Import JS Spec MyBookings.
Context `{Host}.

(** X24.  Where the check places a booking.  In a time zone with a fixed
    offset, for a booking whose date is read as midnight UTC of day [d] and
    whose start time gives hour [h] and minute [m]: east of UTC (and on UTC)
    the start is [h:m] local time on day [d]; west of UTC it is [h:m] local
    time on the day before, because midnight UTC of [d] still belongs to the
    previous local day. *)
Theorem booking_start_in_zone (offset d h m : Z) (b : Booking) :
  (forall t isUTC, LocalTZA t isUTC = offset) ->
  - msPerDay <= offset < msPerDay ->
  Date_parse (booking_date b) = Some (d * msPerDay) ->
  startClock (start_time b) = Some (h, m) ->
  let day := if 0 <=? offset then d else d - 1 in
  let start := day * msPerDay + h * msPerHour + m * msPerMinute - offset in
  Z.abs start <= 8640000000000000 ->
  bookingStart b = Some start
  /\ forall now, canCancelBooking now b = (7 * msPerHour <=? start - now).
Proof.
  intros Hz Ho Hd Hc day start Hr.
  assert (E : bookingStart b = Some start).
  { unfold bookingStart. rewrite Hc, Hd.
    unfold setHours, LocalTime, UTC, MakeDate, MakeTime, TimeClip. rewrite !Hz.
    assert (Hday : Day (d * msPerDay + offset) = day).
    { subst day. unfold Day. destruct (Z.leb_spec 0 offset) as [P|N].
      - rewrite Z.add_comm, Z.div_add by discriminate.
        rewrite Z.div_small by lia. lia.
      - replace (d * msPerDay + offset) with ((offset + msPerDay) + (d - 1) * msPerDay) by ring.
        rewrite Z.div_add by discriminate. rewrite Z.div_small by lia. lia. }
    rewrite Hday.
    replace (day * msPerDay + (h * msPerHour + m * msPerMinute + 0 * msPerSecond + 0) - offset)
      with start by (subst start; ring).
    apply Z.leb_le in Hr. now rewrite Hr. }
  split; [exact E|]. intros now. now rewrite canCancelBooking_start, E.
Qed.

End StartInZone.

Section StartInZoneExamples.
Import JS Spec MyBookings Examples.

Lemma booking_start_in_zone_witness :
  let b := booking "confirmed" "2024-06-10" "03:00 PM" in
  @bookingStart istHost b = Some (midnight + 34200000)
  /\ @bookingStart newYorkHost b = Some (midnight - 18000000).
Proof.
  intros b.
  pose proof (@booking_start_in_zone istHost 19800000 19884 15 0 b
                (fun _ _ => eq_refl) ltac:(unfold msPerDay; lia) eq_refl eq_refl) as W1.
  pose proof (@booking_start_in_zone newYorkHost (-14400000) 19884 15 0 b
                (fun _ _ => eq_refl) ltac:(unfold msPerDay; lia) eq_refl eq_refl) as W2.
  cbv zeta in W1, W2.
  destruct (W1 ltac:(vm_compute; discriminate)) as [E1 _].
  destruct (W2 ltac:(vm_compute; discriminate)) as [E2 _].
  split; [exact E1 | exact E2].
Defined.

End StartInZoneExamples.

(* ================================================================== *)
(** * Who is notified *)
(* ================================================================== *)

Section Recipients.
Import JS Spec UI Log.

Ltac run :=
  cbv beta iota zeta delta
    [Eff.exec Eff.bind Eff.modify Eff.try_catch Eff.try_finally Eff.ret
     Eff.throw Eff.when TurfDetail.insertBooking TurfDetail.invoke
     MyBookings.selectSingle MyBookings.updateCancelled MyBookings.invoke
     MyBookings.throwIf snd fst].

Ltac none_invoked :=
  let n := fresh "n" in let rc := fresh "rc" in let Hin := fresh "Hin" in
  intros n rc Hin; cbn [In] in Hin;
  repeat (destruct Hin as [Hin|Hin]; [discriminate Hin|]); contradiction.

(** X25.  Who is notified.  [handleBooking] calls a notification function at
    most once, only after the row was stored, and then it is
    'send-booking-email' for the address of the signed-in user, which is not
    empty. *)
Theorem booking_notifies_the_user (user : option Backend.User) (date : option Z)
    (slot : option string) (turf : option TurfDetail.Turf) (r : TurfDetail.Replies)
    (s : TurfDetail.State) :
  let s' := Eff.exec (TurfDetail.handleBooking user date slot turf r) s in
  exists log,
    TurfDetail.events s' = (TurfDetail.events s ++ log)%list
    /\ (List.length (filter isInvoked log) <= 1)%nat
    /\ forall name rc,
         In (Invoked name rc) log ->
         name = "send-booking-email"
         /\ rc <> ""
         /\ (exists u, user = Some u /\ Backend.email u = Some rc)
         /\ exists row, TurfDetail.table s' = (TurfDetail.table s ++ [row])%list.
Proof.
  intros s'. subst s'.
  destruct user as [u|].
  2:{ cbn. exists [Toasted TurfDetail.authRequiredToast; Navigated "/auth"].
      rewrite <- app_assoc. split; [reflexivity|]. split; [cbn; lia | none_invoked]. }
  assert (Incomplete :
            exists log,
              TurfDetail.events
                (Eff.exec (Eff.modify (TurfDetail.emit (Toasted TurfDetail.incompleteToast))) s)
              = (TurfDetail.events s ++ log)%list
              /\ (List.length (filter isInvoked log) <= 1)%nat
              /\ forall name rc,
                   In (Invoked name rc) log ->
                   name = "send-booking-email" /\ rc <> ""
                   /\ (exists u0, Some u = Some u0 /\ Backend.email u0 = Some rc)
                   /\ exists row,
                        TurfDetail.table
                          (Eff.exec (Eff.modify
                                       (TurfDetail.emit (Toasted TurfDetail.incompleteToast))) s)
                        = (TurfDetail.table s ++ [row])%list).
  { exists [Toasted TurfDetail.incompleteToast]. split; [reflexivity|].
    split; [cbn; lia | none_invoked]. }
  destruct date as [d|]; [|exact Incomplete].
  destruct slot as [[|c0 sl0]|]; [exact Incomplete| |exact Incomplete].
  destruct turf as [t|]; [|exact Incomplete].
  clear Incomplete. unfold TurfDetail.handleBooking. run.
  destruct (TurfDetail.slotClock (String c0 sl0)) as [[hour minuteStr]|].
  2:{ exists [ConsoleError "Error booking turf:";
              Toasted (TurfDetail.bookingFailedToast TurfDetail.sliceOfNull)].
      cbn [TurfDetail.events TurfDetail.emit TurfDetail.setIsBooking].
      rewrite <- app_assoc. split; [reflexivity|]. split; [cbn; lia | none_invoked]. }
  destruct (TurfDetail.insertion r) as [new_id stamp|e].
  2:{ exists [ConsoleError "Error booking turf:"; Toasted (TurfDetail.bookingFailedToast e)].
      cbn [TurfDetail.events TurfDetail.emit TurfDetail.setIsBooking].
      rewrite <- app_assoc. split; [reflexivity|]. split; [cbn; lia | none_invoked]. }
  destruct (Backend.email u) as [[|c m]|] eqn:Em.
  - exists [ConsoleLog "Booking created:"; Toasted TurfDetail.bookingSuccessfulToast;
            Navigated "/my-bookings"].
    cbn [TurfDetail.events TurfDetail.emit TurfDetail.setIsBooking TurfDetail.setTable].
    rewrite <- !app_assoc. split; [reflexivity|]. split; [cbn; lia | none_invoked].
  - assert (Sent : forall name rc log0 log1,
               In (Invoked name rc)
                  (ConsoleLog "Booking created:"
                   :: Invoked "send-booking-email" (String c m) :: log0 ++ log1) ->
               (forall ev, In ev (log0 ++ log1) -> isInvoked ev = false) ->
               name = "send-booking-email" /\ rc <> ""
               /\ exists u0, Some u = Some u0 /\ Backend.email u0 = Some rc).
    { intros name rc log0 log1 [X|[X|X]] Hrest; [discriminate X| |].
      - inversion X; subst. split; [reflexivity|]. split; [discriminate|]. eauto.
      - specialize (Hrest _ X). discriminate Hrest. }
    destruct (TurfDetail.notification r) as [|e|e];
      cbn [TurfDetail.events TurfDetail.emit TurfDetail.setIsBooking TurfDetail.setTable
           TurfDetail.table];
      rewrite <- !app_assoc; cbn [app].
    + exists [ConsoleLog "Booking created:"; Invoked "send-booking-email" (String c m);
              ConsoleLog "Email response:"; Toasted TurfDetail.bookingSuccessfulToast;
              Navigated "/my-bookings"].
      split; [reflexivity|]. split; [cbn; lia|]. intros name rc Hin.
      destruct (Sent name rc [ConsoleLog "Email response:"]
                  [Toasted TurfDetail.bookingSuccessfulToast; Navigated "/my-bookings"] Hin)
        as (A & B & C).
      { intros ev [X|[X|[X|[]]]]; subst ev; reflexivity. }
      repeat split; eauto.
    + exists [ConsoleLog "Booking created:"; Invoked "send-booking-email" (String c m);
              ConsoleError "Error sending email:"; ConsoleLog "Email response:";
              Toasted TurfDetail.bookingSuccessfulToast; Navigated "/my-bookings"].
      split; [reflexivity|]. split; [cbn; lia|]. intros name rc Hin.
      destruct (Sent name rc [ConsoleError "Error sending email:"; ConsoleLog "Email response:"]
                  [Toasted TurfDetail.bookingSuccessfulToast; Navigated "/my-bookings"] Hin)
        as (A & B & C).
      { intros ev [X|[X|[X|[X|[]]]]]; subst ev; reflexivity. }
      repeat split; eauto.
    + exists [ConsoleLog "Booking created:"; Invoked "send-booking-email" (String c m);
              ConsoleError "Failed to send email:";
              Toasted TurfDetail.bookingSuccessfulToast; Navigated "/my-bookings"].
      split; [reflexivity|]. split; [cbn; lia|]. intros name rc Hin.
      destruct (Sent name rc [ConsoleError "Failed to send email:"]
                  [Toasted TurfDetail.bookingSuccessfulToast; Navigated "/my-bookings"] Hin)
        as (A & B & C).
      { intros ev [X|[X|[X|[]]]]; subst ev; reflexivity. }
      repeat split; eauto.
  - exists [ConsoleLog "Booking created:"; Toasted TurfDetail.bookingSuccessfulToast;
            Navigated "/my-bookings"].
    cbn [TurfDetail.events TurfDetail.emit TurfDetail.setIsBooking TurfDetail.setTable].
    rewrite <- !app_assoc. split; [reflexivity|]. split; [cbn; lia | none_invoked].
Qed.

End Recipients.

Section CancelRecipients.
Import JS Spec UI Log.

Ltac run :=
  cbv beta iota zeta delta
    [Eff.exec Eff.bind Eff.modify Eff.try_catch Eff.try_finally Eff.ret
     Eff.throw Eff.when MyBookings.selectSingle MyBookings.updateCancelled
     MyBookings.invoke MyBookings.throwIf snd fst].

Ltac shown :=
  cbn [MyBookings.events MyBookings.emit MyBookings.setIsCancelling
       MyBookings.setConfirmCancelId MyBookings.setTable MyBookings.setBookings
       MyBookings.table MyBookings.confirmCancelId];
  rewrite <- ?app_assoc; cbn [app].

Ltac none_invoked :=
  let n := fresh "n" in let rc := fresh "rc" in let Hin := fresh "Hin" in
  intros n rc Hin; cbn [In] in Hin;
  repeat (destruct Hin as [Hin|Hin]; [discriminate Hin|]); contradiction.

Ltac failed :=
  exists [ConsoleError "Error cancelling booking:"; Toasted MyBookings.cancelFailedToast];
  shown; split; [reflexivity|]; split; [cbn; lia | none_invoked].

(** X26.  Who is told of a cancellation.  [handleCancelConfirm] calls a
    notification function at most once, only after the read gave one row and
    the update went through, and then it is 'booking-notification' for the
    address of the signed-in user, which is not empty. *)
Theorem cancel_notifies_the_user (user : option Backend.User) (r : MyBookings.Replies)
    (s : MyBookings.State) :
  let s' := Eff.exec (MyBookings.handleCancelConfirm user r) s in
  exists log,
    MyBookings.events s' = (MyBookings.events s ++ log)%list
    /\ (List.length (filter isInvoked log) <= 1)%nat
    /\ forall name rc,
         In (Invoked name rc) log ->
         name = "booking-notification"
         /\ rc <> ""
         /\ (exists u, user = Some u /\ Backend.email u = Some rc)
         /\ exists cid row,
              MyBookings.confirmCancelId s = Some cid
              /\ Backend.eq_id cid (MyBookings.table s) = [row]
              /\ MyBookings.fetchFault r = None /\ MyBookings.updateFault r = None
              /\ MyBookings.table s'
                 = Backend.update_status cid "cancelled" (MyBookings.table s).
Proof.
  intros s'. subst s'. unfold MyBookings.handleCancelConfirm, Eff.exec. cbv beta.
  destruct (MyBookings.confirmCancelId s) as [[|c cid]|] eqn:Hc.
  1,3: exists []; rewrite app_nil_r; split; [reflexivity|]; split; [cbn; lia | none_invoked].
  run. destruct (MyBookings.fetchFault r) as [e|] eqn:Hf; [failed|].
  cbn [MyBookings.table MyBookings.setIsCancelling].
  destruct (Backend.eq_id (String c cid) (MyBookings.table s)) as [|row [|row2 rest]] eqn:Hrow;
    [failed| |failed].
  destruct (MyBookings.updateFault r) as [e|] eqn:Hu; [failed|].
  destruct user as [[u [[|c' m]|]]|].
  1,3,4: exists [Toasted MyBookings.bookingCancelledToast]; shown;
         split; [reflexivity|]; split; [cbn; lia | none_invoked].
  assert (Told : forall name rc rest,
             In (Invoked name rc) (Invoked "booking-notification" (String c' m) :: rest) ->
             (forall ev, In ev rest -> isInvoked ev = false) ->
             name = "booking-notification" /\ rc <> ""
             /\ exists u0, Some {| Backend.uid := u; Backend.email := Some (String c' m) |}
                           = Some u0 /\ Backend.email u0 = Some rc).
  { intros name rc rest [X|X] Hrest.
    - inversion X; subst. split; [reflexivity|]. split; [discriminate|]. eauto.
    - specialize (Hrest _ X). discriminate Hrest. }
  destruct (MyBookings.notification r) as [|e|e]; shown.
  - exists [Invoked "booking-notification" (String c' m);
            Toasted MyBookings.bookingCancelledToast].
    split; [reflexivity|]. split; [cbn; lia|]. intros name rc Hin.
    destruct (Told name rc _ Hin) as (A & B & C).
    { intros ev [X|[]]; subst ev; reflexivity. }
    split; [exact A|]. split; [exact B|]. split; [exact C|].
    exists (String c cid), row. repeat split; solve [reflexivity | exact Hrow].
  - exists [Invoked "booking-notification" (String c' m);
            Toasted MyBookings.bookingCancelledToast].
    split; [reflexivity|]. split; [cbn; lia|]. intros name rc Hin.
    destruct (Told name rc _ Hin) as (A & B & C).
    { intros ev [X|[]]; subst ev; reflexivity. }
    split; [exact A|]. split; [exact B|]. split; [exact C|].
    exists (String c cid), row. repeat split; solve [reflexivity | exact Hrow].
  - exists [Invoked "booking-notification" (String c' m);
            ConsoleError "Error cancelling booking:"; Toasted MyBookings.cancelFailedToast].
    split; [reflexivity|]. split; [cbn; lia|]. intros name rc Hin.
    destruct (Told name rc _ Hin) as (A & B & C).
    { intros ev [X|[X|[]]]; subst ev; reflexivity. }
    split; [exact A|]. split; [exact B|]. split; [exact C|].
    exists (String c cid), row. repeat split; solve [reflexivity | exact Hrow].
Qed.

End CancelRecipients.
